(** * MUSICAv0-workflows: the NEI date shifter, the hourly file scan and
      the regional emission scaling

    The scripts rely on Python's [datetime] (proleptic Gregorian calendar,
    years 1..9999), on [dateutil.relativedelta] and on [xarray] over
    [numpy].  The parts of these libraries the scripts go through are
    embedded here after their reference implementations; the scripts
    themselves are embedded function by function, under their own names. *)

From Stdlib Require Import ZArith List Bool Ascii String Lia.
From Stdlib Require PrimFloat Uint63.
From stdpp Require Import base list.
Import ListNotations.

Local Open Scope Z_scope.

(** ** The calendar of [datetime] *)

Module Calendar.

Definition MINYEAR : Z := 1.
Definition MAXYEAR : Z := 9999.
Definition MAXORDINAL : Z := 3652059.

(** [_is_leap]: year -> 1 if leap year, else 0. *)
Definition is_leap (year : Z) : bool :=
  (year mod 4 =? 0) && (negb (year mod 100 =? 0) || (year mod 400 =? 0)).

(** [_days_before_year]: number of days before January 1st of [year]. *)
Definition days_before_year (year : Z) : Z :=
  let y := year - 1 in
  y * 365 + y / 4 - y / 100 + y / 400.

(** [_DAYS_IN_MONTH], indexed from 1. *)
Definition DAYS_IN_MONTH (month : Z) : Z :=
  match month with
  | 1 => 31 | 2 => 28 | 3 => 31 | 4 => 30 | 5 => 31 | 6 => 30
  | 7 => 31 | 8 => 31 | 9 => 30 | 10 => 31 | 11 => 30 | 12 => 31
  | _ => -1
  end.

(** [_DAYS_BEFORE_MONTH], indexed from 1 (non-leap year). *)
Definition DAYS_BEFORE_MONTH (month : Z) : Z :=
  match month with
  | 1 => 0 | 2 => 31 | 3 => 59 | 4 => 90 | 5 => 120 | 6 => 151
  | 7 => 181 | 8 => 212 | 9 => 243 | 10 => 273 | 11 => 304 | 12 => 334
  | _ => -1
  end.

(** [_days_in_month]. *)
Definition days_in_month (year month : Z) : Z :=
  if (month =? 2) && is_leap year then 29 else DAYS_IN_MONTH month.

(** [_days_before_month]. *)
Definition days_before_month (year month : Z) : Z :=
  DAYS_BEFORE_MONTH month + (if (2 <? month) && is_leap year then 1 else 0).

(** [_ymd2ord]: ordinal of a date, 0001-01-01 being day 1. *)
Definition ymd2ord (year month day : Z) : Z :=
  days_before_year year + days_before_month year month + day.

Definition DI400Y : Z := 146097.
Definition DI100Y : Z := 36524.
Definition DI4Y : Z := 1461.

(** The month search at the end of [_ord2ymd]: [n] is the zero-based day
    of the year. *)
Definition month_of_yday (leapyear : bool) (n : Z) : Z * Z :=
  let month := Z.shiftr (n + 50) 5 in
  let preceding :=
    DAYS_BEFORE_MONTH month + (if (2 <? month) && leapyear then 1 else 0) in
  if n <? preceding then
    let month' := month - 1 in
    let preceding' :=
      preceding
      - (DAYS_IN_MONTH month' + (if (month' =? 2) && leapyear then 1 else 0)) in
    (month', n - preceding' + 1)
  else (month, n - preceding + 1).

(** [_ord2ymd]: ordinal -> (year, month, day). *)
Definition ord2ymd (ordinal : Z) : Z * Z * Z :=
  let n := ordinal - 1 in
  let n400 := n / DI400Y in
  let n := n mod DI400Y in
  let year := n400 * 400 + 1 in
  let n100 := n / DI100Y in
  let n := n mod DI100Y in
  let n4 := n / DI4Y in
  let n := n mod DI4Y in
  let n1 := n / 365 in
  let n := n mod 365 in
  let year := year + (n100 * 100 + n4 * 4 + n1) in
  if (n1 =? 4) || (n100 =? 4) then (year - 1, 12, 31)
  else
    let leapyear := (n1 =? 3) && (negb (n4 =? 24) || (n100 =? 3)) in
    let '(month, day) := month_of_yday leapyear n in
    (year, month, day).

(** A calendar date [datetime.date] accepts. *)
Definition valid_date (year month day : Z) : Prop :=
  MINYEAR <= year <= MAXYEAR /\ 1 <= month <= 12
  /\ 1 <= day <= days_in_month year month.

End Calendar.

Import Calendar.

(** ** Exceptions

    A call either returns a value or raises; the exceptions the scripts can
    meet are told apart by where the libraries raise them. *)

Inductive exn : Set :=
| ValueError_format      (* strptime: the data does not match the format,
                            or unconverted data remains *)
| ValueError_range       (* datetime constructor or replace: a field is out
                            of range *)
| ValueError_align       (* xarray: sizes along a dimension disagree *)
| TypeError              (* numpy: no product for the operand types *)
| OverflowError          (* datetime arithmetic: date value out of range *)
| OSError                (* open: an error other than FileNotFoundError *)
| OutOfFuel.             (* the model's loop bound was too small *)

Inductive result (A : Type) : Type :=
| Ok (a : A)
| Raise (e : exn).
Arguments Ok {A} a.
Arguments Raise {A} e.

Definition rbind {A B : Type} (r : result A) (k : A -> result B) : result B :=
  match r with
  | Ok a => k a
  | Raise e => Raise e
  end.

Notation "'do' x <~ r ;; k" := (rbind r (fun x => k))
  (at level 10, x name, r at level 99, k at level 200).

(** ** [datetime] and [timedelta] *)

Module DateTime.

(** A naive [datetime]; [strptime] without [%f] leaves the microseconds
    at 0 and no operation of the scripts changes them, so they are not
    carried. *)
Record datetime : Set := mkdatetime {
  year : Z; month : Z; day : Z;
  hour : Z; minute : Z; second : Z
}.

(** [_check_date_fields] and [_check_time_fields]. *)
Definition check_date_fields (y m d : Z) : bool :=
  (MINYEAR <=? y) && (y <=? MAXYEAR) && (1 <=? m) && (m <=? 12)
  && (1 <=? d) && (d <=? days_in_month y m).

Definition check_time_fields (hh mm ss : Z) : bool :=
  (0 <=? hh) && (hh <=? 23) && (0 <=? mm) && (mm <=? 59)
  && (0 <=? ss) && (ss <=? 59).

(** The arguments of the constructor are converted to C [int]s (32 bits)
    before they are checked; an integer that does not fit raises
    [OverflowError]. *)
Definition C_INT_MIN : Z := - 2 ^ 31.
Definition C_INT_MAX : Z := 2 ^ 31 - 1.

Definition fits_c_int (z : Z) : bool := (C_INT_MIN <=? z) && (z <=? C_INT_MAX).

(** The constructor [datetime(y, m, d, hh, mm, ss)]. *)
Definition new_datetime (y m d hh mm ss : Z) : result datetime :=
  if forallb fits_c_int [y; m; d; hh; mm; ss] then
    if check_date_fields y m d && check_time_fields hh mm ss
    then Ok (mkdatetime y m d hh mm ss)
    else Raise ValueError_range
  else Raise OverflowError.

Definition valid (dt : datetime) : Prop :=
  check_date_fields (year dt) (month dt) (day dt)
  && check_time_fields (hour dt) (minute dt) (second dt) = true.

(** [dt.replace(year=y, month=m, day=d)]. *)
Definition replace_ymd (dt : datetime) (y m d : Z) : result datetime :=
  new_datetime y m d (hour dt) (minute dt) (second dt).

Definition toordinal (dt : datetime) : Z :=
  ymd2ord (year dt) (month dt) (day dt).

(** [weekday()]: Monday is 0, Sunday is 6. *)
Definition weekday (dt : datetime) : Z := (toordinal dt + 6) mod 7.

(** A normalised [timedelta]: [0 <= seconds < 86400]. *)
Record timedelta : Set := mktimedelta { days : Z; seconds : Z }.

(** The constructor [timedelta(days=d, seconds=s)]. *)
Definition new_timedelta (d s : Z) : timedelta :=
  mktimedelta (d + s / 86400) (s mod 86400).

Definition day_seconds (dt : datetime) : Z :=
  second dt + minute dt * 60 + hour dt * 3600.

(** [datetime.__sub__] on two datetimes. *)
Definition sub (a b : datetime) : timedelta :=
  new_timedelta (toordinal a - toordinal b) (day_seconds a - day_seconds b).

(** [datetime.__add__] with a timedelta. *)
Definition add (dt : datetime) (td : timedelta) : result datetime :=
  let delta :=
    new_timedelta (toordinal dt + days td) (day_seconds dt + seconds td) in
  let hh := seconds delta / 3600 in
  let rem := seconds delta mod 3600 in
  let mm := rem / 60 in
  let ss := rem mod 60 in
  if (0 <? days delta) && (days delta <=? MAXORDINAL) then
    let '(y, m, d) := ord2ymd (days delta) in
    Ok (mkdatetime y m d hh mm ss)
  else Raise OverflowError.

(** [datetime._cmp]: the fields compared as a tuple. *)
Definition cmp (a b : datetime) : comparison :=
  match year a ?= year b with
  | Eq =>
    match month a ?= month b with
    | Eq =>
      match day a ?= day b with
      | Eq =>
        match hour a ?= hour b with
        | Eq =>
          match minute a ?= minute b with
          | Eq => second a ?= second b
          | c => c
          end
        | c => c
        end
      | c => c
      end
    | c => c
    end
  | c => c
  end.

(** [a <= b]. *)
Definition le (a b : datetime) : bool :=
  match cmp a b with Gt => false | _ => true end.

(** Seconds since the start of day 0 of the calendar. *)
Definition total_seconds (dt : datetime) : Z :=
  toordinal dt * 86400 + day_seconds dt.

(** The datetime [s] seconds after the start of day 0. *)
Definition of_total_seconds (s : Z) : datetime :=
  let '(y, m, d) := ord2ymd (s / 86400) in
  let r := s mod 86400 in
  mkdatetime y m d (r / 3600) ((r mod 3600) / 60) ((r mod 3600) mod 60).

End DateTime.

Import DateTime.

(** ** [dateutil.relativedelta] restricted to [relativedelta(years=n)] *)

Module RelativeDelta.

(** [calendar.monthrange(year, month)[1]]. *)
Definition monthrange_ndays (y m : Z) : Z := days_in_month y m.

(** [dt + relativedelta(years=n)]: the year is replaced, the day clamped
    to the length of the month, and the (zero) day and time offsets of the
    relativedelta are added as a timedelta. *)
Definition add_years (dt : datetime) (n : Z) : result datetime :=
  let y := year dt + n in
  let m := month dt in
  let d := Z.min (monthrange_ndays y m) (day dt) in
  do replaced <~ replace_ymd dt y m d ;;
  add replaced (new_timedelta 0 0).

(** [dt - relativedelta(years=n)] is [(-relativedelta(years=n)) + dt]. *)
Definition sub_years (dt : datetime) (n : Z) : result datetime :=
  add_years dt (- n).

End RelativeDelta.

Import RelativeDelta.

(** ** [strftime] and [strptime]

    Python strings are modelled by [string], one character per element
    (ASCII text).  A format is its list of directives. *)

Module TimeFormat.

Local Open Scope string_scope.

Inductive directive : Set :=
| DY | Dm | Dd | DH | DM | DS      (* %Y %m %d %H %M %S *)
| DLit (c : ascii).                 (* any other character *)

(** ['%Y-%m-%d_%H:%M:%S'] *)
Definition fmt_datetime : list directive :=
  [DY; DLit "-"; Dm; DLit "-"; Dd; DLit "_"; DH; DLit ":"; DM; DLit ":"; DS].

(** ['_%Y-%m-%d_%H:00:00'] *)
Definition fmt_hourly : list directive :=
  [DLit "_"; DY; DLit "-"; Dm; DLit "-"; Dd; DLit "_"; DH;
   DLit ":"; DLit "0"; DLit "0"; DLit ":"; DLit "0"; DLit "0"].

(** *** Formatting *)

Definition digit_char (d : Z) : ascii := ascii_of_N (Z.to_N (48 + d)).

Definition pad2 (v : Z) : string :=
  String (digit_char (v / 10)) (String (digit_char (v mod 10)) "").

(** A number below 10000 in four digits, zero-filled. *)
Definition pad4 (v : Z) : string :=
  String (digit_char (v / 1000))
    (String (digit_char (v / 100 mod 10))
       (String (digit_char (v / 10 mod 10))
          (String (digit_char (v mod 10)) ""))).

(** [%Y]: [datetime.strftime] hands the year to the [strftime] of the C
    library, which writes it in decimal: four digits from 1000 on, and,
    with glibc, no leading zeros below 1000 (['999'], not ['0999']). *)
Definition year_text (v : Z) : string :=
  if (1000 <=? v)%Z then pad4 v
  else if (100 <=? v)%Z then String (digit_char (v / 100)) (pad2 (v mod 100))
  else if (10 <=? v)%Z then pad2 v
  else String (digit_char v) "".

Definition render (d : directive) (dt : datetime) : string :=
  match d with
  | DY => year_text (year dt)
  | Dm => pad2 (month dt)
  | Dd => pad2 (day dt)
  | DH => pad2 (hour dt)
  | DM => pad2 (minute dt)
  | DS => pad2 (second dt)
  | DLit c => String c ""
  end.

Fixpoint strftime (fmt : list directive) (dt : datetime) : string :=
  match fmt with
  | [] => ""
  | d :: fmt' => render d dt ++ strftime fmt' dt
  end.

(** *** Parsing: the regular expression [_strptime] compiles a format to *)

Definition charclass : Type := ascii -> bool.

Definition chr (c : ascii) : charclass := Ascii.eqb c.

Definition rng (lo hi : ascii) : charclass :=
  fun c => (N_of_ascii lo <=? N_of_ascii c)%N && (N_of_ascii c <=? N_of_ascii hi)%N.

(** [\d], on ASCII text. *)
Definition dig : charclass := rng "0" "9".

Inductive re_item : Type :=
| RLit (c : ascii)
| RGroup (d : directive) (alts : list (list charclass)).

(** The table of [TimeRE]. *)
Definition re_of_directive (d : directive) : re_item :=
  match d with
  | DY => RGroup DY [[dig; dig; dig; dig]]
  | Dm => RGroup Dm [[chr "1"; rng "0" "2"]; [chr "0"; rng "1" "9"]; [rng "1" "9"]]
  | Dd => RGroup Dd [[chr "3"; rng "0" "1"]; [rng "1" "2"; dig];
                     [chr "0"; rng "1" "9"]; [rng "1" "9"]; [chr " "; rng "1" "9"]]
  | DH => RGroup DH [[chr "2"; rng "0" "3"]; [rng "0" "1"; dig]; [dig]]
  | DM => RGroup DM [[rng "0" "5"; dig]; [dig]]
  | DS => RGroup DS [[chr "6"; rng "0" "1"]; [rng "0" "5"; dig]; [dig]]
  | DLit c => RLit c
  end.

(** One branch of an alternation, matched at the head of [s]: the text
    matched and the rest. *)
Fixpoint match_seq (cs : list charclass) (s : string) : option (string * string) :=
  match cs with
  | [] => Some ("", s)
  | p :: cs' =>
    match s with
    | EmptyString => None
    | String c r =>
      if p c then
        match match_seq cs' r with
        | Some (m, rest) => Some (String c m, rest)
        | None => None
        end
      else None
    end
  end.

(** The first element of [l] on which [f] succeeds. *)
Definition first_some {A B : Type} (f : A -> option B) : list A -> option B :=
  fix go (l : list A) : option B :=
    match l with
    | [] => None
    | a :: l' => match f a with Some b => Some b | None => go l' end
    end.

(** [re.match]: the branches of a group are tried in order, and a branch
    is given up when the rest of the expression does not match after it.
    The result is the text of each group and the unmatched rest. *)
Fixpoint re_match (re : list re_item) (s : string)
  : option (list (directive * string) * string) :=
  match re with
  | [] => Some ([], s)
  | RLit c :: re' =>
    match s with
    | EmptyString => None
    | String c' r => if Ascii.eqb c c' then re_match re' r else None
    end
  | RGroup d alts :: re' =>
    first_some
      (fun a =>
         match match_seq a s with
         | Some (m, r) =>
           match re_match re' r with
           | Some (ms, rest) => Some ((d, m) :: ms, rest)
           | None => None
           end
         | None => None
         end)
      alts
  end.

Definition digit_val (c : ascii) : Z := Z.of_N (N_of_ascii c) - 48.

(** [int(m)] on the text of a group: decimal digits, after optional
    blanks. *)
Fixpoint int_digits (acc : Z) (s : string) : Z :=
  match s with
  | EmptyString => acc
  | String c r => int_digits (if dig c then acc * 10 + digit_val c else acc) r
  end.

Definition int (s : string) : Z := int_digits 0 s.

(** The fields [_strptime] collects, with its defaults. *)
Record fields : Set := mkfields {
  f_year : Z; f_month : Z; f_day : Z;
  f_hour : Z; f_minute : Z; f_second : Z
}.

Definition default_fields : fields := mkfields 1900 1 1 0 0 0.

Definition set_field (f : fields) (g : directive * string) : fields :=
  let v := int (snd g) in
  match fst g with
  | DY => mkfields v (f_month f) (f_day f) (f_hour f) (f_minute f) (f_second f)
  | Dm => mkfields (f_year f) v (f_day f) (f_hour f) (f_minute f) (f_second f)
  | Dd => mkfields (f_year f) (f_month f) v (f_hour f) (f_minute f) (f_second f)
  | DH => mkfields (f_year f) (f_month f) (f_day f) v (f_minute f) (f_second f)
  | DM => mkfields (f_year f) (f_month f) (f_day f) (f_hour f) v (f_second f)
  | DS => mkfields (f_year f) (f_month f) (f_day f) (f_hour f) (f_minute f) v
  | DLit _ => f
  end.

(** [datetime.strptime(s, fmt)]. *)
Definition strptime (s : string) (fmt : list directive) : result datetime :=
  match re_match (map re_of_directive fmt) s with
  | None => Raise ValueError_format            (* does not match format *)
  | Some (groups, rest) =>
    match rest with
    | EmptyString =>
      let f := fold_left set_field groups default_fields in
      new_datetime (f_year f) (f_month f) (f_day f)
                   (f_hour f) (f_minute f) (f_second f)
    | String _ _ => Raise ValueError_format    (* unconverted data remains *)
    end
  end.

(** The slice [s[n:]]. *)
Fixpoint slice_from (n : nat) (s : string) : string :=
  match n, s with
  | O, _ => s
  | S n', String _ r => slice_from n' r
  | S _, EmptyString => ""
  end.

(** The text is nineteen characters laid out as [YYYY-MM-DD_HH:MM:SS]:
    digits at the digit places and the separators between them. *)
Definition fixed_width (s : string) : bool :=
  match match_seq
          [dig; dig; dig; dig; chr "-"; dig; dig; chr "-"; dig; dig; chr "_";
           dig; dig; chr ":"; dig; dig; chr ":"; dig; dig] s with
  | Some (_, EmptyString) => true
  | _ => false
  end.

End TimeFormat.

Import TimeFormat.

(** ** emissions/NEIfileDatetime_shift_BYweekofday.py *)

Module NEIShift.

Local Open Scope string_scope.

(** [NEIfileDatetime_shift_BYweekofday(inpNEIfile, outyear)], up to the
    adjusted datetime.  The line the function prints (the two weekday
    names) is not part of its result. *)
Definition shift_BYweekofday_datetime (inpNEIfile : string) (outyear : Z)
  : result datetime :=
  do inp_date_time_obj <~ strptime (slice_from 13 inpNEIfile) fmt_datetime ;;
  let nyears := outyear - year inp_date_time_obj in
  do outp_date_time_obj <~ add_years inp_date_time_obj nyears ;;
  let delta_days := sub outp_date_time_obj inp_date_time_obj in
  let num_weeks_shift := days delta_days / 7 in
  let remaining_days := days delta_days mod 7 in
  add outp_date_time_obj (new_timedelta (- remaining_days) 0).

Definition NEIfileDatetime_shift_BYweekofday (inpNEIfile : string) (outyear : Z)
  : result string :=
  do adjt_outp_date_time_obj <~ shift_BYweekofday_datetime inpNEIfile outyear ;;
  Ok ("wrfchemi_d01_" ++ strftime fmt_datetime adjt_outp_date_time_obj).

(** [NEIfileDatetime_shift_BACKWARDto2017(outpNEIfile_datetime, outyear)],
    up to the adjusted datetime; [outyear] is not read by the body. *)
Definition shift_BACKWARDto2017_datetime (outpNEIfile_datetime : string)
  (outyear : Z) : result datetime :=
  do outp_date_time_obj <~ strptime outpNEIfile_datetime fmt_datetime ;;
  let nyears := year outp_date_time_obj - 2017 in
  do inp_date_time_obj <~ sub_years outp_date_time_obj nyears ;;
  let delta_days := sub outp_date_time_obj inp_date_time_obj in
  let num_weeks_shift := days delta_days / 7 in
  let remaining_days := days delta_days mod 7 in
  add inp_date_time_obj (new_timedelta remaining_days 0).

Definition NEIfileDatetime_shift_BACKWARDto2017 (outpNEIfile_datetime : string)
  (outyear : Z) : result string :=
  do adjt_inp_date_time_obj <~
     shift_BACKWARDto2017_datetime outpNEIfile_datetime outyear ;;
  Ok (strftime fmt_datetime adjt_inp_date_time_obj).

End NEIShift.

Import NEIShift.

(** ** utilities/find_missing_files.py *)

Module MissingFiles.

Local Open Scope string_scope.

(** What [open(file_path, 'r')] can do: succeed, raise
    [FileNotFoundError], or raise another error, which the function does
    not catch. *)
Inductive open_outcome : Set := Opened | FileNotFound | OtherError.

(** The returned dict. *)
Record report : Set := mkreport {
  missing_files : list string;
  expected_files : list string
}.

(** [while current_date <= end_date: ...].  The fuel bounds the number of
    tests of the loop condition. *)
Fixpoint expected_loop (fuel : nat) (filedir file_prefix : string)
  (end_date current_date : datetime) (expected_files : list string)
  : result (list string) :=
  match fuel with
  | O => Raise OutOfFuel
  | S fuel' =>
    if le current_date end_date then
      let file_name := file_prefix ++ strftime fmt_hourly current_date in
      let expected_files := (expected_files ++ [(filedir ++ file_name)%string])%list in
      do current_date <~ add current_date (new_timedelta 0 3600) ;;
      expected_loop fuel' filedir file_prefix end_date current_date expected_files
    else Ok expected_files
  end.

Section WithFileSystem.

(** The state of the file system, as [open] sees it. *)
Variable fs : string -> open_outcome.

(** [for file_path in expected_files: try: open ... except
    FileNotFoundError: missing_files.append(file_path)]. *)
Fixpoint missing_loop (files missing_files : list string)
  : result (list string) :=
  match files with
  | [] => Ok missing_files
  | file_path :: files' =>
    match fs file_path with
    | Opened => missing_loop files' missing_files
    | FileNotFound => missing_loop files' (missing_files ++ [file_path])%list
    | OtherError => Raise OSError
    end
  end.

Definition find_missing_files_v1 (fuel : nat)
  (startDatetime endDatetime filedir file_prefix : string) : result report :=
  do start_date <~ strptime startDatetime fmt_datetime ;;
  do end_date <~ strptime endDatetime fmt_datetime ;;
  do expected_files <~
     expected_loop fuel filedir file_prefix end_date start_date [] ;;
  do missing_files <~ missing_loop expected_files [] ;;
  Ok (mkreport missing_files expected_files).

End WithFileSystem.

(** The name the loop builds for [dt], spelled out. *)
Definition hourly_name (filedir file_prefix : string) (dt : datetime) : string :=
  filedir ++ (file_prefix ++ ("_" ++ year_text (year dt) ++ "-"
                             ++ pad2 (month dt) ++ "-" ++ pad2 (day dt) ++ "_"
                             ++ pad2 (hour dt) ++ ":00:00")).

End MissingFiles.

Import MissingFiles.

(** ** emissions/ne30CONUSne30x8_scale_emissions_by_Canadaregion_c20260212.py *)

Module Scaling.

Local Open Scope string_scope.

Section Values.

(** numpy's element types, the elements of the arrays and the type of
    [scalefactor]. *)
Variable np_dtype : Type.
Variable V : Type.
Variable K : Type.

(** The dtype of [da * scalefactor] for an array of dtype [d]; [None]
    when numpy has no product for [d] and the expression raises
    [TypeError]. *)
Variable product_dtype : np_dtype -> K -> option np_dtype.

(** One element of [da * scalefactor], for an array of dtype [d]. *)
Variable product : np_dtype -> V -> K -> V.

(** [np.result_type]: the dtype [where] brings its two branches to. *)
Variable result_type : np_dtype -> np_dtype -> np_dtype.

(** [astype]: an element of the first dtype converted to the second. *)
Variable astype : np_dtype -> np_dtype -> V -> V.

(** One value of an array, with its index along ['ncol'] (meaningful
    when the array has that dimension). *)
Record cell : Type := mkcell { col : nat; val : V }.

Inductive attr : Type :=
| AStr (s : string)
| AFloat (x : K).

Record data_array : Type := mkda {
  dtype : np_dtype;
  dims : list string;
  ncol_size : nat;                       (* sizes['ncol'] *)
  cells : list cell;
  attrs : list (string * attr)
}.

(** [Dataset.data_vars]: an ordered mapping from names to arrays. *)
Definition dataset : Type := list (string * data_array).

Fixpoint get {A : Type} (m : list (string * A)) (k : string) : option A :=
  match m with
  | [] => None
  | (k', a) :: m' => if String.eqb k k' then Some a else get m' k
  end.

(** [m[k] = a]: an existing key keeps its place. *)
Fixpoint set {A : Type} (m : list (string * A)) (k : string) (a : A)
  : list (string * A) :=
  match m with
  | [] => [(k, a)]
  | (k', a') :: m' =>
    if String.eqb k k' then (k', a) :: m' else (k', a') :: set m' k a
  end.

(** [attrs.update({...})]. *)
Definition update (m : list (string * attr)) (kvs : list (string * attr))
  : list (string * attr) :=
  fold_left (fun m kv => set m (fst kv) (snd kv)) kvs m.

(** The values of [da.where(~mask_da, other=da * scalefactor)] when the
    product has dtype [d']: both branches are brought to their common
    dtype; where the condition [~mask] holds the value of [da] is taken,
    elsewhere that of the product. *)
Definition where_cells (da : data_array) (mask_da : list bool)
  (scalefactor : K) (d' : np_dtype) : list cell :=
  map (fun c =>
         match mask_da !! col c with
         | Some true =>
           mkcell (col c)
             (astype d' (result_type (dtype da) d')
                (product (dtype da) (val c) scalefactor))
         | _ =>
           mkcell (col c) (astype (dtype da) (result_type (dtype da) d') (val c))
         end)
      (cells da).

(** [da.where(~mask_da, other=da * scalefactor)]: the product is computed
    first and raises where numpy has none; the mask is then aligned along
    ['ncol'] and broadcast over the other dimensions.  Attributes are
    kept. *)
Definition where_not_mask (da : data_array) (mask_da : list bool)
  (scalefactor : K) : result data_array :=
  match product_dtype (dtype da) scalefactor with
  | None => Raise TypeError
  | Some d' =>
    if Nat.eqb (ncol_size da) (length mask_da) then
      Ok (mkda (result_type (dtype da) d') (dims da) (ncol_size da)
            (where_cells da mask_da scalefactor d')
            (attrs da))
    else Raise ValueError_align
  end.

Definition mem (k : string) (l : list string) : bool :=
  existsb (String.eqb k) l.

(** The loop [for var in spci_ds.data_vars: ...] over the names [vars]
    still to visit. *)
Fixpoint scale_loop (coord_like_vars : list string) (mask_da : list bool)
  (scalefactor : K) (regionMask : string) (vars : list string)
  (spci_ds : dataset) : result dataset :=
  match vars with
  | [] => Ok spci_ds
  | var :: vars' =>
    if mem var coord_like_vars then
      scale_loop coord_like_vars mask_da scalefactor regionMask vars' spci_ds
    else
      match get spci_ds var with
      | None => scale_loop coord_like_vars mask_da scalefactor regionMask vars' spci_ds
      | Some da =>
        if negb (mem "ncol" (dims da)) then
          scale_loop coord_like_vars mask_da scalefactor regionMask vars' spci_ds
        else
          do scaled <~ where_not_mask da mask_da scalefactor ;;
          let scaled :=
            mkda (dtype scaled) (dims scaled) (ncol_size scaled) (cells scaled)
              (update (attrs scaled)
                 [("region_scaling_applied", AStr "True");
                  ("region_mask_name", AStr regionMask);
                  ("region_scale_factor", AFloat scalefactor)]) in
          scale_loop coord_like_vars mask_da scalefactor regionMask vars'
            (set spci_ds var scaled)
      end
  end.

(** The scaling step of [scale_bb_emissions_by_mask], on the data
    variables of the opened file. *)
Definition scale_data_vars (coord_like_vars : list string)
  (mask_da : list bool) (scalefactor : K) (regionMask : string)
  (spci_ds : dataset) : result dataset :=
  scale_loop coord_like_vars mask_da scalefactor regionMask
    (map fst spci_ds) spci_ds.

(** What the loop makes of an array it scales, when numpy has the
    product. *)
Definition scaled (mask_da : list bool) (scalefactor : K) (regionMask : string)
  (da : data_array) : option data_array :=
  match product_dtype (dtype da) scalefactor with
  | None => None
  | Some d' =>
    Some (mkda (result_type (dtype da) d') (dims da) (ncol_size da)
            (where_cells da mask_da scalefactor d')
            (update (attrs da)
               [("region_scaling_applied"%string, AStr "True");
                ("region_mask_name"%string, AStr regionMask);
                ("region_scale_factor"%string, AFloat scalefactor)]))
  end.

(** The arrays the loop scales. *)
Definition to_scale (coord_like_vars : list string) (var : string)
  (da : data_array) : bool :=
  negb (mem var coord_like_vars) && mem "ncol" (dims da).

End Values.

Arguments mkcell {V} col val.
Arguments col {V} c.
Arguments val {V} c.
Arguments AStr {K} s.
Arguments AFloat {K} x.
Arguments mkda {np_dtype V K} dtype dims ncol_size cells attrs.
Arguments dtype {np_dtype V K} d.
Arguments dims {np_dtype V K} d.
Arguments ncol_size {np_dtype V K} d.
Arguments cells {np_dtype V K} d.
Arguments attrs {np_dtype V K} d.
Arguments get {A} m k.
Arguments set {A} m k a.
Arguments update {K} m kvs.
Arguments where_cells {np_dtype V K} product result_type astype da mask_da
  scalefactor d'.
Arguments where_not_mask {np_dtype V K} product_dtype product result_type astype
  da mask_da scalefactor.
Arguments scale_loop {np_dtype V K} product_dtype product result_type astype
  coord_like_vars mask_da scalefactor regionMask vars spci_ds.
Arguments scale_data_vars {np_dtype V K} product_dtype product result_type astype
  coord_like_vars mask_da scalefactor regionMask spci_ds.
Arguments scaled {np_dtype V K} product_dtype product result_type astype
  mask_da scalefactor regionMask da.
Arguments to_scale {np_dtype V K} coord_like_vars var da.

End Scaling.

(** *** The part of numpy the scaling goes through, for arrays of 64-bit
    integers, of double-precision numbers and of text, and a [float]
    factor *)

Module Numpy.

Import Scaling.

Inductive np_dtype : Set := int64 | float64 | str_.

Inductive scalar : Set :=
| Int (z : Z)
| Float (x : PrimFloat.float)
| Str (s : string).

(** The double nearest to a 64-bit integer. *)
Definition of_int64 (z : Z) : PrimFloat.float :=
  if z =? - 2 ^ 63
  then PrimFloat.opp
         (PrimFloat.mul (PrimFloat.of_uint63 (Uint63.of_Z (2 ^ 62))) PrimFloat.two)
  else if z <? 0
       then PrimFloat.opp (PrimFloat.of_uint63 (Uint63.of_Z (- z)))
       else PrimFloat.of_uint63 (Uint63.of_Z z).

(** An integer array times a [float] is a [float64] array; numpy has no
    product for text. *)
Definition product_dtype (d : np_dtype) (scalefactor : PrimFloat.float)
  : option np_dtype :=
  match d with
  | int64 | float64 => Some float64
  | str_ => None
  end.

Definition product (d : np_dtype) (v : scalar) (scalefactor : PrimFloat.float)
  : scalar :=
  match v with
  | Int z => Float (PrimFloat.mul (of_int64 z) scalefactor)
  | Float x => Float (PrimFloat.mul x scalefactor)
  | Str s => Str s
  end.

Definition result_type (a b : np_dtype) : np_dtype :=
  match a, b with
  | int64, int64 => int64
  | str_, _ | _, str_ => str_
  | _, _ => float64
  end.

Definition astype (a b : np_dtype) (v : scalar) : scalar :=
  match a, b, v with
  | int64, float64, Int z => Float (of_int64 z)
  | _, _, _ => v
  end.

Definition scale_data_vars :=
  Scaling.scale_data_vars product_dtype product result_type astype.

(** A dataset with a coordinate-like variable, a variable on the grid and
    one that is not on it. *)
Definition example_ds : dataset np_dtype scalar PrimFloat.float :=
  [("lat"%string,
    mkda float64 ["ncol"%string] 3
      [mkcell 0 (Float (of_int64 10)); mkcell 1 (Float (of_int64 20)); mkcell 2 (Float (of_int64 30))] []);
   ("bb"%string,
    mkda float64 ["time"%string; "ncol"%string] 3
      [mkcell 0 (Float (of_int64 1)); mkcell 1 (Float (of_int64 2)); mkcell 2 (Float (of_int64 3));
       mkcell 0 (Float (of_int64 4)); mkcell 1 (Float (of_int64 5)); mkcell 2 (Float (of_int64 6))] []);
   ("date"%string,
    mkda int64 ["time"%string] 3
      [mkcell 0 (Int 20200101); mkcell 0 (Int 20200102)] [])].



End Numpy.

(** ** The other functions of the two date scripts *)

Module NEIExtract.

(** [extract_date_and_time(filename)], the sort key of
    emissions/NEIfileDatetime_shift_BYweekofday.py. *)
Definition extract_date_and_time (filename : string) : result datetime :=
  let date_time_str := slice_from 13 filename in
  strptime date_time_str fmt_datetime.

End NEIExtract.

Import NEIExtract.

Module MissingFilesV2.

Local Open Scope string_scope.

(** ['_%Y-%m-%dT%H:00:00'] *)
Definition fmt_hourly_T : list directive :=
  [DLit "_"; DY; DLit "-"; Dm; DLit "-"; Dd; DLit "T"; DH;
   DLit ":"; DLit "0"; DLit "0"; DLit ":"; DLit "0"; DLit "0"].

(** A letter of a format, as the expression compiled with [IGNORECASE]
    matches it: in either case.  It is one group of one branch, whose text
    [_strptime] does not read. *)
Definition anycase (upper lower : ascii) : re_item :=
  RGroup (DLit upper) [[fun c => Ascii.eqb c upper || Ascii.eqb c lower]].

(** The expression for ['%Y-%m-%dT%H:%M:%S']. *)
Definition re_datetime_T : list re_item :=
  [re_of_directive DY; RLit "-"; re_of_directive Dm; RLit "-";
   re_of_directive Dd; anycase "T" "t"; re_of_directive DH; RLit ":";
   re_of_directive DM; RLit ":"; re_of_directive DS].

(** [datetime.strptime(s, '%Y-%m-%dT%H:%M:%S')]. *)
Definition strptime_T (s : string) : result datetime :=
  match re_match re_datetime_T s with
  | None => Raise ValueError_format
  | Some (groups, rest) =>
    match rest with
    | EmptyString =>
      let f := fold_left set_field groups default_fields in
      new_datetime (f_year f) (f_month f) (f_day f)
                   (f_hour f) (f_minute f) (f_second f)
    | String _ _ => Raise ValueError_format
    end
  end.

(** The [while] loop of [find_missing_files_v2]. *)
Fixpoint expected_loop_v2 (fuel : nat) (filedir file_prefix file_sufix : string)
  (end_date current_date : datetime) (expected_files : list string)
  : result (list string) :=
  match fuel with
  | O => Raise OutOfFuel
  | S fuel' =>
    if le current_date end_date then
      let file_name :=
        file_prefix ++ strftime fmt_hourly_T current_date ++ file_sufix in
      let expected_files := (expected_files ++ [(filedir ++ file_name)%string])%list in
      do current_date <~ add current_date (new_timedelta 0 3600) ;;
      expected_loop_v2 fuel' filedir file_prefix file_sufix end_date current_date
        expected_files
    else Ok expected_files
  end.

Definition find_missing_files_v2 (fs : string -> open_outcome) (fuel : nat)
  (startDatetime endDatetime filedir file_prefix file_sufix : string)
  : result report :=
  do start_date <~ strptime_T startDatetime ;;
  do end_date <~ strptime_T endDatetime ;;
  do expected_files <~
     expected_loop_v2 fuel filedir file_prefix file_sufix end_date start_date [] ;;
  do missing_files <~ missing_loop fs expected_files [] ;;
  Ok (mkreport missing_files expected_files).

End MissingFilesV2.

Import MissingFilesV2.

(** The two hourly loops, over the name they give a datetime. *)
Fixpoint hour_loop (name : datetime -> string) (fuel : nat)
  (end_date current_date : datetime) (acc : list string) : result (list string) :=
  match fuel with
  | O => Raise OutOfFuel
  | S fuel' =>
    if le current_date end_date then
      do next <~ add current_date (new_timedelta 0 3600) ;;
      hour_loop name fuel' end_date next (acc ++ [name current_date])
    else Ok acc
  end.

(** The number of passes of an hourly loop entered at [cur]. *)
Definition hour_passes (end_date cur : datetime) : Z :=
  if le cur end_date
  then (total_seconds end_date - total_seconds cur) / 3600 + 1
  else 0.

(** [open] raises [FileNotFoundError] on [p]. *)
Definition not_found (fs : string -> open_outcome) (p : string) : bool :=
  match fs p with
  | FileNotFound => true
  | _ => false
  end.

(** The least and the greatest number of characters a branch of [alts]
    takes. *)
Definition alts_min (alts : list (list charclass)) : nat :=
  match alts with
  | [] => 0
  | a :: alts' => fold_left Nat.min (map (@length charclass) alts') (length a)
  end.

Definition alts_max (alts : list (list charclass)) : nat :=
  fold_left Nat.max (map (@length charclass) alts) 0%nat.

(** The least and the greatest number of characters an expression takes. *)
Fixpoint re_min (re : list re_item) : nat :=
  match re with
  | [] => 0
  | RLit _ :: re' => S (re_min re')
  | RGroup _ alts :: re' => alts_min alts + re_min re'
  end.

Fixpoint re_max (re : list re_item) : nat :=
  match re with
  | [] => 0
  | RLit _ :: re' => S (re_max re')
  | RGroup _ alts :: re' => alts_max alts + re_max re'
  end.

(** [open] raises an error other than [FileNotFoundError] on [p]. *)
Definition other_error (fs : string -> open_outcome) (p : string) : bool :=
  match fs p with
  | OtherError => true
  | _ => false
  end.

(** The names the two versions give a datetime. *)
Definition name_v1 (filedir file_prefix : string) (dt : datetime) : string :=
  (filedir ++ (file_prefix ++ strftime fmt_hourly dt))%string.

Definition name_v2 (filedir file_prefix file_sufix : string) (dt : datetime)
  : string :=
  (filedir ++ (file_prefix ++ strftime fmt_hourly_T dt ++ file_sufix))%string.

(** The name the loop of version 2 builds for [dt], spelled out. *)
Definition hourly_name_v2 (filedir file_prefix file_sufix : string)
  (dt : datetime) : string :=
  (filedir ++ (file_prefix ++ ("_" ++ year_text (year dt) ++ "-"
                              ++ pad2 (month dt) ++ "-" ++ pad2 (day dt) ++ "T"
                              ++ pad2 (hour dt) ++ ":00:00" ++ file_sufix)))%string.

(** The datetime [dt + relativedelta(years=n)] when the year is in range:
    same month and clock, the day clamped to the month's length. *)
Definition year_shifted (dt : datetime) (n : Z) : datetime :=
  mkdatetime (year dt + n) (month dt)
    (Z.min (days_in_month (year dt + n) (month dt)) (day dt))
    (hour dt) (minute dt) (second dt).

Fixpoint forallb_range (lo : Z) (k : nat) (p : Z -> bool) : bool :=
  match k with
  | O => true
  | S k' => p lo && forallb_range (lo + 1) k' p
  end.

(** The first branch of an alternation that matches at the head of [s],
    whatever follows. *)
Definition head_match (alts : list (list charclass)) (s : string)
  : option (string * string) :=
  first_some (fun a => match_seq a s) alts.

(** The groups [re.match] finds in the text [strftime] writes for [fmt]. *)
Fixpoint groups_of (fmt : list directive) (dt : datetime)
  : list (directive * string) :=
  match fmt with
  | [] => []
  | DLit _ :: fmt' => groups_of fmt' dt
  | d :: fmt' => (d, render d dt) :: groups_of fmt' dt
  end.

(** The text of directive [d] for [dt] is taken whole by the first branch
    of the group of [d] that matches it. *)
Definition field_ok (dt : datetime) (d : directive) : Prop :=
  match re_of_directive d with
  | RGroup _ alts =>
    forall r : string, head_match alts (render d dt ++ r) = Some (render d dt, r)
  | RLit _ => True
  end.

(** A two-digit field in the range of its directive is taken whole by the
    first branch that matches it. *)
Definition group_takes (d : directive) (v : Z) : Prop :=
  forall r : string,
    match re_of_directive d with
    | RGroup _ alts => head_match alts (pad2 v ++ r) = Some (pad2 v, r)
    | RLit _ => False
    end.

(** [P] holds of the [k] integers from [lo] on. *)
Fixpoint all_range (lo : Z) (k : nat) (P : Z -> Prop) : Prop :=
  match k with
  | O => True
  | S k' => P lo /\ all_range (lo + 1) k' P
  end.

(** *** The texts [strptime] reads a datetime from, under
    ['%Y-%m-%d_%H:%M:%S'] *)

Definition one_digit (v : Z) : string := String (digit_char v) "".

(** The texts of a month, hour, minute or second: two digits, or one
    digit for a value below ten. *)
Definition field_texts (v : Z) : list string :=
  if v <=? 9 then [pad2 v; one_digit v] else [pad2 v].

(** The texts of a day: as above, or a blank before the one digit. *)
Definition day_texts (v : Z) : list string :=
  if v <=? 9 then [pad2 v; one_digit v; String " " (one_digit v)] else [pad2 v].

(** The year is read from four digits, so a year below 1000 is read with
    its leading zeros. *)
Definition datetime_texts (dt : datetime) : list string :=
  flat_map (fun tm =>
  flat_map (fun td =>
  flat_map (fun th =>
  flat_map (fun tmi =>
  map (fun ts =>
         (pad4 (year dt) ++ "-" ++ tm ++ "-" ++ td ++ "_" ++ th ++ ":" ++ tmi
          ++ ":" ++ ts)%string)
      (field_texts (second dt)))
    (field_texts (minute dt)))
    (field_texts (hour dt)))
    (day_texts (day dt)))
    (field_texts (month dt)).

Definition accepted_text (s : string) (dt : datetime) : Prop :=
  valid dt /\ In s (datetime_texts dt).

(** The fixed-width text of a datetime, [YYYY-MM-DD_HH:MM:SS]. *)
Definition fixed_width_text (dt : datetime) : string :=
  (pad4 (year dt) ++ "-" ++ pad2 (month dt) ++ "-" ++ pad2 (day dt) ++ "_"
   ++ pad2 (hour dt) ++ ":" ++ pad2 (minute dt) ++ ":" ++ pad2 (second dt))%string.

Definition yday_ok (leapyear : bool) (n : Z) : bool :=
  let '(m, d) := month_of_yday leapyear n in
  (1 <=? m) && (m <=? 12) && (1 <=? d)
  && (d <=? DAYS_IN_MONTH m + (if (m =? 2) && leapyear then 1 else 0))
  && (DAYS_BEFORE_MONTH m + (if (2 <? m) && leapyear then 1 else 0) + d =? n + 1).


(** ** Facts about the calendar *)

Lemma days_before_year_succ (y : Z) :
  days_before_year (y + 1)
  = days_before_year y + (if is_leap y then 366 else 365).
Proof.
  unfold days_before_year, is_leap.
  replace (y + 1 - 1) with y by lia.
  destruct (Z.eqb_spec (y mod 4) 0), (Z.eqb_spec (y mod 100) 0),
    (Z.eqb_spec (y mod 400) 0); cbn [andb orb negb];
    Z.div_mod_to_equations; lia.
Qed.


Lemma forallb_range_spec (p : Z -> bool) (k : nat) :
  forall lo, forallb_range lo k p = true ->
  forall z, lo <= z < lo + Z.of_nat k -> p z = true.
Proof.
  induction k as [|k IH]; intros lo H z Hz; [lia|].
  cbn [forallb_range] in H. apply andb_prop in H as [H0 H1].
  destruct (Z.eq_dec z lo) as [->|Hne]; [exact H0|].
  apply (IH (lo + 1) H1). lia.
Qed.

Lemma month_of_yday_ok (leapyear : bool) (n : Z) :
  0 <= n < 365 + (if leapyear then 1 else 0) ->
  yday_ok leapyear n = true.
Proof.
  intros Hn.
  destruct leapyear.
  - apply (forallb_range_spec (yday_ok true) 366 0); [vm_compute; reflexivity | lia].
  - apply (forallb_range_spec (yday_ok false) 365 0); [vm_compute; reflexivity | lia].
Qed.

Lemma days_before_year_decomp (a b c d : Z) :
  0 <= b <= 3 -> 0 <= c <= 24 -> 0 <= d <= 3 ->
  days_before_year (400 * a + 100 * b + 4 * c + d + 1)
  = 146097 * a + 36524 * b + 1461 * c + 365 * d.
Proof.
  intros Hb Hc Hd. unfold days_before_year.
  replace (400 * a + 100 * b + 4 * c + d + 1 - 1)
    with (400 * a + 100 * b + 4 * c + d) by lia.
  cbv zeta.
  assert (E4 : (400 * a + 100 * b + 4 * c + d) / 4 = 100 * a + 25 * b + c)
    by (symmetry; apply (Z.div_unique _ 4 _ d); lia).
  assert (E100 : (400 * a + 100 * b + 4 * c + d) / 100 = 4 * a + b)
    by (symmetry; apply (Z.div_unique _ 100 _ (4 * c + d)); lia).
  assert (E400 : (400 * a + 100 * b + 4 * c + d) / 400 = a)
    by (symmetry; apply (Z.div_unique _ 400 _ (100 * b + 4 * c + d)); lia).
  rewrite E4, E100, E400. lia.
Qed.

Lemma is_leap_decomp (a b c d : Z) :
  0 <= b <= 3 -> 0 <= c <= 24 -> 0 <= d <= 3 ->
  is_leap (400 * a + 100 * b + 4 * c + d + 1)
  = (d =? 3) && (negb (c =? 24) || (b =? 3)).
Proof.
  intros Hb Hc Hd. unfold is_leap.
  assert (E4 : (400 * a + 100 * b + 4 * c + d + 1) mod 4 = (d + 1) mod 4)
    by (replace (400 * a + 100 * b + 4 * c + d + 1)
          with ((d + 1) + (100 * a + 25 * b + c) * 4) by lia;
        apply Z.mod_add; lia).
  assert (E100 : (400 * a + 100 * b + 4 * c + d + 1) mod 100
                 = (4 * c + d + 1) mod 100)
    by (replace (400 * a + 100 * b + 4 * c + d + 1)
          with ((4 * c + d + 1) + (4 * a + b) * 100) by lia;
        apply Z.mod_add; lia).
  assert (E400 : (400 * a + 100 * b + 4 * c + d + 1) mod 400
                 = (100 * b + 4 * c + d + 1) mod 400)
    by (replace (400 * a + 100 * b + 4 * c + d + 1)
          with ((100 * b + 4 * c + d + 1) + a * 400) by lia;
        apply Z.mod_add; lia).
  rewrite E4, E100, E400.
  destruct (Z.eqb_spec d 3), (Z.eqb_spec c 24), (Z.eqb_spec b 3);
    destruct (Z.eqb_spec ((d + 1) mod 4) 0),
      (Z.eqb_spec ((4 * c + d + 1) mod 100) 0),
      (Z.eqb_spec ((100 * b + 4 * c + d + 1) mod 400) 0);
    cbn [andb orb negb]; try reflexivity; exfalso;
    Z.div_mod_to_equations; lia.
Qed.

Lemma ord2ymd_spec (n : Z) :
  1 <= n ->
  let '(y, m, d) := ord2ymd n in
  1 <= y /\ 1 <= m <= 12 /\ 1 <= d <= days_in_month y m /\ ymd2ord y m d = n
  /\ days_before_year y < n <= days_before_year (y + 1).
Proof.
  intros Hn. unfold ord2ymd.
  set (n0 := n - 1).
  set (n400 := n0 / DI400Y). set (r400 := n0 mod DI400Y).
  set (n100 := r400 / DI100Y). set (r100 := r400 mod DI100Y).
  set (n4 := r100 / DI4Y). set (r4 := r100 mod DI4Y).
  set (n1 := r4 / 365). set (r1 := r4 mod 365).
  assert (E400 : n0 = DI400Y * n400 + r400 /\ 0 <= r400 < DI400Y)
    by (split; [apply Z.div_mod | apply Z.mod_pos_bound]; unfold DI400Y; lia).
  assert (E100 : r400 = DI100Y * n100 + r100 /\ 0 <= r100 < DI100Y)
    by (split; [apply Z.div_mod | apply Z.mod_pos_bound]; unfold DI100Y; lia).
  assert (E4 : r100 = DI4Y * n4 + r4 /\ 0 <= r4 < DI4Y)
    by (split; [apply Z.div_mod | apply Z.mod_pos_bound]; unfold DI4Y; lia).
  assert (E1 : r4 = 365 * n1 + r1 /\ 0 <= r1 < 365)
    by (split; [apply Z.div_mod | apply Z.mod_pos_bound]; lia).
  unfold DI400Y, DI100Y, DI4Y in *.
  assert (0 <= n400) by (apply Z.div_pos; lia).
  assert (0 <= n100 <= 4) by lia.
  assert (0 <= n4 <= 24) by lia.
  assert (0 <= n1 <= 4) by lia.
  clearbody n400 r400 n100 r100 n4 r4 n1 r1.
  destruct (Z.eqb_spec n1 4) as [En1|En1]; cbn [orb].
  { (* last day of a 4-year cycle *)
    subst n1.
    pose proof (days_before_year_decomp n400 n100 (n4 + 1) 0) as D1.
    pose proof (is_leap_decomp n400 n100 n4 3) as L.
    pose proof (days_before_year_succ (n400 * 400 + 1 + (n100 * 100 + n4 * 4 + 4) - 1)) as S.
    replace (n400 * 400 + 1 + (n100 * 100 + n4 * 4 + 4) - 1)
      with (400 * n400 + 100 * n100 + 4 * n4 + 3 + 1) in * by lia.
    replace (400 * n400 + 100 * n100 + 4 * n4 + 3 + 1 + 1)
      with (400 * n400 + 100 * n100 + 4 * (n4 + 1) + 0 + 1) in * by lia.
    rewrite L in S by lia.
    replace (3 =? 3) with true in S by reflexivity.
    assert (n4 <> 24) by lia.
    destruct (Z.eqb_spec n4 24); [lia|]. cbn [andb orb negb] in S.
    rewrite D1 in S by lia.
    unfold ymd2ord, days_before_month, days_in_month.
    rewrite L by lia. replace (3 =? 3) with true by reflexivity.
    destruct (Z.eqb_spec n4 24); [lia|]. cbn.
    rewrite D1 by lia. lia. }
  destruct (Z.eqb_spec n100 4) as [En100|En100].
  { (* last day of a 400-year cycle *)
    subst n100.
    assert (n4 = 0 /\ n1 = 0 /\ r1 = 0) as (-> & -> & ->) by lia.
    pose proof (days_before_year_decomp (n400 + 1) 0 0 0) as D1.
    pose proof (is_leap_decomp n400 3 24 3) as L.
    pose proof (days_before_year_succ (n400 * 400 + 1 + (4 * 100 + 0 * 4 + 0) - 1)) as S.
    replace (n400 * 400 + 1 + (4 * 100 + 0 * 4 + 0) - 1)
      with (400 * n400 + 100 * 3 + 4 * 24 + 3 + 1) in * by lia.
    replace (400 * n400 + 100 * 3 + 4 * 24 + 3 + 1 + 1)
      with (400 * (n400 + 1) + 100 * 0 + 4 * 0 + 0 + 1) in * by lia.
    rewrite L in S by lia. cbn [Z.eqb Pos.eqb andb orb negb] in S.
    rewrite D1 in S by lia.
    unfold ymd2ord, days_before_month, days_in_month.
    rewrite L by lia. cbn. rewrite D1 by lia. lia. }
  set (leapyear := (n1 =? 3) && (negb (n4 =? 24) || (n100 =? 3))).
  pose proof (days_before_year_decomp n400 n100 n4 n1) as D.
  pose proof (is_leap_decomp n400 n100 n4 n1) as L.
  pose proof (days_before_year_succ (n400 * 400 + 1 + (n100 * 100 + n4 * 4 + n1))) as S.
  replace (n400 * 400 + 1 + (n100 * 100 + n4 * 4 + n1))
    with (400 * n400 + 100 * n100 + 4 * n4 + n1 + 1) in * by lia.
  rewrite L in S by lia. fold leapyear in S, L.
  rewrite D in S by lia.
  pose proof (month_of_yday_ok leapyear r1) as M.
  unfold yday_ok in M.
  destruct (month_of_yday leapyear r1) as [m d].
  assert (Hr : 0 <= r1 < 365 + (if leapyear then 1 else 0))
    by (destruct leapyear; lia).
  specialize (M Hr).
  repeat (apply andb_prop in M as [M ?]).
  unfold ymd2ord, days_before_month, days_in_month.
  rewrite L, D by lia.
  assert (Hdim : (if (m =? 2) && leapyear then 29 else DAYS_IN_MONTH m)
                 = DAYS_IN_MONTH m + (if (m =? 2) && leapyear then 1 else 0)).
  { destruct (Z.eqb_spec m 2) as [->|]; cbn [andb]; [destruct leapyear; reflexivity | lia]. }
  rewrite Hdim.
  destruct leapyear; lia.
Qed.

Lemma days_before_year_mono (y y' : Z) :
  y <= y' -> days_before_year y + 365 * (y' - y) <= days_before_year y'.
Proof.
  intros H.
  assert (G : forall k : nat,
             days_before_year y + 365 * Z.of_nat k
             <= days_before_year (y + Z.of_nat k)).
  { induction k as [|k IH].
    - change (Z.of_nat 0) with 0. replace (y + 0) with y by lia. lia.
    - replace (y + Z.of_nat (S k)) with (y + Z.of_nat k + 1) by lia.
      rewrite days_before_year_succ. destruct (is_leap _); lia. }
  specialize (G (Z.to_nat (y' - y))).
  replace (y + Z.of_nat (Z.to_nat (y' - y))) with y' in G by lia. lia.
Qed.

Lemma days_in_month_bounds (y m : Z) :
  1 <= m <= 12 -> 28 <= days_in_month y m <= 31.
Proof.
  intros Hm. unfold days_in_month.
  assert (m = 1 \/ m = 2 \/ m = 3 \/ m = 4 \/ m = 5 \/ m = 6 \/ m = 7 \/ m = 8
          \/ m = 9 \/ m = 10 \/ m = 11 \/ m = 12) as Hc by lia.
  destruct (is_leap y);
    repeat (destruct Hc as [->|Hc]; [cbn; lia|]); subst; cbn; lia.
Qed.

(** The days of a year before month [m + 1] are those before [m] and those
    of [m]. *)
Lemma days_before_month_succ (y m : Z) :
  1 <= m <= 11 ->
  days_before_month y (m + 1) = days_before_month y m + days_in_month y m.
Proof.
  intros Hm. unfold days_before_month, days_in_month.
  assert (m = 1 \/ m = 2 \/ m = 3 \/ m = 4 \/ m = 5 \/ m = 6 \/ m = 7 \/ m = 8
          \/ m = 9 \/ m = 10 \/ m = 11) as Hc by lia.
  destruct (is_leap y);
    repeat (destruct Hc as [->|Hc]; [reflexivity|]); subst; reflexivity.
Qed.

Lemma days_before_month_mono (y m m' : Z) :
  1 <= m -> m < m' -> m' <= 12 ->
  days_before_month y m + days_in_month y m <= days_before_month y m'.
Proof.
  intros H1 H2 H3.
  replace m' with (m + 1 + Z.of_nat (Z.to_nat (m' - m - 1))) in * by lia.
  induction (Z.to_nat (m' - m - 1)) as [|k IH].
  - rewrite Z.add_0_r, days_before_month_succ by lia. lia.
  - replace (m + 1 + Z.of_nat (S k)) with (m + 1 + Z.of_nat k + 1) in * by lia.
    rewrite days_before_month_succ by lia.
    pose proof (days_in_month_bounds y (m + 1 + Z.of_nat k)). lia.
Qed.

Lemma days_before_month_first (y : Z) : days_before_month y 1 = 0.
Proof. unfold days_before_month. cbn. destruct (is_leap y); reflexivity. Qed.

Lemma days_before_month_last (y : Z) :
  days_before_month y 12 + days_in_month y 12
  = if is_leap y then 366 else 365.
Proof. unfold days_before_month, days_in_month. cbn. destruct (is_leap y); reflexivity. Qed.

(** A date of year [y] has its ordinal among the days of year [y]. *)
Lemma ymd2ord_in_year (y m d : Z) :
  1 <= m <= 12 -> 1 <= d <= days_in_month y m ->
  days_before_year y < ymd2ord y m d <= days_before_year (y + 1).
Proof.
  intros Hm Hd. unfold ymd2ord. rewrite days_before_year_succ.
  pose proof (days_before_month_last y) as HL.
  pose proof (days_before_month_first y) as HF.
  assert (0 <= days_before_month y m).
  { destruct (Z.eq_dec m 1) as [->|]; [lia|].
    pose proof (days_before_month_mono y 1 m). 
    pose proof (days_in_month_bounds y 1). lia. }
  assert (days_before_month y m + days_in_month y m
          <= days_before_month y 12 + days_in_month y 12).
  { destruct (Z.eq_dec m 12) as [->|]; [lia|].
    pose proof (days_before_month_mono y m 12).
    pose proof (days_in_month_bounds y 12). lia. }
  lia.
Qed.

(** [_ymd2ord] is one-to-one on calendar dates. *)
Lemma ymd2ord_inj (y m d y' m' d' : Z) :
  1 <= m <= 12 -> 1 <= d <= days_in_month y m ->
  1 <= m' <= 12 -> 1 <= d' <= days_in_month y' m' ->
  ymd2ord y m d = ymd2ord y' m' d' ->
  y = y' /\ m = m' /\ d = d'.
Proof.
  intros Hm Hd Hm' Hd' E.
  pose proof (ymd2ord_in_year y m d Hm Hd) as B.
  pose proof (ymd2ord_in_year y' m' d' Hm' Hd') as B'.
  assert (y = y') as <-.
  { destruct (Z.lt_trichotomy y y') as [L|[L|L]]; [exfalso|exact L|exfalso].
    - pose proof (days_before_year_mono (y + 1) y'). lia.
    - pose proof (days_before_year_mono (y' + 1) y). lia. }
  split; [reflexivity|].
  unfold ymd2ord in E.
  assert (m = m') as <-.
  { destruct (Z.lt_trichotomy m m') as [L|[L|L]]; [exfalso|exact L|exfalso].
    - pose proof (days_before_month_mono y m m'). lia.
    - pose proof (days_before_month_mono y m' m). lia. }
  split; [reflexivity|lia].
Qed.

(** [_ord2ymd] inverts [_ymd2ord] on the dates of years 1 and later. *)
Lemma ord2ymd_ymd2ord (y m d : Z) :
  1 <= y -> 1 <= m <= 12 -> 1 <= d <= days_in_month y m ->
  ord2ymd (ymd2ord y m d) = (y, m, d).
Proof.
  intros Hy Hm Hd.
  pose proof (ymd2ord_in_year y m d Hm Hd) as B.
  pose proof (days_before_year_mono 1 y) as M.
  assert (days_before_year 1 = 0) as E1 by reflexivity.
  pose proof (ord2ymd_spec (ymd2ord y m d)) as S.
  destruct (ord2ymd (ymd2ord y m d)) as [[y' m'] d'].
  destruct S as (_ & Hm' & Hd' & E & _); [lia|].
  destruct (ymd2ord_inj y' m' d' y m d Hm' Hd' Hm Hd E) as (-> & -> & ->).
  reflexivity.
Qed.

Lemma days_before_year_max : days_before_year (MAXYEAR + 1) = MAXORDINAL.
Proof. reflexivity. Qed.

(** The year [_ord2ymd] finds for an ordinal of the supported range. *)
Lemma ord2ymd_year_range (n : Z) :
  1 <= n <= MAXORDINAL ->
  let '(y, _, _) := ord2ymd n in MINYEAR <= y <= MAXYEAR.
Proof.
  intros Hn. pose proof (ord2ymd_spec n) as S.
  destruct (ord2ymd n) as [[y m] d].
  destruct S as (Hy & _ & _ & _ & B); [lia|].
  unfold MINYEAR. split; [lia|].
  destruct (Z_le_gt_dec y MAXYEAR) as [L|G]; [exact L|exfalso].
  pose proof (days_before_year_mono (MAXYEAR + 1) y).
  rewrite days_before_year_max in *. lia.
Qed.

(** ** Facts about [datetime] *)

Lemma valid_fields (dt : datetime) :
  valid dt <->
  (1 <= year dt <= 9999 /\ 1 <= month dt <= 12
   /\ 1 <= day dt <= days_in_month (year dt) (month dt)
   /\ 0 <= hour dt <= 23 /\ 0 <= minute dt <= 59 /\ 0 <= second dt <= 59).
Proof.
  unfold valid, check_date_fields, check_time_fields, MINYEAR, MAXYEAR.
  rewrite !andb_true_iff, !Z.leb_le. tauto.
Qed.

Lemma new_datetime_Ok (y m d hh mm ss : Z) (dt : datetime) :
  new_datetime y m d hh mm ss = Ok dt ->
  dt = mkdatetime y m d hh mm ss /\ valid dt.
Proof.
  unfold new_datetime.
  destruct (forallb fits_c_int [y; m; d; hh; mm; ss]); [|discriminate].
  destruct (check_date_fields y m d && check_time_fields hh mm ss) eqn:E;
    [|discriminate].
  intros [= <-]. split; [reflexivity | exact E].
Qed.

(** The fields of a datetime fit in C [int]s, so the constructor gives it
    back. *)
Lemma new_datetime_valid (dt : datetime) :
  valid dt ->
  new_datetime (year dt) (month dt) (day dt) (hour dt) (minute dt) (second dt)
  = Ok dt.
Proof.
  intros Hv. pose proof Hv as Hf. rewrite valid_fields in Hf.
  destruct Hf as (Hy & Hm & Hd & Hh & Hmi & Hs).
  pose proof (days_in_month_bounds (year dt) (month dt) Hm) as Bd.
  unfold new_datetime.
  assert (F : forallb fits_c_int
                [year dt; month dt; day dt; hour dt; minute dt; second dt] = true).
  { cbn [forallb]. unfold fits_c_int, C_INT_MIN, C_INT_MAX.
    repeat (apply andb_true_intro; split); try reflexivity;
      apply Z.leb_le; lia. }
  rewrite F. unfold valid in Hv. rewrite Hv. destruct dt; reflexivity.
Qed.

Lemma day_seconds_range (dt : datetime) :
  valid dt -> 0 <= day_seconds dt < 86400.
Proof. rewrite valid_fields. unfold day_seconds. lia. Qed.

Lemma toordinal_range (dt : datetime) :
  valid dt -> 1 <= toordinal dt <= MAXORDINAL.
Proof.
  rewrite valid_fields. intros (Hy & Hm & Hd & _).
  pose proof (ymd2ord_in_year _ _ _ Hm Hd) as B.
  pose proof (days_before_year_mono 1 (year dt)).
  pose proof (days_before_year_mono (year dt + 1) (MAXYEAR + 1)).
  rewrite days_before_year_max in *.
  change (days_before_year 1) with 0 in *.
  unfold toordinal, MAXYEAR in *. lia.
Qed.

(** The clock fields are recovered from the seconds of the day. *)
Lemma clock_of_day_seconds (hh mm ss : Z) :
  0 <= hh -> 0 <= mm <= 59 -> 0 <= ss <= 59 ->
  let r := ss + mm * 60 + hh * 3600 in
  r / 3600 = hh /\ (r mod 3600) / 60 = mm /\ (r mod 3600) mod 60 = ss.
Proof.
  intros Hh Hm Hs r. subst r.
  assert (E1 : (ss + mm * 60 + hh * 3600) / 3600 = hh)
    by (symmetry; apply (Z.div_unique _ 3600 _ (ss + mm * 60)); lia).
  assert (E2 : (ss + mm * 60 + hh * 3600) mod 3600 = ss + mm * 60)
    by (symmetry; apply (Z.mod_unique _ 3600 hh); lia).
  rewrite E1, E2. split; [reflexivity|]. split.
  - symmetry. apply (Z.div_unique _ 60 _ ss); lia.
  - symmetry. apply (Z.mod_unique _ 60 mm); lia.
Qed.

Lemma of_total_seconds_spec (T : Z) :
  1 <= T / 86400 <= MAXORDINAL ->
  valid (of_total_seconds T)
  /\ toordinal (of_total_seconds T) = T / 86400
  /\ day_seconds (of_total_seconds T) = T mod 86400.
Proof.
  intros Hn. unfold of_total_seconds.
  pose proof (ord2ymd_spec (T / 86400)) as S.
  pose proof (ord2ymd_year_range (T / 86400) Hn) as R.
  destruct (ord2ymd (T / 86400)) as [[y m] d].
  destruct S as (Hy & Hm & Hd & E & _); [lia|].
  pose proof (Z.mod_pos_bound T 86400) as Br.
  set (r := T mod 86400) in *.
  assert (0 <= r / 3600 <= 23 /\ 0 <= (r mod 3600) / 60 <= 59
          /\ 0 <= (r mod 3600) mod 60 <= 59
          /\ (r mod 3600) mod 60 + (r mod 3600) / 60 * 60 + r / 3600 * 3600 = r)
    as (Bh & Bm & Bs & Er) by (Z.div_mod_to_equations; lia).
  split; [|split].
  - rewrite valid_fields. cbn. unfold MINYEAR, MAXYEAR in R. lia.
  - exact E.
  - unfold day_seconds. cbn. exact Er.
Qed.

Lemma total_seconds_of_total_seconds (T : Z) :
  1 <= T / 86400 <= MAXORDINAL ->
  total_seconds (of_total_seconds T) = T.
Proof.
  intros Hn. destruct (of_total_seconds_spec T Hn) as (_ & E1 & E2).
  unfold total_seconds. rewrite E1, E2.
  pose proof (Z.div_mod T 86400). lia.
Qed.

Lemma total_seconds_div (dt : datetime) :
  valid dt ->
  total_seconds dt / 86400 = toordinal dt
  /\ total_seconds dt mod 86400 = day_seconds dt.
Proof.
  intros Hv. pose proof (day_seconds_range dt Hv). unfold total_seconds.
  split.
  - symmetry. apply (Z.div_unique _ 86400 _ (day_seconds dt)); lia.
  - symmetry. apply (Z.mod_unique _ 86400 (toordinal dt)); lia.
Qed.

Lemma of_total_seconds_total_seconds (dt : datetime) :
  valid dt -> of_total_seconds (total_seconds dt) = dt.
Proof.
  intros Hv. destruct (total_seconds_div dt Hv) as [E1 E2].
  pose proof Hv as Hf. rewrite valid_fields in Hf.
  destruct Hf as (Hy & Hm & Hd & Hh & Hmi & Hs).
  unfold of_total_seconds. rewrite E1, E2. unfold toordinal.
  rewrite ord2ymd_ymd2ord by lia.
  destruct (clock_of_day_seconds (hour dt) (minute dt) (second dt))
    as (C1 & C2 & C3); [lia..|].
  unfold day_seconds. rewrite C1, C2, C3. destruct dt; reflexivity.
Qed.

(** [datetime + timedelta], through the seconds since day 0. *)
Lemma add_spec (dt : datetime) (td : timedelta) :
  let T := total_seconds dt + days td * 86400 + seconds td in
  add dt td =
  if (0 <? T / 86400) && (T / 86400 <=? MAXORDINAL)
  then Ok (of_total_seconds T) else Raise OverflowError.
Proof.
  intros T. unfold add, new_timedelta. cbn [days seconds].
  assert (E1 : toordinal dt + days td + (day_seconds dt + seconds td) / 86400
               = T / 86400).
  { subst T. unfold total_seconds.
    replace (toordinal dt * 86400 + day_seconds dt + days td * 86400 + seconds td)
      with ((day_seconds dt + seconds td) + (toordinal dt + days td) * 86400) by lia.
    rewrite Z.div_add by lia. lia. }
  assert (E2 : (day_seconds dt + seconds td) mod 86400 = T mod 86400).
  { subst T. unfold total_seconds.
    replace (toordinal dt * 86400 + day_seconds dt + days td * 86400 + seconds td)
      with ((day_seconds dt + seconds td) + (toordinal dt + days td) * 86400) by lia.
    rewrite Z.mod_add by lia. reflexivity. }
  rewrite E1, E2. unfold of_total_seconds.
  destruct ((0 <? T / 86400) && (T / 86400 <=? MAXORDINAL)); [|reflexivity].
  destruct (ord2ymd (T / 86400)) as [[y m] d]. reflexivity.
Qed.

Lemma add_Ok (dt dt' : datetime) (td : timedelta) :
  valid dt -> add dt td = Ok dt' ->
  valid dt'
  /\ total_seconds dt' = total_seconds dt + days td * 86400 + seconds td
  /\ dt' = of_total_seconds (total_seconds dt + days td * 86400 + seconds td).
Proof.
  intros Hv. rewrite add_spec. cbv zeta.
  set (T := total_seconds dt + days td * 86400 + seconds td).
  destruct (Z.ltb_spec 0 (T / 86400)); [|discriminate].
  destruct (Z.leb_spec (T / 86400) MAXORDINAL); [|discriminate].
  cbn [andb]. intros [= <-].
  destruct (of_total_seconds_spec T) as (V & _); [lia|].
  split; [exact V|]. split; [|reflexivity].
  apply total_seconds_of_total_seconds. lia.
Qed.

(** Adding the zero timedelta gives the datetime back. *)
Lemma add_zero (dt : datetime) :
  valid dt -> add dt (new_timedelta 0 0) = Ok dt.
Proof.
  intros Hv. rewrite add_spec. cbv zeta.
  change (days (new_timedelta 0 0)) with 0.
  change (seconds (new_timedelta 0 0)) with 0.
  replace (total_seconds dt + 0 * 86400 + 0) with (total_seconds dt) by lia.
  destruct (total_seconds_div dt Hv) as [E _]. rewrite E.
  pose proof (toordinal_range dt Hv).
  destruct (Z.ltb_spec 0 (toordinal dt)); [|lia].
  destruct (Z.leb_spec (toordinal dt) MAXORDINAL); [|lia].
  cbn [andb]. f_equal. apply of_total_seconds_total_seconds, Hv.
Qed.

(** Adding whole days. *)
Lemma add_days (dt : datetime) (k : Z) :
  valid dt ->
  add dt (new_timedelta k 0) =
  if (0 <? toordinal dt + k) && (toordinal dt + k <=? MAXORDINAL)
  then Ok (of_total_seconds (total_seconds dt + k * 86400))
  else Raise OverflowError.
Proof.
  intros Hv. rewrite add_spec. cbv zeta.
  assert (Ed : days (new_timedelta k 0) = k)
    by (unfold new_timedelta; cbn [days]; change (0 / 86400) with 0; lia).
  assert (Es : seconds (new_timedelta k 0) = 0) by reflexivity.
  rewrite Ed, Es.
  replace (total_seconds dt + k * 86400 + 0) with (total_seconds dt + k * 86400) by lia.
  assert (E : (total_seconds dt + k * 86400) / 86400 = toordinal dt + k).
  { rewrite Z.div_add by lia. destruct (total_seconds_div dt Hv) as [-> _]. reflexivity. }
  rewrite E. reflexivity.
Qed.

Lemma add_days_Ok (dt dt' : datetime) (k : Z) :
  valid dt -> add dt (new_timedelta k 0) = Ok dt' ->
  valid dt' /\ toordinal dt' = toordinal dt + k
  /\ hour dt' = hour dt /\ minute dt' = minute dt /\ second dt' = second dt.
Proof.
  intros Hv H. pose proof H as H'. rewrite add_days in H' by exact Hv.
  destruct (Z.ltb_spec 0 (toordinal dt + k)); [|discriminate].
  destruct (Z.leb_spec (toordinal dt + k) MAXORDINAL); [|discriminate].
  cbn [andb] in H'. injection H' as <-.
  set (T := total_seconds dt + k * 86400).
  assert (E : T / 86400 = toordinal dt + k).
  { subst T. rewrite Z.div_add by lia.
    destruct (total_seconds_div dt Hv) as [-> _]. reflexivity. }
  assert (Em : T mod 86400 = day_seconds dt).
  { subst T. rewrite Z.mod_add by lia.
    destruct (total_seconds_div dt Hv) as [_ ->]. reflexivity. }
  destruct (of_total_seconds_spec T) as (V & O & _); [lia|].
  split; [exact V|]. split; [lia|].
  unfold of_total_seconds. rewrite Em.
  destruct (ord2ymd (T / 86400)) as [[y m] d]. cbn [hour minute second].
  rewrite valid_fields in Hv.
  destruct (clock_of_day_seconds (hour dt) (minute dt) (second dt))
    as (C1 & C2 & C3); [lia..|].
  unfold day_seconds. rewrite C1, C2, C3. auto.
Qed.

Lemma strptime_valid (s : string) (fmt : list directive) (dt : datetime) :
  strptime s fmt = Ok dt -> valid dt.
Proof.
  unfold strptime.
  destruct (re_match _ s) as [[groups rest]|]; [|discriminate].
  destruct rest; [|discriminate].
  intros H. apply new_datetime_Ok in H. tauto.
Qed.

(** ** Facts about [relativedelta(years=n)] *)

Lemma year_shifted_valid (dt : datetime) (n : Z) :
  valid dt -> 1 <= year dt + n <= 9999 -> valid (year_shifted dt n).
Proof.
  rewrite !valid_fields. intros (Hy & Hm & Hd & Hc) Hr. cbn.
  pose proof (days_in_month_bounds (year dt + n) (month dt) Hm). lia.
Qed.

Lemma add_years_spec (dt : datetime) (n : Z) :
  valid dt ->
  add_years dt n =
  if (1 <=? year dt + n) && (year dt + n <=? 9999)
  then Ok (year_shifted dt n)
  else if fits_c_int (year dt + n)
       then Raise ValueError_range else Raise OverflowError.
Proof.
  intros Hv. unfold add_years, replace_ymd, monthrange_ndays.
  destruct ((1 <=? year dt + n) && (year dt + n <=? 9999)) eqn:R.
  - apply andb_prop in R as [L1 L2]. apply Z.leb_le in L1, L2.
    pose proof (year_shifted_valid dt n Hv (conj L1 L2)) as V.
    pose proof (new_datetime_valid _ V) as N.
    unfold year_shifted in N at 1 2 3 4 5 6.
    cbn [year month day hour minute second] in N.
    rewrite N. cbn [rbind]. apply add_zero, V.
  - pose proof Hv as Hf. rewrite valid_fields in Hf.
    destruct Hf as (Hy & Hm & Hd & Hh & Hmi & Hs).
    pose proof (days_in_month_bounds (year dt + n) (month dt) Hm) as Bd.
    unfold new_datetime. cbn [forallb].
    assert (F : forall z, -100 <= z <= 100 -> fits_c_int z = true).
    { intros z Hz. unfold fits_c_int, C_INT_MIN, C_INT_MAX.
      apply andb_true_intro. split; apply Z.leb_le; lia. }
    rewrite (F (month dt)), (F (Z.min _ (day dt))), (F (hour dt)),
      (F (minute dt)), (F (second dt)) by lia.
    rewrite !andb_true_r.
    destruct (fits_c_int (year dt + n)); [|reflexivity].
    assert (C : check_date_fields (year dt + n) (month dt)
                  (Z.min (days_in_month (year dt + n) (month dt)) (day dt))
                = false).
    { unfold check_date_fields, MINYEAR, MAXYEAR.
      rewrite R. reflexivity. }
    rewrite C. reflexivity.
Qed.

(** The difference of two datetimes with the same clock is a whole number
    of days. *)
Lemma sub_days_same_clock (a b : datetime) :
  day_seconds a = day_seconds b ->
  days (sub a b) = toordinal a - toordinal b.
Proof.
  intros E. unfold sub, new_timedelta. cbn [days]. rewrite E, Z.sub_diag.
  change (0 / 86400) with 0. lia.
Qed.

Lemma weekday_congr (a b : datetime) (k : Z) :
  toordinal a = toordinal b + 7 * k -> weekday a = weekday b.
Proof.
  intros E. unfold weekday. rewrite E.
  replace (toordinal b + 7 * k + 6) with (toordinal b + 6 + k * 7) by lia.
  apply Z.mod_add. lia.
Qed.

Lemma weekday_range (dt : datetime) : 0 <= weekday dt <= 6.
Proof. unfold weekday. pose proof (Z.mod_pos_bound (toordinal dt + 6) 7). lia. Qed.

(** ** The forward shift *)

Section ForwardShift.

Variable inpNEIfile : string.
Variable outyear : Z.
Variable inp : datetime.
Hypothesis Hparse : strptime (slice_from 13 inpNEIfile) fmt_datetime = Ok inp.

Let outp : datetime := year_shifted inp (outyear - year inp).
Let remaining_days : Z := (toordinal outp - toordinal inp) mod 7.

Lemma forward_inp_valid : valid inp.
Proof. exact (strptime_valid _ _ _ Hparse). Qed.

Lemma forward_outp_year : year outp = outyear.
Proof. subst outp. cbn. lia. Qed.

(** The three ways the forward shift ends once its input has parsed. *)
Lemma forward_datetime_spec :
  shift_BYweekofday_datetime inpNEIfile outyear =
  if (1 <=? outyear) && (outyear <=? 9999) then
    if (0 <? toordinal outp - remaining_days)
    then Ok (of_total_seconds (total_seconds outp - remaining_days * 86400))
    else Raise OverflowError
  else if fits_c_int outyear
       then Raise ValueError_range else Raise OverflowError.
Proof.
  pose proof forward_inp_valid as Hv.
  unfold shift_BYweekofday_datetime. rewrite Hparse. cbn [rbind].
  rewrite add_years_spec by exact Hv.
  replace (year inp + (outyear - year inp)) with outyear by lia.
  destruct ((1 <=? outyear) && (outyear <=? 9999)) eqn:R;
    [|destruct (fits_c_int outyear); reflexivity].
  cbn [rbind]. fold outp.
  assert (Vo : valid outp).
  { apply year_shifted_valid; [exact Hv|].
    apply andb_prop in R as [R1 R2]. apply Z.leb_le in R1, R2. lia. }
  rewrite sub_days_same_clock by reflexivity. fold remaining_days.
  rewrite add_days by exact Vo.
  pose proof (toordinal_range outp Vo) as Bo.
  pose proof (Z.mod_pos_bound (toordinal outp - toordinal inp) 7) as Br.
  fold remaining_days in Br.
  replace (toordinal outp + - remaining_days)
    with (toordinal outp - remaining_days) by lia.
  replace (total_seconds outp + - remaining_days * 86400)
    with (total_seconds outp - remaining_days * 86400) by lia.
  destruct (Z.leb_spec (toordinal outp - remaining_days) MAXORDINAL); [|lia].
  rewrite andb_true_r. reflexivity.
Qed.

Lemma forward_datetime_Ok (adj : datetime) :
  shift_BYweekofday_datetime inpNEIfile outyear = Ok adj ->
  1 <= outyear <= 9999 /\ valid adj
  /\ 0 <= remaining_days <= 6
  /\ toordinal adj = toordinal outp - remaining_days
  /\ hour adj = hour inp /\ minute adj = minute inp /\ second adj = second inp.
Proof.
  pose proof forward_inp_valid as Hv.
  unfold shift_BYweekofday_datetime. rewrite Hparse. cbn [rbind].
  rewrite add_years_spec by exact Hv.
  replace (year inp + (outyear - year inp)) with outyear by lia.
  destruct (Z.leb_spec 1 outyear);
    [|destruct (fits_c_int outyear); discriminate].
  destruct (Z.leb_spec outyear 9999);
    [|destruct (fits_c_int outyear); discriminate].
  cbn [andb rbind]. fold outp.
  assert (Vo : valid outp) by (apply year_shifted_valid; [exact Hv|lia]).
  rewrite sub_days_same_clock by reflexivity. fold remaining_days.
  intros Hadd. apply add_days_Ok in Hadd; [|exact Vo].
  destruct Hadd as (Va & O & C1 & C2 & C3).
  pose proof (Z.mod_pos_bound (toordinal outp - toordinal inp) 7) as Br.
  fold remaining_days in Br.
  repeat split; try lia; try assumption.
Qed.

Lemma forward_datetime_weekday (adj : datetime) :
  shift_BYweekofday_datetime inpNEIfile outyear = Ok adj ->
  weekday adj = weekday inp.
Proof.
  intros H. destruct (forward_datetime_Ok adj H) as (_ & _ & _ & O & _).
  apply (weekday_congr adj inp ((toordinal outp - toordinal inp) / 7)).
  rewrite O. unfold remaining_days.
  pose proof (Z.div_mod (toordinal outp - toordinal inp) 7). lia.
Qed.

(** From year 2 on, the week alignment cannot leave the calendar. *)
Lemma forward_datetime_total :
  2 <= outyear <= 9999 ->
  exists adj, shift_BYweekofday_datetime inpNEIfile outyear = Ok adj.
Proof.
  intros Hy. rewrite forward_datetime_spec.
  destruct (Z.leb_spec 1 outyear); [|lia].
  destruct (Z.leb_spec outyear 9999); [|lia]. cbn [andb].
  pose proof forward_inp_valid as Hv.
  assert (Vo : valid outp) by (apply year_shifted_valid; [exact Hv|lia]).
  pose proof Vo as Fo. rewrite valid_fields in Fo.
  destruct Fo as (_ & Hm & Hd & _).
  pose proof (ymd2ord_in_year _ _ _ Hm Hd) as B.
  fold (toordinal outp) in B. rewrite forward_outp_year in B.
  pose proof (days_before_year_mono 2 outyear).
  change (days_before_year 2) with 365 in *.
  pose proof (Z.mod_pos_bound (toordinal outp - toordinal inp) 7) as Br.
  fold remaining_days in Br.
  destruct (Z.ltb_spec 0 (toordinal outp - remaining_days)); [|lia].
  eauto.
Qed.

(** The adjusted date lies in the target year or in the year before. *)
Lemma forward_datetime_year (adj : datetime) :
  shift_BYweekofday_datetime inpNEIfile outyear = Ok adj ->
  year adj = outyear \/ year adj = outyear - 1.
Proof.
  intros H. destruct (forward_datetime_Ok adj H) as (Hy & Va & Br & O & _).
  pose proof forward_inp_valid as Hv.
  assert (Vo : valid outp) by (apply year_shifted_valid; [exact Hv|lia]).
  rewrite valid_fields in Vo, Va.
  destruct Vo as (_ & Hm & Hd & _). destruct Va as (_ & Hm' & Hd' & _).
  pose proof (ymd2ord_in_year _ _ _ Hm Hd) as B.
  pose proof (ymd2ord_in_year _ _ _ Hm' Hd') as B'.
  fold (toordinal outp) in B. fold (toordinal adj) in B'.
  rewrite forward_outp_year in B.
  destruct (Z_lt_le_dec (year adj) (outyear - 1)) as [L|L].
  - exfalso. pose proof (days_before_year_mono (year adj + 1) (outyear - 1)).
    pose proof (days_before_year_mono (outyear - 1) outyear). lia.
  - destruct (Z_lt_le_dec outyear (year adj)) as [G|G]; [|lia].
    exfalso. pose proof (days_before_year_mono (outyear + 1) (year adj)). lia.
Qed.

End ForwardShift.

(** ** The backward shift *)

Section BackwardShift.

Variable outpNEIfile_datetime : string.
Variable outyear : Z.
Variable outp : datetime.
Hypothesis Hparse : strptime outpNEIfile_datetime fmt_datetime = Ok outp.

Let inp : datetime := year_shifted outp (- (year outp - 2017)).
Let remaining_days : Z := (toordinal outp - toordinal inp) mod 7.

Lemma backward_outp_valid : valid outp.
Proof. exact (strptime_valid _ _ _ Hparse). Qed.

Lemma backward_inp_year : year inp = 2017.
Proof. subst inp. cbn. lia. Qed.

Lemma backward_inp_valid : valid inp.
Proof.
  apply year_shifted_valid; [exact backward_outp_valid | lia].
Qed.

Lemma backward_inp_ordinal :
  days_before_year 2017 < toordinal inp <= days_before_year 2018.
Proof.
  pose proof backward_inp_valid as V. rewrite valid_fields in V.
  destruct V as (_ & Hm & Hd & _).
  pose proof (ymd2ord_in_year _ _ _ Hm Hd) as B.
  fold (toordinal inp) in B. rewrite backward_inp_year in B. exact B.
Qed.

(** Once its input has parsed, the backward shift returns. *)
Lemma backward_datetime_spec :
  shift_BACKWARDto2017_datetime outpNEIfile_datetime outyear =
  Ok (of_total_seconds (total_seconds inp + remaining_days * 86400)).
Proof.
  pose proof backward_outp_valid as Hv.
  unfold shift_BACKWARDto2017_datetime, sub_years. rewrite Hparse. cbn [rbind].
  rewrite add_years_spec by exact Hv.
  replace (year outp + - (year outp - 2017)) with 2017 by lia.
  cbn [Z.leb Z.compare Pos.compare Pos.compare_cont andb rbind]. fold inp.
  rewrite sub_days_same_clock by reflexivity. fold remaining_days.
  rewrite add_days by exact backward_inp_valid.
  pose proof backward_inp_ordinal as B.
  change (days_before_year 2017) with 736329 in B.
  change (days_before_year 2018) with 736694 in B.
  pose proof (Z.mod_pos_bound (toordinal outp - toordinal inp) 7) as Br.
  fold remaining_days in Br. unfold MAXORDINAL.
  destruct (Z.ltb_spec 0 (toordinal inp + remaining_days)); [|lia].
  destruct (Z.leb_spec (toordinal inp + remaining_days) 3652059); [|lia].
  reflexivity.
Qed.

Lemma backward_datetime_Ok (adj : datetime) :
  shift_BACKWARDto2017_datetime outpNEIfile_datetime outyear = Ok adj ->
  valid adj /\ 0 <= remaining_days <= 6
  /\ toordinal adj = toordinal inp + remaining_days
  /\ hour adj = hour outp /\ minute adj = minute outp
  /\ second adj = second outp.
Proof.
  pose proof backward_outp_valid as Hv.
  unfold shift_BACKWARDto2017_datetime, sub_years. rewrite Hparse. cbn [rbind].
  rewrite add_years_spec by exact Hv.
  replace (year outp + - (year outp - 2017)) with 2017 by lia.
  cbn [Z.leb Z.compare Pos.compare Pos.compare_cont andb rbind]. fold inp.
  rewrite sub_days_same_clock by reflexivity. fold remaining_days.
  intros Hadd. apply add_days_Ok in Hadd; [|exact backward_inp_valid].
  destruct Hadd as (Va & O & C1 & C2 & C3).
  pose proof (Z.mod_pos_bound (toordinal outp - toordinal inp) 7) as Br.
  fold remaining_days in Br.
  repeat split; try lia; try assumption.
Qed.

Lemma backward_datetime_weekday (adj : datetime) :
  shift_BACKWARDto2017_datetime outpNEIfile_datetime outyear = Ok adj ->
  weekday adj = weekday outp.
Proof.
  intros H. destruct (backward_datetime_Ok adj H) as (_ & _ & O & _).
  apply (weekday_congr adj outp (- ((toordinal outp - toordinal inp) / 7))).
  rewrite O. unfold remaining_days.
  pose proof (Z.div_mod (toordinal outp - toordinal inp) 7). lia.
Qed.

(** The reconstructed date lies in 2017 or, after the alignment, in the
    first days of 2018. *)
Lemma backward_datetime_year (adj : datetime) :
  shift_BACKWARDto2017_datetime outpNEIfile_datetime outyear = Ok adj ->
  year adj = 2017 \/ year adj = 2018.
Proof.
  intros H. destruct (backward_datetime_Ok adj H) as (Va & Br & O & _).
  pose proof backward_inp_ordinal as B.
  rewrite valid_fields in Va. destruct Va as (_ & Hm' & Hd' & _).
  pose proof (ymd2ord_in_year _ _ _ Hm' Hd') as B'.
  fold (toordinal adj) in B'.
  destruct (Z_lt_le_dec (year adj) 2017) as [L|L].
  - exfalso. pose proof (days_before_year_mono (year adj + 1) 2017). lia.
  - destruct (Z_lt_le_dec 2018 (year adj)) as [G|G]; [|lia].
    exfalso. pose proof (days_before_year_mono 2019 (year adj)).
    change (days_before_year 2019) with 737059 in *.
    change (days_before_year 2018) with 736694 in *. lia.
Qed.

(** The second argument plays no part. *)
Lemma backward_ignores_outyear (y : Z) :
  shift_BACKWARDto2017_datetime outpNEIfile_datetime y
  = shift_BACKWARDto2017_datetime outpNEIfile_datetime outyear.
Proof. reflexivity. Qed.

End BackwardShift.

(** ** Facts about the text of a datetime *)

Lemma all_range_spec (P : Z -> Prop) (k : nat) :
  forall lo, all_range lo k P -> forall z, lo <= z < lo + Z.of_nat k -> P z.
Proof.
  induction k as [|k IH]; intros lo H z Hz; [lia|].
  destruct H as [H0 H1].
  destruct (Z.eq_dec z lo) as [->|Hne]; [exact H0|].
  apply (IH (lo + 1) H1). lia.
Qed.

Lemma digit_char_spec (k : Z) :
  0 <= k <= 9 -> dig (digit_char k) = true /\ digit_val (digit_char k) = k.
Proof.
  intros Hk. pattern k. apply (all_range_spec _ 10 0); [|lia].
  cbn [all_range]. repeat split; vm_compute; reflexivity.
Qed.

Lemma int_pad2 (v : Z) : 0 <= v <= 99 -> int (pad2 v) = v.
Proof.
  intros Hv. unfold int, pad2. cbn [int_digits].
  destruct (digit_char_spec (v / 10)) as [-> ->]; [Z.div_mod_to_equations; lia|].
  destruct (digit_char_spec (v mod 10)) as [-> ->]; [Z.div_mod_to_equations; lia|].
  Z.div_mod_to_equations; lia.
Qed.

Lemma int_pad4 (v : Z) : 0 <= v <= 9999 -> int (pad4 v) = v.
Proof.
  intros Hv. unfold int, pad4. cbn [int_digits].
  destruct (digit_char_spec (v / 1000)) as [-> ->]; [Z.div_mod_to_equations; lia|].
  destruct (digit_char_spec (v / 100 mod 10)) as [-> ->]; [Z.div_mod_to_equations; lia|].
  destruct (digit_char_spec (v / 10 mod 10)) as [-> ->]; [Z.div_mod_to_equations; lia|].
  destruct (digit_char_spec (v mod 10)) as [-> ->]; [Z.div_mod_to_equations; lia|].
  Z.div_mod_to_equations; lia.
Qed.

Lemma re_match_lit (c : ascii) (re : list re_item) (r : string) :
  re_match (RLit c :: re) (String c r) = re_match re r.
Proof. cbn [re_match]. rewrite Ascii.eqb_refl. reflexivity. Qed.

(** The first branch of a group that matches at the head of [s]. *)
Lemma re_match_group_head (d : directive) (alts : list (list charclass))
  (re : list re_item) (s m r rest : string) (ms : list (directive * string)) :
  head_match alts s = Some (m, r) ->
  re_match re r = Some (ms, rest) ->
  re_match (RGroup d alts :: re) s = Some ((d, m) :: ms, rest).
Proof.
  intros Hh Hk. cbn [re_match]. unfold head_match in Hh.
  induction alts as [|a alts IH]; [discriminate|].
  cbn [first_some] in *.
  destruct (match_seq a s) as [[m' r']|].
  - injection Hh as -> ->. rewrite Hk. reflexivity.
  - apply IH, Hh.
Qed.

Ltac group_takes_cases :=
  cbn [all_range]; repeat split; intros r; vm_compute; reflexivity.

Lemma re_match_month (v : Z) : 1 <= v <= 12 -> group_takes Dm v.
Proof.
  intros Hv. apply (all_range_spec (group_takes Dm) 12 1); [|lia]. group_takes_cases.
Qed.

Lemma re_match_day (v : Z) : 1 <= v <= 31 -> group_takes Dd v.
Proof.
  intros Hv. apply (all_range_spec (group_takes Dd) 31 1); [|lia]. group_takes_cases.
Qed.

Lemma re_match_hour (v : Z) : 0 <= v <= 23 -> group_takes DH v.
Proof.
  intros Hv. apply (all_range_spec (group_takes DH) 24 0); [|lia]. group_takes_cases.
Qed.

Lemma re_match_minute (v : Z) : 0 <= v <= 59 -> group_takes DM v.
Proof.
  intros Hv. apply (all_range_spec (group_takes DM) 60 0); [|lia]. group_takes_cases.
Qed.

Lemma re_match_second (v : Z) : 0 <= v <= 59 -> group_takes DS v.
Proof.
  intros Hv. apply (all_range_spec (group_takes DS) 60 0); [|lia]. group_takes_cases.
Qed.

Lemma head_match_year (v : Z) (r : string) :
  0 <= v <= 9999 ->
  head_match [[dig; dig; dig; dig]] (pad4 v ++ r) = Some (pad4 v, r).
Proof.
  intros Hv. unfold head_match, pad4. cbn [first_some match_seq append].
  destruct (digit_char_spec (v / 1000)) as [-> _]; [Z.div_mod_to_equations; lia|].
  destruct (digit_char_spec (v / 100 mod 10)) as [-> _]; [Z.div_mod_to_equations; lia|].
  destruct (digit_char_spec (v / 10 mod 10)) as [-> _]; [Z.div_mod_to_equations; lia|].
  destruct (digit_char_spec (v mod 10)) as [-> _]; [Z.div_mod_to_equations; lia|].
  reflexivity.
Qed.

(** From 1000 on the year is written in four digits. *)
Lemma year_text_four (v : Z) : 1000 <= v -> year_text v = pad4 v.
Proof.
  intros Hv. unfold year_text. destruct (Z.leb_spec 1000 v); [reflexivity | lia].
Qed.

Lemma field_ok_valid (dt : datetime) (d : directive) :
  valid dt -> 1000 <= year dt -> field_ok dt d.
Proof.
  rewrite valid_fields. intros (Hy & Hm & Hd & Hh & Hmi & Hs) Hk.
  pose proof (days_in_month_bounds (year dt) (month dt) Hm) as Bd.
  destruct d; unfold field_ok; cbn [re_of_directive render]; try exact I; intros r.
  - rewrite year_text_four by exact Hk. apply head_match_year. lia.
  - apply (re_match_month (month dt)). lia.
  - apply (re_match_day (day dt)). lia.
  - apply (re_match_hour (hour dt)). lia.
  - apply (re_match_minute (minute dt)). lia.
  - apply (re_match_second (second dt)). lia.
Qed.

Lemma append_empty_r (s : string) : (s ++ "")%string = s.
Proof. induction s as [|c s IH]; [reflexivity|]. cbn. rewrite IH. reflexivity. Qed.

Lemma append_assoc (s t u : string) :
  ((s ++ t) ++ u)%string = (s ++ (t ++ u))%string.
Proof. induction s as [|c s IH]; [reflexivity|]. cbn. rewrite IH. reflexivity. Qed.

(** [re.match] on a text written by [strftime] for the same format finds
    the text of each directive and leaves what follows. *)
Lemma re_match_strftime (fmt : list directive) (dt : datetime) (r : string) :
  (forall d, field_ok dt d) ->
  re_match (map re_of_directive fmt) (strftime fmt dt ++ r)
  = Some (groups_of fmt dt, r).
Proof.
  intros Hok. induction fmt as [|d fmt IH]; [reflexivity|].
  cbn [map strftime]. rewrite append_assoc.
  specialize (Hok d). unfold field_ok in Hok.
  destruct d; cbn [re_of_directive groups_of render] in *;
    try (apply (re_match_group_head _ _ _ _ _ _ _ _ (Hok _) IH)).
  cbn [append]. rewrite re_match_lit. exact IH.
Qed.

(** Parsing the text of a datetime of a four-digit year gives the
    datetime back. *)
Lemma strptime_strftime (dt : datetime) :
  valid dt -> 1000 <= year dt ->
  strptime (strftime fmt_datetime dt) fmt_datetime = Ok dt.
Proof.
  intros Hv Hk. unfold strptime.
  rewrite <- (append_empty_r (strftime fmt_datetime dt)).
  rewrite re_match_strftime by (intros d; apply field_ok_valid; assumption).
  pose proof Hv as Hf. rewrite valid_fields in Hf.
  destruct Hf as (Hy & Hm & Hd & Hh & Hmi & Hs).
  pose proof (days_in_month_bounds (year dt) (month dt) Hm) as Bd.
  cbn [fmt_datetime groups_of fold_left set_field fst snd render default_fields
       f_year f_month f_day f_hour f_minute f_second].
  rewrite year_text_four by exact Hk.
  rewrite int_pad4 by lia. rewrite !int_pad2 by lia.
  apply new_datetime_valid, Hv.
Qed.

(** The text of a datetime before year 1000 has no four-digit year and
    is not read back. *)
Lemma strptime_strftime_short (dt : datetime) :
  year dt < 1000 ->
  strptime (strftime fmt_datetime dt) fmt_datetime = Raise ValueError_format.
Proof.
  intros Hk. unfold strptime.
  assert (E : match_seq [dig; dig; dig; dig] (strftime fmt_datetime dt) = None).
  { cbn [fmt_datetime strftime render]. unfold year_text.
    destruct (Z.leb_spec 1000 (year dt)); [lia|].
    destruct (Z.leb_spec 100 (year dt));
      [|destruct (Z.leb_spec 10 (year dt))];
      cbn [pad2 append match_seq];
      repeat match goal with
             | |- context [dig (digit_char ?e)] => destruct (dig (digit_char e))
             end; reflexivity. }
  cbn [fmt_datetime map re_of_directive re_match first_some].
  rewrite E. reflexivity.
Qed.

Lemma slice_from_prefix (s : string) :
  slice_from 13 ("wrfchemi_d01_" ++ s) = s.
Proof. reflexivity. Qed.

Lemma forward_string_Ok (f : string) (outyear : Z) (out : string) :
  NEIfileDatetime_shift_BYweekofday f outyear = Ok out ->
  exists adj,
    shift_BYweekofday_datetime f outyear = Ok adj
    /\ out = ("wrfchemi_d01_" ++ strftime fmt_datetime adj)%string.
Proof.
  unfold NEIfileDatetime_shift_BYweekofday.
  destruct (shift_BYweekofday_datetime f outyear) as [adj|e]; [|discriminate].
  cbn [rbind]. intros [= <-]. eauto.
Qed.

Lemma fixed_width_text_strftime (dt : datetime) :
  1000 <= year dt -> strftime fmt_datetime dt = fixed_width_text dt.
Proof.
  intros Hk. unfold fixed_width_text. cbn [fmt_datetime strftime render].
  rewrite year_text_four by exact Hk. reflexivity.
Qed.

Lemma fixed_width_fixed_width_text (dt : datetime) :
  valid dt -> fixed_width (fixed_width_text dt) = true.
Proof.
  rewrite valid_fields. intros (Hy & Hm & Hd & Hh & Hmi & Hs).
  pose proof (days_in_month_bounds (year dt) (month dt) Hm) as Bd.
  unfold fixed_width, fixed_width_text.
  cbn [pad4 pad2 append match_seq].
  repeat match goal with
         | |- context [dig (digit_char ?e)] =>
           let E := fresh "E" in
           assert (E : dig (digit_char e) = true)
             by (apply digit_char_spec; Z.div_mod_to_equations; lia);
           rewrite E; clear E
         end.
  reflexivity.
Qed.

Lemma fixed_width_strftime (dt : datetime) :
  valid dt -> 1000 <= year dt -> fixed_width (strftime fmt_datetime dt) = true.
Proof.
  intros Hv Hk. rewrite fixed_width_text_strftime by exact Hk.
  apply fixed_width_fixed_width_text, Hv.
Qed.

(** ** The texts [strptime] accepts *)

Local Open Scope string_scope.

Lemma re_match_lit_inv (c : ascii) (re : list re_item) (s : string)
  (x : list (directive * string) * string) :
  re_match (RLit c :: re) s = Some x ->
  exists r, s = String c r /\ re_match re r = Some x.
Proof.
  cbn [re_match]. destruct s as [|c' r]; [discriminate|].
  destruct (Ascii.eqb_spec c c') as [<-|]; [|discriminate].
  intros H. exists r. split; [reflexivity | exact H].
Qed.

(** Inversion of [match_seq] on a branch given by its classes. *)
Ltac inv_seq H :=
  repeat (cbn [match_seq] in H;
          match type of H with
          | context [match ?s with EmptyString => _ | String _ _ => _ end] =>
            is_var s; destruct s; [discriminate H|]
          | context [if ?b then _ else _] =>
            let E := fresh "E" in destruct b eqn:E; [|discriminate H]
          end);
  cbn [match_seq] in H.

Ltac class_false :=
  match goal with
  | H : _ = true |- _ => solve [vm_compute in H; discriminate H]
  end.

Ltac either_case H :=
  apply orb_prop in H; destruct H as [H|H]; apply Ascii.eqb_eq in H; subst.

Lemma match_seq_app (a : list charclass) :
  forall s m r, match_seq a s = Some (m, r) -> s = (m ++ r)%string.
Proof.
  induction a as [|p a IH]; intros s m r H; cbn [match_seq] in H.
  - injection H as <- <-. reflexivity.
  - destruct s as [|c s]; [discriminate|].
    destruct (p c); [|discriminate].
    destruct (match_seq a s) as [[m' r']|] eqn:E; [|discriminate].
    injection H as <- <-. cbn [append]. f_equal. apply IH, E.
Qed.

(** The branch of a group that [re.match] settles on, and its text. *)
Lemma re_match_group_text (d : directive) (alts : list (list charclass))
  (re : list re_item) (s rest : string) (g : list (directive * string)) :
  re_match (RGroup d alts :: re) s = Some (g, rest) ->
  exists a m r ms,
    In a alts /\ match_seq a s = Some (m, r)
    /\ re_match re r = Some (ms, rest) /\ g = (d, m) :: ms.
Proof.
  cbn [re_match].
  induction alts as [|a alts IH]; cbn [first_some]; [discriminate|].
  intros H.
  assert (K : (exists m r ms, match_seq a s = Some (m, r)
                 /\ re_match re r = Some (ms, rest) /\ g = (d, m) :: ms)
              \/ first_some
                   (fun a =>
                      match match_seq a s with
                      | Some (m, r) =>
                        match re_match re r with
                        | Some (ms, rest) => Some ((d, m) :: ms, rest)
                        | None => None
                        end
                      | None => None
                      end) alts = Some (g, rest)).
  { destruct (match_seq a s) as [[m r]|]; [|right; exact H].
    destruct (re_match re r) as [[ms rest']|] eqn:E'; [|right; exact H].
    left. injection H as <- <-. exists m, r, ms. auto. }
  destruct K as [(m & r & ms & K1 & K2 & K3)|K].
  - exists a, m, r, ms. cbn [In]. auto.
  - destruct (IH K) as (a' & m & r & ms & I' & K1 & K2 & K3).
    exists a', m, r, ms. cbn [In]. auto.
Qed.

Lemma dig_digit_char (c : ascii) :
  dig c = true -> digit_char (digit_val c) = c /\ 0 <= digit_val c <= 9.
Proof.
  destruct c as [[] [] [] [] [] [] [] []]; intros H;
    first [ vm_compute in H; discriminate H
          | split; [reflexivity | split; apply Z.leb_le; reflexivity] ].
Qed.

Lemma int_one (c : ascii) : dig c = true -> int (String c "") = digit_val c.
Proof. intros H. unfold int. cbn [int_digits]. rewrite H. reflexivity. Qed.

Lemma int_two (c1 c2 : ascii) :
  dig c1 = true -> dig c2 = true ->
  int (String c1 (String c2 "")) = digit_val c1 * 10 + digit_val c2.
Proof.
  intros H1 H2. unfold int. cbn [int_digits]. rewrite H1, H2. reflexivity.
Qed.

Lemma int_blank (c : ascii) :
  dig c = true -> int (String " " (String c "")) = digit_val c.
Proof.
  intros H. unfold int. cbn [int_digits]. rewrite H.
  change (dig " "%char) with false. reflexivity.
Qed.

Lemma int_four (c1 c2 c3 c4 : ascii) :
  dig c1 = true -> dig c2 = true -> dig c3 = true -> dig c4 = true ->
  int (String c1 (String c2 (String c3 (String c4 ""))))
  = ((digit_val c1 * 10 + digit_val c2) * 10 + digit_val c3) * 10 + digit_val c4.
Proof.
  intros H1 H2 H3 H4. unfold int. cbn [int_digits].
  rewrite H1, H2, H3, H4. reflexivity.
Qed.

Lemma pad2_digits (c1 c2 : ascii) :
  dig c1 = true -> dig c2 = true ->
  pad2 (digit_val c1 * 10 + digit_val c2) = String c1 (String c2 "").
Proof.
  intros H1 H2.
  destruct (dig_digit_char c1 H1) as [E1 B1].
  destruct (dig_digit_char c2 H2) as [E2 B2].
  unfold pad2.
  replace ((digit_val c1 * 10 + digit_val c2) / 10) with (digit_val c1)
    by (Z.div_mod_to_equations; lia).
  replace ((digit_val c1 * 10 + digit_val c2) mod 10) with (digit_val c2)
    by (Z.div_mod_to_equations; lia).
  rewrite E1, E2. reflexivity.
Qed.

Lemma pad4_digits (c1 c2 c3 c4 : ascii) :
  dig c1 = true -> dig c2 = true -> dig c3 = true -> dig c4 = true ->
  pad4 (((digit_val c1 * 10 + digit_val c2) * 10 + digit_val c3) * 10
        + digit_val c4)
  = String c1 (String c2 (String c3 (String c4 ""))).
Proof.
  intros H1 H2 H3 H4.
  destruct (dig_digit_char c1 H1) as [E1 B1].
  destruct (dig_digit_char c2 H2) as [E2 B2].
  destruct (dig_digit_char c3 H3) as [E3 B3].
  destruct (dig_digit_char c4 H4) as [E4 B4].
  unfold pad4.
  set (v := ((digit_val c1 * 10 + digit_val c2) * 10 + digit_val c3) * 10
            + digit_val c4).
  replace (v / 1000) with (digit_val c1)
    by (subst v; Z.div_mod_to_equations; lia).
  replace (v / 100 mod 10) with (digit_val c2)
    by (subst v; Z.div_mod_to_equations; lia).
  replace (v / 10 mod 10) with (digit_val c3)
    by (subst v; Z.div_mod_to_equations; lia).
  replace (v mod 10) with (digit_val c4)
    by (subst v; Z.div_mod_to_equations; lia).
  rewrite E1, E2, E3, E4. reflexivity.
Qed.

Lemma two_digit_text (c1 c2 : ascii) :
  dig c1 = true -> dig c2 = true ->
  In (String c1 (String c2 "")) (field_texts (int (String c1 (String c2 ""))))
  /\ In (String c1 (String c2 "")) (day_texts (int (String c1 (String c2 ""))))
  /\ 0 <= int (String c1 (String c2 "")) <= 99.
Proof.
  intros H1 H2. rewrite int_two by assumption.
  pose proof (pad2_digits c1 c2 H1 H2) as E.
  destruct (dig_digit_char c1 H1) as [_ B1].
  destruct (dig_digit_char c2 H2) as [_ B2].
  unfold field_texts, day_texts.
  destruct (Z.leb (digit_val c1 * 10 + digit_val c2) 9);
    cbn [In]; rewrite E; repeat split; auto; lia.
Qed.

Lemma one_digit_text (c : ascii) :
  dig c = true ->
  In (String c "") (field_texts (int (String c "")))
  /\ In (String c "") (day_texts (int (String c "")))
  /\ 0 <= int (String c "") <= 99.
Proof.
  intros H. rewrite int_one by assumption.
  destruct (dig_digit_char c H) as [E B].
  unfold field_texts, day_texts, one_digit.
  destruct (Z.leb_spec (digit_val c) 9); [|lia].
  cbn [In]. rewrite E. repeat split; auto; lia.
Qed.

Lemma blank_digit_text (c : ascii) :
  dig c = true ->
  In (String " " (String c "")) (day_texts (int (String " " (String c ""))))
  /\ 0 <= int (String " " (String c "")) <= 99.
Proof.
  intros H. rewrite int_blank by assumption.
  destruct (dig_digit_char c H) as [E B].
  unfold day_texts, one_digit.
  destruct (Z.leb_spec (digit_val c) 9); [|lia].
  cbn [In]. rewrite E. repeat split; auto; lia.
Qed.

(** A character of a class of digits is a digit. *)
Ltac class_dig E :=
  match type of E with
  | ?p ?c = true =>
    let D := fresh "D" in
    assert (D : dig c = true)
      by (clear - E; destruct c as [[] [] [] [] [] [] [] []];
          first [reflexivity | vm_compute in E; discriminate E]);
    clear E
  end.

Ltac classes_dig :=
  repeat match goal with
         | E : ?p ?c = true |- _ =>
           lazymatch p with
           | dig => fail
           | _ => class_dig E
           end
         end.

Ltac text_done :=
  match goal with
  | |- In (String ?a (String ?b EmptyString)) _ /\ _ =>
    destruct (two_digit_text a b) as (? & ? & ?); [assumption..|];
    split; assumption
  | |- In (String ?a EmptyString) _ /\ _ =>
    destruct (one_digit_text a) as (? & ? & ?); [assumption|];
    split; assumption
  end.

Lemma month_text_inv (a : list charclass) (s m r : string) :
  In a [[chr "1"; rng "0" "2"]; [chr "0"; rng "1" "9"]; [rng "1" "9"]] ->
  match_seq a s = Some (m, r) ->
  In m (field_texts (int m)) /\ 0 <= int m <= 99.
Proof.
  intros Hin H. cbn [In] in Hin.
  repeat (destruct Hin as [<-|Hin]); try contradiction;
    inv_seq H; injection H as <- <-; classes_dig;
    text_done.
Qed.

Lemma day_text_inv (a : list charclass) (s m r : string) :
  In a [[chr "3"; rng "0" "1"]; [rng "1" "2"; dig]; [chr "0"; rng "1" "9"];
        [rng "1" "9"]; [chr " "; rng "1" "9"]] ->
  match_seq a s = Some (m, r) ->
  In m (day_texts (int m)) /\ 0 <= int m <= 99.
Proof.
  intros Hin H. cbn [In] in Hin.
  destruct Hin as [<-|[<-|[<-|[<-|[<-|[]]]]]];
    inv_seq H; injection H as <- <-.
  - classes_dig. text_done.
  - classes_dig. text_done.
  - classes_dig. text_done.
  - classes_dig. text_done.
  - apply Ascii.eqb_eq in E. subst. classes_dig.
    apply blank_digit_text. assumption.
Qed.

Lemma hour_text_inv (a : list charclass) (s m r : string) :
  In a [[chr "2"; rng "0" "3"]; [rng "0" "1"; dig]; [dig]] ->
  match_seq a s = Some (m, r) ->
  In m (field_texts (int m)) /\ 0 <= int m <= 99.
Proof.
  intros Hin H. cbn [In] in Hin.
  repeat (destruct Hin as [<-|Hin]); try contradiction;
    inv_seq H; injection H as <- <-; classes_dig;
    text_done.
Qed.

Lemma minute_text_inv (a : list charclass) (s m r : string) :
  In a [[rng "0" "5"; dig]; [dig]] ->
  match_seq a s = Some (m, r) ->
  In m (field_texts (int m)) /\ 0 <= int m <= 99.
Proof.
  intros Hin H. cbn [In] in Hin.
  repeat (destruct Hin as [<-|Hin]); try contradiction;
    inv_seq H; injection H as <- <-; classes_dig;
    text_done.
Qed.

Lemma second_text_inv (a : list charclass) (s m r : string) :
  In a [[chr "6"; rng "0" "1"]; [rng "0" "5"; dig]; [dig]] ->
  match_seq a s = Some (m, r) ->
  In m (field_texts (int m)) /\ 0 <= int m <= 99.
Proof.
  intros Hin H. cbn [In] in Hin.
  repeat (destruct Hin as [<-|Hin]); try contradiction;
    inv_seq H; injection H as <- <-; classes_dig;
    text_done.
Qed.

Lemma year_text_inv (s m r : string) :
  match_seq [dig; dig; dig; dig] s = Some (m, r) ->
  m = pad4 (int m) /\ 0 <= int m <= 9999.
Proof.
  intros H. inv_seq H. injection H as <- <-.
  rewrite int_four by assumption.
  rewrite pad4_digits by assumption.
  destruct (dig_digit_char _ E) as [_ B1].
  destruct (dig_digit_char _ E0) as [_ B2].
  destruct (dig_digit_char _ E1) as [_ B3].
  destruct (dig_digit_char _ E2) as [_ B4].
  split; [reflexivity | lia].
Qed.

Lemma In_datetime_texts (s : string) (dt : datetime) :
  In s (datetime_texts dt) <->
  exists tm td th tmi ts,
    In tm (field_texts (month dt)) /\ In td (day_texts (day dt))
    /\ In th (field_texts (hour dt)) /\ In tmi (field_texts (minute dt))
    /\ In ts (field_texts (second dt))
    /\ s = (pad4 (year dt) ++ "-" ++ tm ++ "-" ++ td ++ "_" ++ th ++ ":" ++ tmi
            ++ ":" ++ ts)%string.
Proof.
  unfold datetime_texts. split.
  - intros H.
    apply in_flat_map in H as (tm & Hm & H).
    apply in_flat_map in H as (td & Hd & H).
    apply in_flat_map in H as (th & Hh & H).
    apply in_flat_map in H as (tmi & Hmi & H).
    apply in_map_iff in H as (ts & <- & Hs).
    exists tm, td, th, tmi, ts. auto 10.
  - intros (tm & td & th & tmi & ts & Hm & Hd & Hh & Hmi & Hs & ->).
    apply in_flat_map. exists tm. split; [exact Hm|].
    apply in_flat_map. exists td. split; [exact Hd|].
    apply in_flat_map. exists th. split; [exact Hh|].
    apply in_flat_map. exists tmi. split; [exact Hmi|].
    apply in_map_iff. exists ts. split; [reflexivity | exact Hs].
Qed.

(** What a match of the whole text tells: the text of each group, and the
    text as a whole. *)
Lemma re_match_datetime_inv (s : string) (g : list (directive * string)) :
  re_match (map re_of_directive fmt_datetime) s = Some (g, ""%string) ->
  exists ty tm td th tmi ts,
    g = [(DY, ty); (Dm, tm); (Dd, td); (DH, th); (DM, tmi); (DS, ts)]
    /\ s = (ty ++ "-" ++ tm ++ "-" ++ td ++ "_" ++ th ++ ":" ++ tmi
            ++ ":" ++ ts)%string
    /\ (ty = pad4 (int ty) /\ 0 <= int ty <= 9999)
    /\ (In tm (field_texts (int tm)) /\ 0 <= int tm <= 99)
    /\ (In td (day_texts (int td)) /\ 0 <= int td <= 99)
    /\ (In th (field_texts (int th)) /\ 0 <= int th <= 99)
    /\ (In tmi (field_texts (int tmi)) /\ 0 <= int tmi <= 99)
    /\ (In ts (field_texts (int ts)) /\ 0 <= int ts <= 99).
Proof.
  intros H. cbn [map fmt_datetime re_of_directive] in H.
  apply re_match_group_text in H as (ay & ty & r1 & g1 & Iy & My & H & ->).
  destruct Iy as [<-|[]].
  apply re_match_lit_inv in H as (r2 & -> & H).
  apply re_match_group_text in H as (am & tm & r3 & g2 & Im & Mm & H & ->).
  apply re_match_lit_inv in H as (r4 & -> & H).
  apply re_match_group_text in H as (ad & td & r5 & g3 & Id & Md & H & ->).
  apply re_match_lit_inv in H as (r6 & -> & H).
  apply re_match_group_text in H as (ah & th & r7 & g4 & Ih & Mh & H & ->).
  apply re_match_lit_inv in H as (r8 & -> & H).
  apply re_match_group_text in H as (ami & tmi & r9 & g5 & Imi & Mmi & H & ->).
  apply re_match_lit_inv in H as (r10 & -> & H).
  apply re_match_group_text in H as (asec & ts & r11 & g6 & Is & Ms & H & ->).
  cbn [re_match] in H. injection H as <- ->.
  exists ty, tm, td, th, tmi, ts.
  split; [reflexivity|]. split.
  { rewrite (match_seq_app _ _ _ _ My). f_equal. cbn [append]. f_equal.
    rewrite (match_seq_app _ _ _ _ Mm). f_equal. f_equal.
    rewrite (match_seq_app _ _ _ _ Md). f_equal. f_equal.
    rewrite (match_seq_app _ _ _ _ Mh). f_equal. f_equal.
    rewrite (match_seq_app _ _ _ _ Mmi). f_equal. f_equal.
    rewrite (match_seq_app _ _ _ _ Ms). apply append_empty_r. }
  split; [exact (year_text_inv _ _ _ My)|].
  split; [exact (month_text_inv _ _ _ _ Im Mm)|].
  split; [exact (day_text_inv _ _ _ _ Id Md)|].
  split; [exact (hour_text_inv _ _ _ _ Ih Mh)|].
  split; [exact (minute_text_inv _ _ _ _ Imi Mmi)|].
  exact (second_text_inv _ _ _ _ Is Ms).
Qed.

Lemma fits_c_int_small (v : Z) : 0 <= v <= 9999 -> fits_c_int v = true.
Proof.
  intros Hv. unfold fits_c_int, C_INT_MIN, C_INT_MAX.
  change (2 ^ 31) with 2147483648.
  apply andb_true_intro. split; apply Z.leb_le; lia.
Qed.

(** [strptime] raises a [ValueError] and nothing else. *)
Lemma strptime_Raise (s : string) (e : exn) :
  strptime s fmt_datetime = Raise e ->
  e = ValueError_format \/ e = ValueError_range.
Proof.
  unfold strptime.
  destruct (re_match (map re_of_directive fmt_datetime) s) as [[g rest]|] eqn:E;
    [|intros [= <-]; auto].
  destruct rest; [|intros [= <-]; auto].
  destruct (re_match_datetime_inv s g E)
    as (ty & tm & td & th & tmi & ts & -> & _ & [_ By] & [_ Bm] & [_ Bd]
        & [_ Bh] & [_ Bmi] & [_ Bs]).
  cbn [fold_left set_field fst snd default_fields
       f_year f_month f_day f_hour f_minute f_second].
  unfold new_datetime. cbn [forallb].
  rewrite !fits_c_int_small by lia. cbn [andb].
  destruct (check_date_fields _ _ _ && check_time_fields _ _ _);
    [discriminate | intros [= <-]; auto].
Qed.

(** The parsed datetime and the text it was read from. *)
Lemma strptime_accepted (s : string) (dt : datetime) :
  strptime s fmt_datetime = Ok dt -> accepted_text s dt.
Proof.
  intros H. pose proof (strptime_valid _ _ _ H) as Hv.
  split; [exact Hv|].
  unfold strptime in H.
  destruct (re_match (map re_of_directive fmt_datetime) s) as [[g rest]|] eqn:E;
    [|discriminate].
  destruct rest; [|discriminate].
  destruct (re_match_datetime_inv s g E)
    as (ty & tm & td & th & tmi & ts & -> & -> & [Ey By] & [Im Bm] & [Id Bd]
        & [Ih Bh] & [Imi Bmi] & [Is Bs]).
  cbn [fold_left set_field fst snd default_fields
       f_year f_month f_day f_hour f_minute f_second] in H.
  apply new_datetime_Ok in H as [-> _].
  apply In_datetime_texts.
  exists tm, td, th, tmi, ts. cbn [year month day hour minute second].
  rewrite <- Ey. auto 10.
Qed.

Ltac split_range :=
  cbn [all_range];
  repeat match goal with |- _ /\ _ => split end;
  try exact I.

Ltac field_text_cases :=
  split_range; intros t r Hin;
  vm_compute in Hin; intuition subst; split; vm_compute; reflexivity.

Lemma month_text_taken (v : Z) :
  1 <= v <= 12 ->
  forall t r, In t (field_texts v) ->
    head_match [[chr "1"; rng "0" "2"]; [chr "0"; rng "1" "9"]; [rng "1" "9"]]
      (t ++ String "-" r) = Some (t, String "-" r)
    /\ int t = v.
Proof.
  intros Hv.
  apply (all_range_spec
           (fun v => forall t r, In t (field_texts v) ->
              head_match [[chr "1"; rng "0" "2"]; [chr "0"; rng "1" "9"];
                          [rng "1" "9"]]
                (t ++ String "-" r) = Some (t, String "-" r)
              /\ int t = v) 12 1); [|lia].
  field_text_cases.
Qed.

Lemma day_text_taken (v : Z) :
  1 <= v <= 31 ->
  forall t r, In t (day_texts v) ->
    head_match [[chr "3"; rng "0" "1"]; [rng "1" "2"; dig];
                [chr "0"; rng "1" "9"]; [rng "1" "9"]; [chr " "; rng "1" "9"]]
      (t ++ String "_" r) = Some (t, String "_" r)
    /\ int t = v.
Proof.
  intros Hv.
  apply (all_range_spec
           (fun v => forall t r, In t (day_texts v) ->
              head_match [[chr "3"; rng "0" "1"]; [rng "1" "2"; dig];
                          [chr "0"; rng "1" "9"]; [rng "1" "9"];
                          [chr " "; rng "1" "9"]]
                (t ++ String "_" r) = Some (t, String "_" r)
              /\ int t = v) 31 1); [|lia].
  field_text_cases.
Qed.

Lemma hour_text_taken (v : Z) :
  0 <= v <= 23 ->
  forall t r, In t (field_texts v) ->
    head_match [[chr "2"; rng "0" "3"]; [rng "0" "1"; dig]; [dig]]
      (t ++ String ":" r) = Some (t, String ":" r)
    /\ int t = v.
Proof.
  intros Hv.
  apply (all_range_spec
           (fun v => forall t r, In t (field_texts v) ->
              head_match [[chr "2"; rng "0" "3"]; [rng "0" "1"; dig]; [dig]]
                (t ++ String ":" r) = Some (t, String ":" r)
              /\ int t = v) 24 0); [|lia].
  field_text_cases.
Qed.

Lemma minute_text_taken (v : Z) :
  0 <= v <= 59 ->
  forall t r, In t (field_texts v) ->
    head_match [[rng "0" "5"; dig]; [dig]]
      (t ++ String ":" r) = Some (t, String ":" r)
    /\ int t = v.
Proof.
  intros Hv.
  apply (all_range_spec
           (fun v => forall t r, In t (field_texts v) ->
              head_match [[rng "0" "5"; dig]; [dig]]
                (t ++ String ":" r) = Some (t, String ":" r)
              /\ int t = v) 60 0); [|lia].
  field_text_cases.
Qed.

Ltac last_text_cases :=
  split_range; intros t Hin;
  vm_compute in Hin; intuition subst; split; vm_compute; reflexivity.

Lemma second_text_taken (v : Z) :
  0 <= v <= 59 ->
  forall t, In t (field_texts v) ->
    head_match [[chr "6"; rng "0" "1"]; [rng "0" "5"; dig]; [dig]] t
    = Some (t, ""%string)
    /\ int t = v.
Proof.
  intros Hv.
  apply (all_range_spec
           (fun v => forall t, In t (field_texts v) ->
              head_match [[chr "6"; rng "0" "1"]; [rng "0" "5"; dig]; [dig]] t
              = Some (t, ""%string)
              /\ int t = v) 60 0); [|lia].
  last_text_cases.
Qed.

(** Every text of a valid datetime is read as that datetime. *)
Lemma accepted_strptime (s : string) (dt : datetime) :
  accepted_text s dt -> strptime s fmt_datetime = Ok dt.
Proof.
  intros [Hv Hin].
  apply In_datetime_texts in Hin
    as (tm & td & th & tmi & ts & Im & Id & Ih & Imi & Is & ->).
  pose proof Hv as Hf. rewrite valid_fields in Hf.
  destruct Hf as (Hy & Hm & Hd & Hh & Hmi & Hs).
  pose proof (days_in_month_bounds (year dt) (month dt) Hm) as Bd.
  destruct (month_text_taken (month dt) ltac:(lia) tm
              (td ++ "_" ++ th ++ ":" ++ tmi ++ ":" ++ ts)%string Im) as [Tm Vm].
  destruct (day_text_taken (day dt) ltac:(lia) td
              (th ++ ":" ++ tmi ++ ":" ++ ts)%string Id) as [Td Vd].
  destruct (hour_text_taken (hour dt) ltac:(lia) th
              (tmi ++ ":" ++ ts)%string Ih) as [Th Vh].
  destruct (minute_text_taken (minute dt) ltac:(lia) tmi ts Imi) as [Tmi Vmi].
  destruct (second_text_taken (second dt) ltac:(lia) ts Is) as [Ts Vs].
  assert (R : re_match (map re_of_directive fmt_datetime)
                (pad4 (year dt) ++ "-" ++ tm ++ "-" ++ td ++ "_" ++ th ++ ":"
                 ++ tmi ++ ":" ++ ts)%string
              = Some ([(DY, pad4 (year dt)); (Dm, tm); (Dd, td); (DH, th);
                       (DM, tmi); (DS, ts)], ""%string)).
  { cbn [map fmt_datetime re_of_directive].
    eapply re_match_group_head; [apply head_match_year; lia|].
    cbn [append]. rewrite re_match_lit.
    eapply re_match_group_head; [exact Tm|]. rewrite re_match_lit.
    eapply re_match_group_head; [exact Td|]. rewrite re_match_lit.
    eapply re_match_group_head; [exact Th|]. rewrite re_match_lit.
    eapply re_match_group_head; [exact Tmi|]. rewrite re_match_lit.
    eapply re_match_group_head; [exact Ts|]. reflexivity. }
  unfold strptime. rewrite R.
  cbn [fold_left set_field fst snd default_fields
       f_year f_month f_day f_hour f_minute f_second].
  rewrite int_pad4 by lia. rewrite Vm, Vd, Vh, Vmi, Vs.
  apply new_datetime_valid, Hv.
Qed.

Lemma fixed_width_text_accepted (dt : datetime) :
  valid dt -> accepted_text (fixed_width_text dt) dt.
Proof.
  intros Hv. split; [exact Hv|]. apply In_datetime_texts.
  exists (pad2 (month dt)), (pad2 (day dt)), (pad2 (hour dt)),
    (pad2 (minute dt)), (pad2 (second dt)).
  unfold field_texts, day_texts.
  repeat split;
    try (match goal with |- context [if ?b then _ else _] => destruct b end;
         left; reflexivity).
Qed.

(** ** The claims on the date shifter *)

Local Open Scope string_scope.

(** C1.  Whenever the forward shift returns a filename, the timestamp it
    carries has the weekday (Monday 0 .. Sunday 6) of the source timestamp,
    whether the target year is later than, equal to or earlier than the
    source year; the carried timestamp is read back from index 13 of the
    output when its year has four digits; and the shift does return for
    every target year from 2 to 9999. *)
Theorem C1_forward_shift_keeps_weekday
  (inpNEIfile : string) (outyear : Z) (inp : datetime) :
  strptime (slice_from 13 inpNEIfile) fmt_datetime = Ok inp ->
  (forall out, NEIfileDatetime_shift_BYweekofday inpNEIfile outyear = Ok out ->
     exists adj,
       shift_BYweekofday_datetime inpNEIfile outyear = Ok adj
       /\ out = "wrfchemi_d01_" ++ strftime fmt_datetime adj
       /\ (1000 <= year adj ->
           strptime (slice_from 13 out) fmt_datetime = Ok adj)
       /\ weekday adj = weekday inp)
  /\ (2 <= outyear <= 9999 ->
      exists out, NEIfileDatetime_shift_BYweekofday inpNEIfile outyear = Ok out).
Proof.
  intros Hparse. split.
  - intros out Hout. destruct (forward_string_Ok _ _ _ Hout) as (adj & Hadj & ->).
    exists adj. split; [exact Hadj|]. split; [reflexivity|].
    destruct (forward_datetime_Ok _ _ _ Hparse adj Hadj) as (_ & Va & _).
    split.
    + intros Hk. rewrite slice_from_prefix. apply strptime_strftime; assumption.
    + exact (forward_datetime_weekday _ _ _ Hparse adj Hadj).
  - intros Hy. destruct (forward_datetime_total _ _ _ Hparse Hy) as (adj & Hadj).
    unfold NEIfileDatetime_shift_BYweekofday. rewrite Hadj. cbn [rbind]. eauto.
Qed.

Lemma C1_forward_shift_keeps_weekday_witness :
  strptime (slice_from 13 "wrfchemi_d01_2017-08-01_01:00:00") fmt_datetime
  = Ok (mkdatetime 2017 8 1 1 0 0)
  /\ ((forall out,
         NEIfileDatetime_shift_BYweekofday "wrfchemi_d01_2017-08-01_01:00:00" 2020
         = Ok out ->
         exists adj,
           shift_BYweekofday_datetime "wrfchemi_d01_2017-08-01_01:00:00" 2020
           = Ok adj
           /\ out = "wrfchemi_d01_" ++ strftime fmt_datetime adj
           /\ (1000 <= year adj ->
               strptime (slice_from 13 out) fmt_datetime = Ok adj)
           /\ weekday adj = weekday (mkdatetime 2017 8 1 1 0 0))
      /\ (2 <= 2020 <= 9999 ->
          exists out,
            NEIfileDatetime_shift_BYweekofday "wrfchemi_d01_2017-08-01_01:00:00" 2020
            = Ok out)).
Proof.
  split; [reflexivity|].
  apply (C1_forward_shift_keeps_weekday
           "wrfchemi_d01_2017-08-01_01:00:00" 2020 (mkdatetime 2017 8 1 1 0 0)).
  reflexivity.
Defined.

(** C2.  Feeding the timestamp part of the forward shift's output to the
    backward shift, with the source year as reference year, gives a
    timestamp with the weekday of the source timestamp, for any target
    year; the two shifts compose to a result for every four-digit target
    year above 1000. *)
Theorem C2_round_trip_keeps_weekday
  (inpNEIfile : string) (outyear : Z) (ts : datetime) :
  strptime (slice_from 13 inpNEIfile) fmt_datetime = Ok ts ->
  (forall out rec,
     NEIfileDatetime_shift_BYweekofday inpNEIfile outyear = Ok out ->
     shift_BACKWARDto2017_datetime (slice_from 13 out) (year ts) = Ok rec ->
     weekday rec = weekday ts)
  /\ (1000 < outyear <= 9999 ->
      exists out rec,
        NEIfileDatetime_shift_BYweekofday inpNEIfile outyear = Ok out
        /\ shift_BACKWARDto2017_datetime (slice_from 13 out) (year ts) = Ok rec
        /\ NEIfileDatetime_shift_BACKWARDto2017 (slice_from 13 out) (year ts)
           = Ok (strftime fmt_datetime rec)
        /\ weekday rec = weekday ts).
Proof.
  intros Hparse.
  assert (Hback : forall out rec,
             NEIfileDatetime_shift_BYweekofday inpNEIfile outyear = Ok out ->
             shift_BACKWARDto2017_datetime (slice_from 13 out) (year ts) = Ok rec ->
             weekday rec = weekday ts).
  { intros out rec Hout Hrec.
    destruct (forward_string_Ok _ _ _ Hout) as (adj & Hadj & ->).
    destruct (forward_datetime_Ok _ _ _ Hparse adj Hadj) as (_ & Va & _).
    rewrite slice_from_prefix in Hrec.
    destruct (Z_lt_le_dec (year adj) 1000) as [Hk|Hk].
    { unfold shift_BACKWARDto2017_datetime in Hrec.
      rewrite (strptime_strftime_short adj Hk) in Hrec. discriminate Hrec. }
    pose proof (strptime_strftime adj Va Hk) as Hp.
    rewrite (backward_datetime_weekday _ _ _ Hp rec Hrec).
    exact (forward_datetime_weekday _ _ _ Hparse adj Hadj). }
  split; [exact Hback|].
  intros Hy.
  destruct (forward_datetime_total inpNEIfile outyear ts Hparse) as (adj & Hadj);
    [lia|].
  destruct (forward_datetime_Ok _ _ _ Hparse adj Hadj) as (_ & Va & _).
  assert (Hk : 1000 <= year adj)
    by (destruct (forward_datetime_year _ _ _ Hparse adj Hadj); lia).
  pose proof (strptime_strftime adj Va Hk) as Hp.
  pose proof (backward_datetime_spec _ (year ts) _ Hp) as Hrec.
  eexists. eexists. split; [|split; [|split]].
  - unfold NEIfileDatetime_shift_BYweekofday. rewrite Hadj. reflexivity.
  - rewrite slice_from_prefix. exact Hrec.
  - rewrite slice_from_prefix. unfold NEIfileDatetime_shift_BACKWARDto2017.
    rewrite Hrec. reflexivity.
  - apply (Hback ("wrfchemi_d01_" ++ strftime fmt_datetime adj)).
    + unfold NEIfileDatetime_shift_BYweekofday. rewrite Hadj. reflexivity.
    + rewrite slice_from_prefix. exact Hrec.
Qed.

Lemma C2_round_trip_keeps_weekday_witness :
  strptime (slice_from 13 "wrfchemi_d01_2017-08-01_01:00:00") fmt_datetime
  = Ok (mkdatetime 2017 8 1 1 0 0)
  /\ exists out rec,
       NEIfileDatetime_shift_BYweekofday "wrfchemi_d01_2017-08-01_01:00:00" 2020
       = Ok out
       /\ shift_BACKWARDto2017_datetime (slice_from 13 out) 2017 = Ok rec
       /\ NEIfileDatetime_shift_BACKWARDto2017 (slice_from 13 out) 2017
          = Ok (strftime fmt_datetime rec)
       /\ weekday rec = weekday (mkdatetime 2017 8 1 1 0 0).
Proof.
  split; [reflexivity|].
  apply (C2_round_trip_keeps_weekday
           "wrfchemi_d01_2017-08-01_01:00:00" 2020 (mkdatetime 2017 8 1 1 0 0));
    [reflexivity | lia].
Defined.

(** C3, as stated, fails: with reference year 2010 the backward shift of
    2020-08-01 01:00:00 returns a timestamp of 2017, not one within a week
    of 2010. *)
Lemma C3_reference_year_counterexample :
  ~ (forall (s : string) (reference_year : Z) (adj rec : datetime),
       strptime s fmt_datetime = Ok adj ->
       shift_BACKWARDto2017_datetime s reference_year = Ok rec ->
       reference_year - 1 <= year rec <= reference_year + 1).
Proof.
  intros H.
  specialize (H "2020-08-01_01:00:00" 2010 (mkdatetime 2020 8 1 1 0 0)
                (mkdatetime 2017 8 5 1 0 0) eq_refl eq_refl).
  cbn in H. lia.
Qed.

(** C3, amended.  The backward shift does not read its second argument:
    it takes the year offset to be the year of the adjusted timestamp
    minus 2017, so the year-shifted timestamp lies in 2017, and the
    returned timestamp, which is that one moved forward by the 0 to 6
    alignment days, lies in 2017 or 2018. *)
Theorem C3_backward_shift_targets_2017
  (s : string) (reference_year : Z) (adj : datetime) :
  strptime s fmt_datetime = Ok adj ->
  exists rec,
    shift_BACKWARDto2017_datetime s reference_year = Ok rec
    /\ (forall y, shift_BACKWARDto2017_datetime s y = Ok rec)
    /\ sub_years adj (year adj - 2017)
       = Ok (year_shifted adj (- (year adj - 2017)))
    /\ year (year_shifted adj (- (year adj - 2017))) = 2017
    /\ 0 <= toordinal rec - toordinal (year_shifted adj (- (year adj - 2017))) <= 6
    /\ (year rec = 2017 \/ year rec = 2018).
Proof.
  intros Hparse.
  pose proof (backward_datetime_spec s reference_year adj Hparse) as Hrec.
  eexists. split; [exact Hrec|].
  destruct (backward_datetime_Ok s reference_year adj Hparse _ Hrec)
    as (_ & Br & O & _).
  split; [intros y; exact Hrec|]. split; [|split; [|split]].
  - unfold sub_years. rewrite add_years_spec by exact (strptime_valid _ _ _ Hparse).
    replace (year adj + - (year adj - 2017)) with 2017 by lia. reflexivity.
  - cbn. lia.
  - lia.
  - exact (backward_datetime_year s reference_year adj Hparse _ Hrec).
Qed.

Lemma C3_backward_shift_targets_2017_witness :
  strptime "2020-12-31_01:00:00" fmt_datetime = Ok (mkdatetime 2020 12 31 1 0 0)
  /\ exists rec,
       shift_BACKWARDto2017_datetime "2020-12-31_01:00:00" 2010 = Ok rec
       /\ (forall y, shift_BACKWARDto2017_datetime "2020-12-31_01:00:00" y = Ok rec)
       /\ sub_years (mkdatetime 2020 12 31 1 0 0)
            (year (mkdatetime 2020 12 31 1 0 0) - 2017)
          = Ok (year_shifted (mkdatetime 2020 12 31 1 0 0)
                  (- (year (mkdatetime 2020 12 31 1 0 0) - 2017)))
       /\ year (year_shifted (mkdatetime 2020 12 31 1 0 0)
                  (- (year (mkdatetime 2020 12 31 1 0 0) - 2017))) = 2017
       /\ 0 <= toordinal rec
               - toordinal (year_shifted (mkdatetime 2020 12 31 1 0 0)
                              (- (year (mkdatetime 2020 12 31 1 0 0) - 2017)))
            <= 6
       /\ (year rec = 2017 \/ year rec = 2018).
Proof.
  split; [reflexivity|].
  apply (C3_backward_shift_targets_2017 "2020-12-31_01:00:00" 2010
           (mkdatetime 2020 12 31 1 0 0)).
  reflexivity.
Defined.

(** C4.  For every adjusted timestamp text that parses, the backward shift
    returns, and the reconstructed timestamp has the weekday of the
    adjusted timestamp. *)
Theorem C4_backward_shift_keeps_weekday
  (s : string) (reference_year : Z) (adj : datetime) :
  strptime s fmt_datetime = Ok adj ->
  exists rec,
    shift_BACKWARDto2017_datetime s reference_year = Ok rec
    /\ NEIfileDatetime_shift_BACKWARDto2017 s reference_year
       = Ok (strftime fmt_datetime rec)
    /\ weekday rec = weekday adj.
Proof.
  intros Hparse.
  pose proof (backward_datetime_spec s reference_year adj Hparse) as Hrec.
  eexists. split; [exact Hrec|]. split.
  - unfold NEIfileDatetime_shift_BACKWARDto2017. rewrite Hrec. reflexivity.
  - exact (backward_datetime_weekday s reference_year adj Hparse _ Hrec).
Qed.

Lemma C4_backward_shift_keeps_weekday_witness :
  strptime "2020-07-28_01:00:00" fmt_datetime = Ok (mkdatetime 2020 7 28 1 0 0)
  /\ exists rec,
       shift_BACKWARDto2017_datetime "2020-07-28_01:00:00" 2017 = Ok rec
       /\ NEIfileDatetime_shift_BACKWARDto2017 "2020-07-28_01:00:00" 2017
          = Ok (strftime fmt_datetime rec)
       /\ weekday rec = weekday (mkdatetime 2020 7 28 1 0 0).
Proof.
  split; [reflexivity|].
  apply (C4_backward_shift_keeps_weekday "2020-07-28_01:00:00" 2017
           (mkdatetime 2020 7 28 1 0 0)).
  reflexivity.
Defined.

Lemma add_years_Ok (dt outp : datetime) (n : Z) :
  valid dt -> add_years dt n = Ok outp ->
  outp = year_shifted dt n /\ 1 <= year dt + n <= 9999.
Proof.
  intros Hv. rewrite add_years_spec by exact Hv.
  destruct (Z.leb_spec 1 (year dt + n));
    [|destruct (fits_c_int _); discriminate].
  destruct (Z.leb_spec (year dt + n) 9999);
    [|destruct (fits_c_int _); discriminate].
  cbn [andb]. intros [= <-]. split; [reflexivity|lia].
Qed.

(** C5.  In the forward shift the signed day difference is the number of
    days from the source date to the year-shifted date (the difference of
    their day numbers; the year-shifted date is in the target year); the
    remaining-days value is its floored residue modulo 7, between 0 and 6;
    the function's result is the year-shifted timestamp moved back by
    exactly that many days, so a returned timestamp is a whole number of
    weeks away from the source, at most six days before the year-shifted
    date, and lies in the target year or in the year before it; and for
    target years from 2 on the function returns. *)
Theorem C5_forward_remaining_days
  (inpNEIfile : string) (outyear : Z) (inp outp : datetime) :
  strptime (slice_from 13 inpNEIfile) fmt_datetime = Ok inp ->
  add_years inp (outyear - year inp) = Ok outp ->
  let delta_days := days (sub outp inp) in
  let remaining_days := delta_days mod 7 in
  year outp = outyear
  /\ delta_days = toordinal outp - toordinal inp
  /\ 0 <= remaining_days <= 6
  /\ delta_days = 7 * (delta_days / 7) + remaining_days
  /\ shift_BYweekofday_datetime inpNEIfile outyear
     = add outp (new_timedelta (- remaining_days) 0)
  /\ (forall adj,
        shift_BYweekofday_datetime inpNEIfile outyear = Ok adj ->
        total_seconds adj = total_seconds outp - remaining_days * 86400
        /\ toordinal adj = toordinal outp - remaining_days
        /\ toordinal adj - toordinal inp = 7 * (delta_days / 7)
        /\ (year adj = outyear \/ year adj = outyear - 1))
  /\ (2 <= outyear ->
      exists adj, shift_BYweekofday_datetime inpNEIfile outyear = Ok adj).
Proof.
  intros Hparse Hadd delta_days remaining_days.
  pose proof (strptime_valid _ _ _ Hparse) as Hv.
  destruct (add_years_Ok _ _ _ Hv Hadd) as [Eo Hr].
  assert (Vo : valid outp)
    by (rewrite Eo; apply year_shifted_valid; [exact Hv|lia]).
  assert (Ed : delta_days = toordinal outp - toordinal inp).
  { unfold delta_days. apply sub_days_same_clock. rewrite Eo. reflexivity. }
  assert (Hshift : shift_BYweekofday_datetime inpNEIfile outyear
                   = add outp (new_timedelta (- remaining_days) 0)).
  { unfold shift_BYweekofday_datetime. rewrite Hparse. cbn [rbind].
    rewrite Hadd. reflexivity. }
  pose proof (Z.mod_pos_bound delta_days 7) as Br.
  fold remaining_days in Br.
  pose proof (Z.div_mod delta_days 7) as Dm. fold remaining_days in Dm.
  split; [rewrite Eo; cbn; lia|]. split; [exact Ed|].
  split; [lia|]. split; [lia|]. split; [exact Hshift|]. split.
  - intros adj Hadj.
    pose proof Hadj as Hadj'. rewrite Hshift in Hadj'.
    destruct (add_days_Ok _ _ _ Vo Hadj') as (_ & O & _).
    split; [|split; [lia|split; [lia|]]].
    + destruct (add_Ok _ _ _ Vo Hadj') as (_ & -> & _).
      unfold new_timedelta. cbn [days seconds].
      change (0 / 86400) with 0. change (0 mod 86400) with 0. lia.
    + exact (forward_datetime_year _ _ _ Hparse adj Hadj).
  - intros Hy. apply (forward_datetime_total _ _ _ Hparse). lia.
Qed.

Lemma C5_forward_remaining_days_witness :
  strptime (slice_from 13 "wrfchemi_d01_2020-01-03_01:00:00") fmt_datetime
  = Ok (mkdatetime 2020 1 3 1 0 0)
  /\ add_years (mkdatetime 2020 1 3 1 0 0) (2017 - 2020)
     = Ok (mkdatetime 2017 1 3 1 0 0)
  /\ days (sub (mkdatetime 2017 1 3 1 0 0) (mkdatetime 2020 1 3 1 0 0)) = -1095
  /\ days (sub (mkdatetime 2017 1 3 1 0 0) (mkdatetime 2020 1 3 1 0 0)) mod 7 = 4
  /\ shift_BYweekofday_datetime "wrfchemi_d01_2020-01-03_01:00:00" 2017
     = Ok (mkdatetime 2016 12 30 1 0 0)
  /\ toordinal (mkdatetime 2016 12 30 1 0 0)
       - toordinal (mkdatetime 2020 1 3 1 0 0) = 7 * (-157).
Proof.
  split; [reflexivity|]. split; [reflexivity|].
  pose proof (C5_forward_remaining_days
                "wrfchemi_d01_2020-01-03_01:00:00" 2017
                (mkdatetime 2020 1 3 1 0 0) (mkdatetime 2017 1 3 1 0 0)
                eq_refl eq_refl) as (_ & D & _ & _ & S & A & _).
  split; [rewrite D; vm_compute; reflexivity|].
  split; [rewrite D; vm_compute; reflexivity|].
  assert (R : shift_BYweekofday_datetime "wrfchemi_d01_2020-01-03_01:00:00" 2017
              = Ok (mkdatetime 2016 12 30 1 0 0))
    by (rewrite S, D; vm_compute; reflexivity).
  split; [exact R|].
  destruct (A _ R) as (_ & _ & W & _). rewrite W, D. vm_compute. reflexivity.
Defined.

(** C6.  A February 29 source shifted to a target year that is not a leap
    year is clamped: the year-shifted timestamp is February 28 of the
    target year with the same clock, no error is raised for it, and the
    week alignment then starts from that date. *)
Theorem C6_leap_day_clamped_to_feb_28
  (inpNEIfile : string) (outyear : Z) (inp : datetime) :
  strptime (slice_from 13 inpNEIfile) fmt_datetime = Ok inp ->
  month inp = 2 -> day inp = 29 ->
  is_leap outyear = false -> 1 <= outyear <= 9999 ->
  let feb28 := mkdatetime outyear 2 28 (hour inp) (minute inp) (second inp) in
  add_years inp (outyear - year inp) = Ok feb28
  /\ shift_BYweekofday_datetime inpNEIfile outyear
     = add feb28 (new_timedelta (- (days (sub feb28 inp) mod 7)) 0)
  /\ (2 <= outyear ->
      exists adj,
        shift_BYweekofday_datetime inpNEIfile outyear = Ok adj
        /\ 0 <= toordinal feb28 - toordinal adj <= 6
        /\ weekday adj = weekday inp).
Proof.
  intros Hparse Hm Hd Hleap Hy feb28.
  pose proof (strptime_valid _ _ _ Hparse) as Hv.
  assert (Hadd : add_years inp (outyear - year inp) = Ok feb28).
  { rewrite add_years_spec by exact Hv.
    replace (year inp + (outyear - year inp)) with outyear by lia.
    destruct (Z.leb_spec 1 outyear); [|lia].
    destruct (Z.leb_spec outyear 9999); [|lia]. cbn [andb].
    unfold year_shifted, feb28.
    replace (year inp + (outyear - year inp)) with outyear by lia.
    rewrite Hm, Hd. unfold days_in_month. rewrite Hleap. reflexivity. }
  assert (Hshift : shift_BYweekofday_datetime inpNEIfile outyear
                   = add feb28 (new_timedelta (- (days (sub feb28 inp) mod 7)) 0)).
  { unfold shift_BYweekofday_datetime. rewrite Hparse. cbn [rbind].
    rewrite Hadd. reflexivity. }
  split; [exact Hadd|]. split; [exact Hshift|].
  intros Hy2.
  destruct (forward_datetime_total inpNEIfile outyear inp Hparse) as (adj & Hadj);
    [lia|].
  exists adj. split; [exact Hadj|]. split.
  - destruct (forward_datetime_Ok _ _ _ Hparse adj Hadj) as (_ & _ & Br & O & _).
    destruct (add_years_Ok _ _ _ Hv Hadd) as [Eo _]. rewrite <- Eo in *. lia.
  - exact (forward_datetime_weekday _ _ _ Hparse adj Hadj).
Qed.

Lemma C6_leap_day_clamped_to_feb_28_witness :
  strptime (slice_from 13 "wrfchemi_d01_2020-02-29_01:00:00") fmt_datetime
  = Ok (mkdatetime 2020 2 29 1 0 0)
  /\ add_years (mkdatetime 2020 2 29 1 0 0) (2021 - 2020)
     = Ok (mkdatetime 2021 2 28 1 0 0)
  /\ shift_BYweekofday_datetime "wrfchemi_d01_2020-02-29_01:00:00" 2021
     = add (mkdatetime 2021 2 28 1 0 0)
         (new_timedelta
            (- (days (sub (mkdatetime 2021 2 28 1 0 0) (mkdatetime 2020 2 29 1 0 0))
                mod 7)) 0).
Proof.
  split; [reflexivity|].
  pose proof (C6_leap_day_clamped_to_feb_28
                "wrfchemi_d01_2020-02-29_01:00:00" 2021
                (mkdatetime 2020 2 29 1 0 0)
                eq_refl eq_refl eq_refl eq_refl) as H.
  destruct H as (A & B & _); [lia|]. split; [exact A | exact B].
Defined.

(** C7, as stated, fails: a timestamp text with one-digit fields is not
    laid out in the fixed-width pattern, yet the forward shift parses it
    and returns. *)
Lemma C7_fixed_width_counterexample :
  fixed_width (slice_from 13 "wrfchemi_d01_2017-8-1_1:0:0") = false
  /\ NEIfileDatetime_shift_BYweekofday "wrfchemi_d01_2017-8-1_1:0:0" 2020
     = Ok "wrfchemi_d01_2020-07-28_01:00:00".
Proof. split; reflexivity. Qed.

(** C7, amended.  [strptime] reads the datetime [dt] from a text under
    ['%Y-%m-%d_%H:%M:%S'] exactly when [dt] is valid and the text is the
    year in four digits, then, between the separators of the pattern, the
    month, day, hour, minute and second, each in two digits or, when below
    ten, in one digit, the day also as a blank and one digit.  The forward
    shift fails with the [ValueError] of the parse exactly when the text
    from index 13 on is no such text of any datetime, whatever the target
    year, and never with the format error once the text has parsed; the
    fixed-width text of a valid datetime is accepted after any
    13-character prefix; and the first 13 characters are never parsed: two
    inputs that agree from index 13 on give the same result. *)
Theorem C7_parse_failure_and_prefix :
  (forall (s : string) (dt : datetime),
     strptime s fmt_datetime = Ok dt <-> accepted_text s dt)
  /\ (forall (inpNEIfile : string) (outyear : Z),
        (forall dt, ~ accepted_text (slice_from 13 inpNEIfile) dt) <->
        exists e,
          (e = ValueError_format \/ e = ValueError_range)
          /\ strptime (slice_from 13 inpNEIfile) fmt_datetime = Raise e
          /\ NEIfileDatetime_shift_BYweekofday inpNEIfile outyear = Raise e)
  /\ (forall (inpNEIfile : string) (outyear : Z) (e : exn),
        strptime (slice_from 13 inpNEIfile) fmt_datetime = Raise e ->
        NEIfileDatetime_shift_BYweekofday inpNEIfile outyear = Raise e)
  /\ (forall (inpNEIfile : string) (outyear : Z) (inp : datetime),
        strptime (slice_from 13 inpNEIfile) fmt_datetime = Ok inp ->
        NEIfileDatetime_shift_BYweekofday inpNEIfile outyear
        <> Raise ValueError_format)
  /\ (forall (prefix : string) (dt : datetime),
        String.length prefix = 13%nat -> valid dt ->
        fixed_width (slice_from 13 (prefix ++ fixed_width_text dt)) = true
        /\ strptime (slice_from 13 (prefix ++ fixed_width_text dt))
             fmt_datetime = Ok dt)
  /\ (forall (f f' : string) (outyear : Z),
        slice_from 13 f = slice_from 13 f' ->
        NEIfileDatetime_shift_BYweekofday f outyear
        = NEIfileDatetime_shift_BYweekofday f' outyear).
Proof.
  assert (A : forall s dt, strptime s fmt_datetime = Ok dt <-> accepted_text s dt)
    by (intros s dt; split; [apply strptime_accepted | apply accepted_strptime]).
  assert (F : forall f y e,
             strptime (slice_from 13 f) fmt_datetime = Raise e ->
             NEIfileDatetime_shift_BYweekofday f y = Raise e).
  { intros f y e H.
    unfold NEIfileDatetime_shift_BYweekofday, shift_BYweekofday_datetime.
    rewrite H. reflexivity. }
  split; [exact A|]. split; [|split; [exact F|split; [|split]]].
  - intros f y. split.
    + intros N.
      destruct (strptime (slice_from 13 f) fmt_datetime) as [dt|e] eqn:E.
      * destruct (N dt). apply A, E.
      * exists e. split; [exact (strptime_Raise _ _ E)|].
        split; [reflexivity | apply F, E].
    + intros (e & _ & E & _) dt Hacc. apply A in Hacc. congruence.
  - intros f y inp H.
    unfold NEIfileDatetime_shift_BYweekofday.
    rewrite (forward_datetime_spec f y inp H).
    cbn [rbind].
    repeat match goal with
           | |- context [if ?b then _ else _] => destruct b
           end; discriminate.
  - intros prefix dt Hlen Hv.
    assert (E : slice_from 13 (prefix ++ fixed_width_text dt)
                = fixed_width_text dt).
    { do 13 (destruct prefix as [|? prefix]; [discriminate|]).
      destruct prefix; [reflexivity|discriminate]. }
    rewrite E. split.
    + exact (fixed_width_fixed_width_text dt Hv).
    + apply A, fixed_width_text_accepted, Hv.
  - intros f f' y E.
    unfold NEIfileDatetime_shift_BYweekofday, shift_BYweekofday_datetime.
    rewrite E. reflexivity.
Qed.

Lemma C7_parse_failure_and_prefix_witness :
  strptime (slice_from 13 "wrfchemi_d01_2017-13-01_00:00:00") fmt_datetime
  = Raise ValueError_format
  /\ NEIfileDatetime_shift_BYweekofday "wrfchemi_d01_2017-13-01_00:00:00" 2020
     = Raise ValueError_format
  /\ (forall dt,
        ~ accepted_text (slice_from 13 "wrfchemi_d01_2017-13-01_00:00:00") dt)
  /\ accepted_text "2020-02- 5_1:00:7" (mkdatetime 2020 2 5 1 0 7)
  /\ strptime "2020-02- 5_1:00:7" fmt_datetime = Ok (mkdatetime 2020 2 5 1 0 7)
  /\ slice_from 13 "wrfchemi_d01_2017-08-01_01:00:00"
     = slice_from 13 "qfedemis_d09_2017-08-01_01:00:00"
  /\ NEIfileDatetime_shift_BYweekofday "wrfchemi_d01_2017-08-01_01:00:00" 2020
     = NEIfileDatetime_shift_BYweekofday "qfedemis_d09_2017-08-01_01:00:00" 2020.
Proof.
  destruct C7_parse_failure_and_prefix as (A & N & F & _ & _ & P).
  split; [reflexivity|]. split; [apply F; reflexivity|].
  split.
  { apply (N "wrfchemi_d01_2017-13-01_00:00:00" 2020).
    exists ValueError_format.
    split; [left; reflexivity|]. split; [reflexivity | apply F; reflexivity]. }
  assert (Acc : accepted_text "2020-02- 5_1:00:7" (mkdatetime 2020 2 5 1 0 7)).
  { split; [reflexivity|]. vm_compute.
    repeat first [left; reflexivity | right]. }
  split; [exact Acc|]. split; [apply A, Acc|].
  split; [reflexivity|]. apply P. reflexivity.
Defined.

(** C8, as stated, fails: the prefix of the input is not carried to the
    output, and two inputs that differ only in their prefix give the same
    output. *)
Lemma C8_prefix_counterexample :
  NEIfileDatetime_shift_BYweekofday "wrfchemi_d02_2017-08-01_01:00:00" 2020
  = Ok "wrfchemi_d01_2020-07-28_01:00:00"
  /\ NEIfileDatetime_shift_BYweekofday "wrfchemi_d01_2017-08-01_01:00:00" 2020
     = Ok "wrfchemi_d01_2020-07-28_01:00:00".
Proof. split; reflexivity. Qed.

(** C8, amended.  The output of the forward shift is the literal prefix
    ['wrfchemi_d01_'] followed by the adjusted timestamp; for a four-digit
    target year above 1000 that timestamp is rendered in the fixed-width
    pattern, so the output has 32 characters; the prefix of the input is
    dropped, and inputs that differ only in their first 13 characters give
    the same output. *)
Theorem C8_output_has_literal_prefix :
  (forall (inpNEIfile : string) (outyear : Z) (out : string),
     NEIfileDatetime_shift_BYweekofday inpNEIfile outyear = Ok out ->
     exists adj,
       shift_BYweekofday_datetime inpNEIfile outyear = Ok adj
       /\ out = "wrfchemi_d01_" ++ strftime fmt_datetime adj
       /\ (1000 < outyear ->
           fixed_width (slice_from 13 out) = true
           /\ String.length out = 32%nat
           /\ strptime (slice_from 13 out) fmt_datetime = Ok adj))
  /\ (forall (f f' : string) (outyear : Z),
        slice_from 13 f = slice_from 13 f' ->
        NEIfileDatetime_shift_BYweekofday f outyear
        = NEIfileDatetime_shift_BYweekofday f' outyear).
Proof.
  split.
  - intros f y out Hout.
    destruct (forward_string_Ok _ _ _ Hout) as (adj & Hadj & ->).
    exists adj. split; [exact Hadj|]. split; [reflexivity|].
    assert (Va : valid adj /\ (year adj = y \/ year adj = y - 1)).
    { unfold shift_BYweekofday_datetime in Hadj.
      destruct (strptime (slice_from 13 f) fmt_datetime) as [inp|e] eqn:Hp;
        [|discriminate].
      fold (shift_BYweekofday_datetime f y) in Hadj.
      assert (H' : shift_BYweekofday_datetime f y = Ok adj).
      { unfold shift_BYweekofday_datetime. rewrite Hp. exact Hadj. }
      destruct (forward_datetime_Ok _ _ _ Hp adj H') as (_ & Va & _).
      split; [exact Va | exact (forward_datetime_year _ _ _ Hp adj H')]. }
    destruct Va as [Va Hya].
    rewrite slice_from_prefix. intros Hy.
    assert (Hk : 1000 <= year adj) by lia.
    split; [|split].
    + apply fixed_width_strftime; assumption.
    + rewrite fixed_width_text_strftime by exact Hk. reflexivity.
    + apply strptime_strftime; assumption.
  - intros f f' y E.
    unfold NEIfileDatetime_shift_BYweekofday, shift_BYweekofday_datetime.
    rewrite E. reflexivity.
Qed.

Lemma C8_output_has_literal_prefix_witness :
  NEIfileDatetime_shift_BYweekofday "wrfchemi_d02_2017-08-01_01:00:00" 2020
  = Ok "wrfchemi_d01_2020-07-28_01:00:00"
  /\ exists adj,
       shift_BYweekofday_datetime "wrfchemi_d02_2017-08-01_01:00:00" 2020 = Ok adj
       /\ "wrfchemi_d01_2020-07-28_01:00:00"
          = ("wrfchemi_d01_" ++ strftime fmt_datetime adj)%string
       /\ (1000 < 2020 ->
           fixed_width (slice_from 13 "wrfchemi_d01_2020-07-28_01:00:00") = true
           /\ String.length "wrfchemi_d01_2020-07-28_01:00:00" = 32%nat
           /\ strptime (slice_from 13 "wrfchemi_d01_2020-07-28_01:00:00")
                fmt_datetime = Ok adj).
Proof.
  split; [reflexivity|].
  destruct C8_output_has_literal_prefix as (O & _).
  apply (O "wrfchemi_d02_2017-08-01_01:00:00" 2020). reflexivity.
Defined.

(** ** Facts about the hourly file scan *)

Local Close Scope string_scope.

Lemma toordinal_lt_year (a b : datetime) :
  valid a -> valid b -> year a < year b -> toordinal a < toordinal b.
Proof.
  rewrite !valid_fields. intros (_ & Hm & Hd & _) (_ & Hm' & Hd' & _) L.
  pose proof (ymd2ord_in_year _ _ _ Hm Hd).
  pose proof (ymd2ord_in_year _ _ _ Hm' Hd').
  pose proof (days_before_year_mono (year a + 1) (year b)).
  unfold toordinal. lia.
Qed.

Lemma toordinal_lt_month (a b : datetime) :
  valid a -> valid b -> year a = year b -> month a < month b ->
  toordinal a < toordinal b.
Proof.
  rewrite !valid_fields. intros (_ & Hm & Hd & _) (_ & Hm' & Hd' & _) E L.
  pose proof (days_before_month_mono (year a) (month a) (month b)).
  unfold toordinal, ymd2ord. rewrite <- E. lia.
Qed.

(** The tuple comparison of [datetime] is the comparison of the elapsed
    seconds. *)
Lemma cmp_spec (a b : datetime) :
  valid a -> valid b -> cmp a b = (total_seconds a ?= total_seconds b).
Proof.
  intros Va Vb.
  pose proof (day_seconds_range a Va) as Ra.
  pose proof (day_seconds_range b Vb) as Rb.
  pose proof Va as Fa. pose proof Vb as Fb. rewrite valid_fields in Fa, Fb.
  unfold cmp, total_seconds.
  destruct (Z.compare_spec (year a) (year b)) as [Ey|Ly|Ly].
  2:{ symmetry. apply Z.compare_lt_iff.
      pose proof (toordinal_lt_year a b Va Vb Ly). lia. }
  2:{ symmetry. apply Z.compare_gt_iff.
      pose proof (toordinal_lt_year b a Vb Va Ly). lia. }
  destruct (Z.compare_spec (month a) (month b)) as [Em|Lm|Lm].
  2:{ symmetry. apply Z.compare_lt_iff.
      pose proof (toordinal_lt_month a b Va Vb Ey Lm). lia. }
  2:{ symmetry. apply Z.compare_gt_iff.
      pose proof (toordinal_lt_month b a Vb Va (eq_sym Ey) Lm). lia. }
  assert (Eo : toordinal a - toordinal b = day a - day b)
    by (unfold toordinal, ymd2ord; rewrite Ey, Em; lia).
  destruct (Z.compare_spec (day a) (day b)) as [Ed|Ld|Ld].
  2:{ symmetry. apply Z.compare_lt_iff. lia. }
  2:{ symmetry. apply Z.compare_gt_iff. lia. }
  unfold day_seconds in *.
  destruct (Z.compare_spec (hour a) (hour b)) as [Eh|Lh|Lh].
  2:{ symmetry. apply Z.compare_lt_iff. lia. }
  2:{ symmetry. apply Z.compare_gt_iff. lia. }
  destruct (Z.compare_spec (minute a) (minute b)) as [Emi|Lmi|Lmi].
  2:{ symmetry. apply Z.compare_lt_iff. lia. }
  2:{ symmetry. apply Z.compare_gt_iff. lia. }
  destruct (Z.compare_spec (second a) (second b)) as [Es|Ls|Ls].
  - symmetry. apply Z.compare_eq_iff. lia.
  - symmetry. apply Z.compare_lt_iff. lia.
  - symmetry. apply Z.compare_gt_iff. lia.
Qed.

Lemma le_spec (a b : datetime) :
  valid a -> valid b ->
  le a b = (total_seconds a <=? total_seconds b).
Proof.
  intros Va Vb. unfold le, Z.leb. rewrite cmp_spec by assumption. reflexivity.
Qed.

(** One pass of the clock: [current_date += timedelta(hours=1)]. *)
Lemma add_hour (dt : datetime) :
  valid dt ->
  add dt (new_timedelta 0 3600) =
  if (total_seconds dt + 3600) / 86400 <=? MAXORDINAL
  then Ok (of_total_seconds (total_seconds dt + 3600))
  else Raise OverflowError.
Proof.
  intros Hv. rewrite add_spec. cbv zeta.
  change (days (new_timedelta 0 3600)) with 0.
  change (seconds (new_timedelta 0 3600)) with 3600.
  replace (total_seconds dt + 0 * 86400 + 3600) with (total_seconds dt + 3600) by lia.
  destruct (total_seconds_div dt Hv) as [E _].
  pose proof (toordinal_range dt Hv) as R.
  assert (total_seconds dt / 86400 <= (total_seconds dt + 3600) / 86400)
    by (apply Z.div_le_mono; lia).
  destruct (Z.ltb_spec 0 ((total_seconds dt + 3600) / 86400)); [|lia].
  reflexivity.
Qed.

Lemma hourly_name_eq (filedir file_prefix : string) (dt : datetime) :
  (filedir ++ (file_prefix ++ strftime fmt_hourly dt))%string
  = hourly_name filedir file_prefix dt.
Proof. reflexivity. Qed.

Section ExpectedLoop.

Variables filedir file_prefix : string.
Variable end_date : datetime.
Hypothesis Vend : valid end_date.

(** The number of passes of the loop entered at [cur]. *)
Let passes (cur : datetime) : Z :=
  if le cur end_date
  then (total_seconds end_date - total_seconds cur) / 3600 + 1
  else 0.

Let name_at (cur : datetime) (k : nat) : string :=
  hourly_name filedir file_prefix
    (of_total_seconds (total_seconds cur + 3600 * Z.of_nat k)).

Lemma passes_step (cur : datetime) :
  valid cur -> le cur end_date = true ->
  (total_seconds cur + 3600) / 86400 <= MAXORDINAL ->
  passes cur = passes (of_total_seconds (total_seconds cur + 3600)) + 1
  /\ 0 <= passes (of_total_seconds (total_seconds cur + 3600)).
Proof.
  intros Vc L B. unfold passes. rewrite L.
  destruct (total_seconds_div cur Vc) as [E _].
  pose proof (toordinal_range cur Vc) as R.
  assert (total_seconds cur / 86400 <= (total_seconds cur + 3600) / 86400)
    by (apply Z.div_le_mono; lia).
  destruct (of_total_seconds_spec (total_seconds cur + 3600)) as (V' & _); [lia|].
  rewrite le_spec in L |- * by assumption.
  rewrite total_seconds_of_total_seconds by lia.
  apply Z.leb_le in L.
  destruct (Z.leb_spec (total_seconds cur + 3600) (total_seconds end_date)).
  - split; Z.div_mod_to_equations; lia.
  - split; Z.div_mod_to_equations; lia.
Qed.

Lemma expected_loop_Ok (fuel : nat) :
  forall (cur : datetime) (acc l : list string),
    valid cur ->
    expected_loop fuel filedir file_prefix end_date cur acc = Ok l ->
    l = (acc ++ map (name_at cur) (seq 0 (Z.to_nat (passes cur))))%list.
Proof.
  induction fuel as [|fuel IH]; intros cur acc l Vc H; [discriminate|].
  cbn [expected_loop] in H.
  destruct (le cur end_date) eqn:L.
  - rewrite add_hour in H by exact Vc.
    destruct (Z.leb_spec ((total_seconds cur + 3600) / 86400) MAXORDINAL) as [B|B];
      [|discriminate].
    cbn [rbind] in H.
    destruct (passes_step cur Vc L B) as [Ep Hp].
    destruct (total_seconds_div cur Vc) as [E _].
    pose proof (toordinal_range cur Vc) as R.
    assert (total_seconds cur / 86400 <= (total_seconds cur + 3600) / 86400)
      by (apply Z.div_le_mono; lia).
    destruct (of_total_seconds_spec (total_seconds cur + 3600)) as (V' & _); [lia|].
    apply IH in H; [|exact V'].
    rewrite H, Ep.
    replace (passes (of_total_seconds (total_seconds cur + 3600)) + 1)
      with (Z.succ (passes (of_total_seconds (total_seconds cur + 3600)))) by lia.
    rewrite Z2Nat.inj_succ by lia.
    rewrite <- cons_seq, map_cons, <- app_assoc.
    f_equal. rewrite <- app_comm_cons, app_nil_l. f_equal.
    + unfold name_at. rewrite Nat2Z.inj_0, Z.mul_0_r, Z.add_0_r.
      rewrite of_total_seconds_total_seconds by exact Vc. reflexivity.
    + rewrite <- seq_shift, map_map. apply map_ext. intros k. unfold name_at.
      rewrite total_seconds_of_total_seconds by lia.
      do 2 f_equal. lia.
  - injection H as <-. unfold passes. rewrite L.
    rewrite Z2Nat.inj_0. rewrite app_nil_r. reflexivity.
Qed.

Lemma expected_loop_total (fuel : nat) :
  forall (cur : datetime) (acc : list string),
    valid cur ->
    (total_seconds cur + 3600 * passes cur) / 86400 <= MAXORDINAL ->
    (Z.to_nat (passes cur) < fuel)%nat ->
    exists l, expected_loop fuel filedir file_prefix end_date cur acc = Ok l.
Proof.
  induction fuel as [|fuel IH]; intros cur acc Vc B F; [lia|].
  cbn [expected_loop].
  destruct (le cur end_date) eqn:L; [|eauto].
  assert (Hp1 : 1 <= passes cur).
  { unfold passes. rewrite L. rewrite le_spec in L by assumption.
    apply Z.leb_le in L. Z.div_mod_to_equations; lia. }
  assert (B1 : (total_seconds cur + 3600) / 86400 <= MAXORDINAL).
  { etransitivity; [|exact B]. apply Z.div_le_mono; lia. }
  rewrite add_hour by exact Vc.
  destruct (Z.leb_spec ((total_seconds cur + 3600) / 86400) MAXORDINAL); [|lia].
  cbn [rbind].
  destruct (passes_step cur Vc L B1) as [Ep Hp].
  destruct (total_seconds_div cur Vc) as [E _].
  pose proof (toordinal_range cur Vc) as R.
  assert (total_seconds cur / 86400 <= (total_seconds cur + 3600) / 86400)
    by (apply Z.div_le_mono; lia).
  destruct (of_total_seconds_spec (total_seconds cur + 3600)) as (V' & _); [lia|].
  apply IH; [exact V' | | lia].
  rewrite total_seconds_of_total_seconds by lia.
  replace (total_seconds cur + 3600
           + 3600 * passes (of_total_seconds (total_seconds cur + 3600)))
    with (total_seconds cur + 3600 * passes cur) by lia.
  exact B.
Qed.

End ExpectedLoop.

Section MissingLoop.

Variable fs : string -> open_outcome.

Lemma missing_loop_Ok (files : list string) :
  forall acc m, missing_loop fs files acc = Ok m ->
  exists m', m = (acc ++ m')%list /\ sublist m' files.
Proof.
  induction files as [|p files IH]; intros acc m H; cbn [missing_loop] in H.
  - injection H as <-. exists []. rewrite app_nil_r. split; [reflexivity|constructor].
  - destruct (fs p).
    + destruct (IH _ _ H) as (m' & -> & S). exists m'.
      split; [reflexivity | apply sublist_cons, S].
    + destruct (IH _ _ H) as (m' & -> & S). exists (p :: m').
      rewrite <- app_assoc. split; [reflexivity | apply sublist_skip, S].
    + discriminate.
Qed.

Lemma missing_loop_total (files : list string) :
  (forall p, In p files -> fs p <> OtherError) ->
  forall acc, exists m, missing_loop fs files acc = Ok m.
Proof.
  induction files as [|p files IH]; intros Hfs acc; cbn [missing_loop]; [eauto|].
  assert (Hp : fs p <> OtherError) by (apply Hfs; left; reflexivity).
  assert (Hrest : forall q, In q files -> fs q <> OtherError)
    by (intros q Hq; apply Hfs; right; exact Hq).
  destruct (fs p); [apply IH, Hrest | apply IH, Hrest | congruence].
Qed.

End MissingLoop.

(** ** The claim on the hourly file scan *)

(** C10.  With [count] the number 1 + floor((end - start) / 1 hour) when
    the start is not after the end, and 0 otherwise: whenever
    [find_missing_files_v1] returns, ['expected_files'] has exactly [count]
    entries and ['missing_files'] is an order-preserving sublist of it;
    for a start year of four digits the k-th entry names the timestamp
    start + k hours with ['00:00'] for its minutes and seconds; when the
    start is after the end both lists are empty; and the function returns
    when the hour after the last expected timestamp is still a datetime
    and [open] raises nothing but [FileNotFoundError], on any file or, for
    a start year of four digits, on the expected files. *)
Theorem C10_find_missing_files_v1
  (fs : string -> open_outcome) (fuel : nat)
  (startDatetime endDatetime filedir file_prefix : string)
  (start_date end_date : datetime) :
  strptime startDatetime fmt_datetime = Ok start_date ->
  strptime endDatetime fmt_datetime = Ok end_date ->
  let count :=
    if total_seconds start_date <=? total_seconds end_date
    then 1 + (total_seconds end_date - total_seconds start_date) / 3600
    else 0 in
  le start_date end_date
  = (total_seconds start_date <=? total_seconds end_date)
  /\ (forall r,
        find_missing_files_v1 fs fuel startDatetime endDatetime filedir file_prefix
        = Ok r ->
        (1000 <= year start_date ->
         expected_files r
         = map (fun k : nat =>
                  hourly_name filedir file_prefix
                    (of_total_seconds
                       (total_seconds start_date + 3600 * Z.of_nat k)))
               (seq 0 (Z.to_nat count)))
        /\ length (expected_files r) = Z.to_nat count
        /\ sublist (missing_files r) (expected_files r)
        /\ (total_seconds end_date < total_seconds start_date ->
            expected_files r = [] /\ missing_files r = []))
  /\ ((total_seconds start_date + 3600 * count) / 86400 <= MAXORDINAL ->
      (forall p : string, fs p <> OtherError)
      \/ (1000 <= year start_date
          /\ forall k : nat,
               (k < Z.to_nat count)%nat ->
               fs (hourly_name filedir file_prefix
                     (of_total_seconds
                        (total_seconds start_date + 3600 * Z.of_nat k)))
               <> OtherError) ->
      (Z.to_nat count < fuel)%nat ->
      exists r,
        find_missing_files_v1 fs fuel startDatetime endDatetime filedir file_prefix
        = Ok r).
Proof.
  intros Hs He count.
  pose proof (strptime_valid _ _ _ Hs) as Vs.
  pose proof (strptime_valid _ _ _ He) as Ve.
  pose proof (le_spec start_date end_date Vs Ve) as Hle.
  assert (Hcount : count
                   = if le start_date end_date
                     then (total_seconds end_date - total_seconds start_date) / 3600 + 1
                     else 0).
  { subst count. rewrite Hle. destruct (_ <=? _); lia. }
  split; [exact Hle|]. split.
  - intros r Hr. unfold find_missing_files_v1 in Hr.
    rewrite Hs, He in Hr. cbn [rbind] in Hr.
    destruct (expected_loop fuel filedir file_prefix end_date start_date [])
      as [expected|e] eqn:Hexp; [|discriminate].
    cbn [rbind] in Hr.
    destruct (missing_loop fs expected []) as [missing|e] eqn:Hmis; [|discriminate].
    cbn [rbind] in Hr. injection Hr as <-. cbn [expected_files missing_files].
    apply (expected_loop_Ok filedir file_prefix end_date Ve) in Hexp; [|exact Vs].
    cbv zeta in Hexp. rewrite app_nil_l in Hexp. rewrite <- Hcount in Hexp.
    destruct (missing_loop_Ok fs _ _ _ Hmis) as (m' & Em & Sm).
    rewrite app_nil_l in Em. subst m'.
    split; [intros _; exact Hexp|]. split; [|split].
    + rewrite Hexp, length_map, length_seq. reflexivity.
    + exact Sm.
    + intros Hlt. assert (Ec : count = 0).
      { subst count. destruct (Z.leb_spec (total_seconds start_date)
                                 (total_seconds end_date)); lia. }
      rewrite Ec in Hexp. cbn [Z.to_nat seq map] in Hexp. subst expected.
      split; [reflexivity|]. inversion Sm. reflexivity.
  - intros Hmax Hfs Hfuel. unfold find_missing_files_v1.
    rewrite Hs, He. cbn [rbind].
    destruct (expected_loop_total filedir file_prefix end_date Ve fuel start_date [])
      as (l & Hl); [exact Vs | cbv zeta; rewrite <- Hcount; exact Hmax
                   | cbv zeta; rewrite <- Hcount; exact Hfuel |].
    rewrite Hl. cbn [rbind].
    apply (expected_loop_Ok filedir file_prefix end_date Ve) in Hl; [|exact Vs].
    cbv zeta in Hl. rewrite app_nil_l in Hl. rewrite <- Hcount in Hl.
    destruct (missing_loop_total fs l) with (acc := @nil string) as (m & Hm).
    { intros p Hp. destruct Hfs as [Hall|[_ Hfs]]; [apply Hall|].
      rewrite Hl in Hp. apply in_map_iff in Hp as (k & <- & Hk).
      apply Hfs. apply in_seq in Hk. lia. }
    rewrite Hm. cbn [rbind]. eauto.
Qed.

Lemma C10_find_missing_files_v1_witness :
  let fs := fun p : string =>
              if String.eqb p "/data/wrfchemi_d01_2018-07-01_04:00:00"
              then Opened else FileNotFound in
  strptime "2018-07-01_03:30:15" fmt_datetime = Ok (mkdatetime 2018 7 1 3 30 15)
  /\ strptime "2018-07-01_05:10:00" fmt_datetime = Ok (mkdatetime 2018 7 1 5 10 0)
  /\ exists r,
       find_missing_files_v1 fs 10 "2018-07-01_03:30:15" "2018-07-01_05:10:00"
         "/data/" "wrfchemi_d01" = Ok r
       /\ expected_files r
          = ["/data/wrfchemi_d01_2018-07-01_03:00:00"%string;
             "/data/wrfchemi_d01_2018-07-01_04:00:00"%string]
       /\ length (expected_files r) = 2%nat
       /\ sublist (missing_files r) (expected_files r).
Proof.
  intros fs. split; [reflexivity|]. split; [reflexivity|].
  pose proof (C10_find_missing_files_v1 fs 10
                "2018-07-01_03:30:15" "2018-07-01_05:10:00" "/data/" "wrfchemi_d01"
                (mkdatetime 2018 7 1 3 30 15) (mkdatetime 2018 7 1 5 10 0)
                eq_refl eq_refl) as H.
  cbv zeta in H. destruct H as (_ & P & T).
  destruct T as (r & Hr).
  - vm_compute. discriminate.
  - left. intros p. unfold fs. destruct (String.eqb _ _); discriminate.
  - vm_compute. lia.
  - exists r. split; [exact Hr|].
    destruct (P r Hr) as (N & L & S & _).
    split; [rewrite N by (cbn; lia); vm_compute; reflexivity|].
    split; [exact L | exact S].
Defined.

(** A run spelled out: the start's minutes and seconds do not show in the
    names. *)
Example find_missing_files_v1_run :
  find_missing_files_v1
    (fun p => if String.eqb p "/data/wrfchemi_d01_2018-07-01_04:00:00"
              then Opened else FileNotFound)
    10 "2018-07-01_03:30:15" "2018-07-01_05:10:00" "/data/" "wrfchemi_d01"
  = Ok (mkreport
          ["/data/wrfchemi_d01_2018-07-01_03:00:00"%string]
          ["/data/wrfchemi_d01_2018-07-01_03:00:00"%string;
           "/data/wrfchemi_d01_2018-07-01_04:00:00"%string]).
Proof. vm_compute. reflexivity. Qed.

(** Before year 1000 the names carry the year without its zeros. *)
Example find_missing_files_v1_short_year :
  find_missing_files_v1 (fun _ => FileNotFound) 10
    "0999-12-31_23:10:00" "0999-12-31_23:30:00" "" "p"
  = Ok (mkreport ["p_999-12-31_23:00:00"%string] ["p_999-12-31_23:00:00"%string]).
Proof. vm_compute. reflexivity. Qed.

(** At the end of the calendar the loop's last increment overflows. *)
Example find_missing_files_v1_overflow :
  find_missing_files_v1 (fun _ => Opened) 10
    "9999-12-31_23:00:00" "9999-12-31_23:30:00" "/data/" "wrfchemi_d01"
  = Raise OverflowError.
Proof. vm_compute. reflexivity. Qed.

(** ** Facts about the regional scaling *)

Module ScalingFacts.

Import Scaling.

Section Values.

Lemma mem_In (k : string) (l : list string) : mem k l = true <-> In k l.
Proof.
  unfold mem. rewrite existsb_exists. split.
  - intros (x & Hx & E). apply String.eqb_eq in E. subst. exact Hx.
  - intros H. exists k. split; [exact H | apply String.eqb_refl].
Qed.

Lemma get_In {A : Type} (m : list (string * A)) (k : string) (a : A) :
  get m k = Some a -> In k (map fst m).
Proof.
  induction m as [|[k' a'] m IH]; cbn [get map fst]; [discriminate|].
  destruct (String.eqb_spec k k') as [->|Hne].
  - intros _. left. reflexivity.
  - intros H. right. apply IH, H.
Qed.

Lemma get_set_eq {A : Type} (m : list (string * A)) (k : string) (a : A) :
  get (set m k a) k = Some a.
Proof.
  induction m as [|[k' a'] m IH]; cbn [set get].
  - rewrite String.eqb_refl. reflexivity.
  - destruct (String.eqb_spec k k') as [->|Hne]; cbn [get].
    + rewrite String.eqb_refl. reflexivity.
    + destruct (String.eqb_spec k k'); [contradiction | exact IH].
Qed.

Lemma get_set_ne {A : Type} (m : list (string * A)) (k k' : string) (a : A) :
  k <> k' -> get (set m k a) k' = get m k'.
Proof.
  intros Hne. induction m as [|[k0 a0] m IH]; cbn [set get].
  - destruct (String.eqb_spec k' k); [congruence | reflexivity].
  - destruct (String.eqb_spec k k0) as [->|Hk]; cbn [get].
    + destruct (String.eqb_spec k' k0); [congruence | reflexivity].
    + destruct (String.eqb_spec k' k0); [reflexivity | exact IH].
Qed.

Lemma keys_set {A : Type} (m : list (string * A)) (k : string) (a a0 : A) :
  get m k = Some a0 -> map fst (set m k a) = map fst m.
Proof.
  induction m as [|[k' a'] m IH]; cbn [set get map fst]; [discriminate|].
  destruct (String.eqb_spec k k') as [->|Hne]; [reflexivity|].
  intros H. cbn [map fst]. rewrite (IH H). reflexivity.
Qed.


Section Loop.

Variables np_dtype V K : Type.
Variable product_dtype : np_dtype -> K -> option np_dtype.
Variable product : np_dtype -> V -> K -> V.
Variable result_type : np_dtype -> np_dtype -> np_dtype.
Variable astype : np_dtype -> np_dtype -> V -> V.
Variable coord_like_vars : list string.
Variable mask_da : list bool.
Variable scalefactor : K.
Variable regionMask : string.

Let loop := scale_loop product_dtype product result_type astype
              coord_like_vars mask_da scalefactor regionMask.
Let scaled_da := scaled product_dtype product result_type astype
                   mask_da scalefactor regionMask.

Lemma scale_loop_Ok (vars : list string) :
  forall ds ds' : dataset np_dtype V K,
    List.NoDup vars ->
    loop vars ds = Ok ds' ->
    map fst ds' = map fst ds
    /\ (forall name,
          get ds' name =
          match get ds name with
          | None => None
          | Some da =>
            if mem name vars && to_scale coord_like_vars name da
            then scaled_da da
            else Some da
          end)
    /\ (forall name da,
          get ds name = Some da ->
          mem name vars && to_scale coord_like_vars name da = true ->
          ncol_size da = length mask_da
          /\ product_dtype (dtype da) scalefactor <> None).
Proof.
  unfold loop.
  induction vars as [|var vars IH]; intros ds ds' ND H; cbn [scale_loop] in H.
  - injection H as <-. split; [reflexivity|]. split.
    + intros name. cbn. destruct (get ds name); reflexivity.
    + intros name da _. cbn. discriminate.
  - inversion ND as [|? ? Hnotin ND']; subst.
    assert (Hskip :
              (forall da, get ds var = Some da ->
                          to_scale coord_like_vars var da = false) ->
              scale_loop product_dtype product result_type astype
                coord_like_vars mask_da scalefactor regionMask vars ds = Ok ds' ->
              map fst ds' = map fst ds
              /\ (forall name,
                    get ds' name =
                    match get ds name with
                    | None => None
                    | Some da =>
                      if mem name (var :: vars)
                         && to_scale coord_like_vars name da
                      then scaled_da da
                      else Some da
                    end)
              /\ (forall name da,
                    get ds name = Some da ->
                    mem name (var :: vars)
                    && to_scale coord_like_vars name da = true ->
                    ncol_size da = length mask_da
                    /\ product_dtype (dtype da) scalefactor <> None)).
    { intros Hno H'. destruct (IH ds ds' ND' H') as (K0 & G1 & G2).
      split; [exact K0|]. split.
      - intros name. rewrite G1.
        destruct (get ds name) as [da|] eqn:E; [|reflexivity].
        unfold mem at 2. cbn [existsb]. fold (mem name vars).
        destruct (String.eqb_spec name var) as [->|Hne]; [|reflexivity].
        rewrite (Hno da E). rewrite !andb_false_r. reflexivity.
      - intros name da E. unfold mem at 1. cbn [existsb]. fold (mem name vars).
        destruct (String.eqb_spec name var) as [->|Hne]; [|apply G2, E].
        rewrite (Hno da E). rewrite andb_false_r. discriminate. }
    destruct (mem var coord_like_vars) eqn:Hclv.
    { apply Hskip; [|exact H]. intros da _. unfold to_scale.
      rewrite Hclv. reflexivity. }
    destruct (get ds var) as [da|] eqn:Hget.
    2:{ apply Hskip; [|exact H]. intros da E. discriminate. }
    destruct (mem "ncol" (dims da)) eqn:Hncol; cbn [negb] in H.
    2:{ apply Hskip; [|exact H]. intros da0 E. injection E as <-.
        unfold to_scale. rewrite Hncol. apply andb_false_r. }
    unfold where_not_mask in H.
    destruct (product_dtype (dtype da) scalefactor) as [d'|] eqn:Hp;
      [|discriminate].
    destruct (Nat.eqb_spec (ncol_size da) (length mask_da)) as [Hsz|Hsz];
      [|discriminate].
    cbn [rbind dtype dims ncol_size cells attrs] in H.
    destruct (IH _ ds' ND' H) as (K0 & G1 & G2).
    assert (Hm : mem var vars = false).
    { destruct (mem var vars) eqn:E; [|reflexivity].
      apply mem_In in E. contradiction. }
    split; [rewrite K0; apply (keys_set _ _ _ da), Hget|]. split.
    + intros name. specialize (G1 name).
      unfold mem at 1. cbn [existsb]. fold (mem name vars).
      destruct (String.eqb_spec name var) as [->|Hne].
      * rewrite get_set_eq in G1. rewrite Hget.
        rewrite Hm in G1. cbn [andb] in G1.
        unfold to_scale. rewrite Hclv, Hncol. cbn [orb andb negb].
        rewrite G1. unfold scaled_da, scaled. rewrite Hp. reflexivity.
      * rewrite get_set_ne in G1 by congruence. exact G1.
    + intros name da0 E.
      unfold mem at 1. cbn [existsb]. fold (mem name vars).
      destruct (String.eqb_spec name var) as [->|Hne].
      * intros _. rewrite Hget in E. injection E as <-.
        split; [exact Hsz | rewrite Hp; discriminate].
      * cbn [orb]. apply G2. rewrite get_set_ne by congruence. exact E.
Qed.

Lemma scale_loop_total (vars : list string) :
  forall ds : dataset np_dtype V K,
    List.NoDup vars ->
    (forall name da,
       get ds name = Some da ->
       mem name vars && to_scale coord_like_vars name da = true ->
       ncol_size da = length mask_da
       /\ product_dtype (dtype da) scalefactor <> None) ->
    exists ds', loop vars ds = Ok ds'.
Proof.
  unfold loop.
  induction vars as [|var vars IH]; intros ds ND Hsz; cbn [scale_loop];
    [eauto|].
  inversion ND as [|? ? Hnotin ND']; subst.
  assert (Hrest : forall name da,
             get ds name = Some da ->
             mem name vars && to_scale coord_like_vars name da = true ->
             ncol_size da = length mask_da
             /\ product_dtype (dtype da) scalefactor <> None).
  { intros name da E T. apply (Hsz name da E).
    unfold mem at 1. cbn [existsb]. fold (mem name vars).
    apply andb_prop in T as [T1 T2]. rewrite T1, T2.
    rewrite orb_true_r. reflexivity. }
  destruct (mem var coord_like_vars) eqn:Hclv; [apply IH; assumption|].
  destruct (get ds var) as [da|] eqn:Hget; [|apply IH; assumption].
  destruct (mem "ncol" (dims da)) eqn:Hncol; cbn [negb];
    [|apply IH; assumption].
  unfold where_not_mask.
  assert (E : ncol_size da = length mask_da
              /\ product_dtype (dtype da) scalefactor <> None).
  { apply (Hsz var da Hget). unfold mem at 1. cbn [existsb].
    rewrite String.eqb_refl. unfold to_scale. rewrite Hclv, Hncol. reflexivity. }
  destruct E as [E Ep].
  destruct (product_dtype (dtype da) scalefactor) as [d'|]; [|congruence].
  rewrite E, Nat.eqb_refl. cbn [rbind].
  apply IH; [exact ND'|].
  intros name da0 E0 T.
  destruct (String.eqb_spec name var) as [->|Hne].
  - apply andb_prop in T as [T1 _]. apply mem_In in T1. contradiction.
  - rewrite get_set_ne in E0 by congruence. apply (Hrest name da0 E0 T).
Qed.

End Loop.

End Values.

End ScalingFacts.

(** ** The claim on the regional scaling *)

Import Scaling ScalingFacts.



Example scale_data_vars_run :
  Numpy.scale_data_vars ["lat"%string; "lon"%string] [false; true; true]
    (Numpy.of_int64 7) "mask_Quebec" Numpy.example_ds
  = Ok [("lat"%string,
         mkda Numpy.float64 ["ncol"%string] 3
           [mkcell 0 (Numpy.Float (Numpy.of_int64 10));
            mkcell 1 (Numpy.Float (Numpy.of_int64 20));
            mkcell 2 (Numpy.Float (Numpy.of_int64 30))] []);
        ("bb"%string,
         mkda Numpy.float64 ["time"%string; "ncol"%string] 3
           [mkcell 0 (Numpy.Float (Numpy.of_int64 1));
            mkcell 1 (Numpy.Float (Numpy.of_int64 14));
            mkcell 2 (Numpy.Float (Numpy.of_int64 21));
            mkcell 0 (Numpy.Float (Numpy.of_int64 4));
            mkcell 1 (Numpy.Float (Numpy.of_int64 35));
            mkcell 2 (Numpy.Float (Numpy.of_int64 42))]
           [("region_scaling_applied"%string, AStr "True");
            ("region_mask_name"%string, AStr "mask_Quebec");
            ("region_scale_factor"%string, AFloat (Numpy.of_int64 7))]);
        ("date"%string,
         mkda Numpy.int64 ["time"%string] 3
           [mkcell 0 (Numpy.Int 20200101); mkcell 0 (Numpy.Int 20200102)] [])].
Proof. vm_compute. reflexivity. Qed.


(** ** Further properties of the date shifter *)

Lemma datetime_eq_total_seconds (a b : datetime) :
  valid a -> valid b -> total_seconds a = total_seconds b -> a = b.
Proof.
  intros Va Vb E.
  rewrite <- (of_total_seconds_total_seconds a Va).
  rewrite <- (of_total_seconds_total_seconds b Vb).
  rewrite E. reflexivity.
Qed.

Lemma year_shifted_zero (dt : datetime) :
  valid dt -> year_shifted dt 0 = dt.
Proof.
  rewrite valid_fields. intros (_ & _ & Hd & _). unfold year_shifted.
  rewrite Z.add_0_r. rewrite Z.min_r by lia. destruct dt; reflexivity.
Qed.

Lemma total_seconds_same_clock (a b : datetime) :
  hour a = hour b -> minute a = minute b -> second a = second b ->
  total_seconds a - total_seconds b = (toordinal a - toordinal b) * 86400.
Proof.
  intros Eh Em Es. unfold total_seconds, day_seconds. rewrite Eh, Em, Es. lia.
Qed.

(** X1.  Shifting a filename to the year its own timestamp is in returns
    that timestamp unchanged: the shift is the identity at year offset 0.
    For a year of four digits the returned name is the standard prefix
    followed by the fixed-width text of the timestamp; when the input
    carries that text, the name differs from the input in its prefix at
    most. *)
Theorem X1_forward_shift_same_year_is_identity
  (filename : string) (inp : datetime) :
  extract_date_and_time filename = Ok inp ->
  shift_BYweekofday_datetime filename (year inp) = Ok inp
  /\ (1000 <= year inp ->
      NEIfileDatetime_shift_BYweekofday filename (year inp)
      = Ok ("wrfchemi_d01_" ++ fixed_width_text inp)%string
      /\ (slice_from 13 filename = fixed_width_text inp ->
          NEIfileDatetime_shift_BYweekofday filename (year inp)
          = Ok ("wrfchemi_d01_" ++ slice_from 13 filename)%string)).
Proof.
  unfold extract_date_and_time. intros Hparse.
  pose proof (strptime_valid _ _ _ Hparse) as Hv.
  pose proof Hv as Hf. rewrite valid_fields in Hf. destruct Hf as (Hy & _).
  assert (Hdt : shift_BYweekofday_datetime filename (year inp) = Ok inp).
  { rewrite (forward_datetime_spec filename (year inp) inp Hparse). cbv zeta.
    rewrite Z.sub_diag, year_shifted_zero by exact Hv.
    rewrite Z.sub_diag, Z.mod_0_l by lia.
    pose proof (toordinal_range inp Hv) as R.
    destruct (Z.leb_spec 1 (year inp)); [|lia].
    destruct (Z.leb_spec (year inp) 9999); [|lia]. cbn [andb].
    destruct (Z.ltb_spec 0 (toordinal inp - 0)); [|lia].
    f_equal. rewrite Z.mul_0_l, Z.sub_0_r.
    apply of_total_seconds_total_seconds, Hv. }
  split; [exact Hdt|]. intros Hk.
  assert (Hout : NEIfileDatetime_shift_BYweekofday filename (year inp)
                 = Ok ("wrfchemi_d01_" ++ fixed_width_text inp)%string).
  { unfold NEIfileDatetime_shift_BYweekofday. rewrite Hdt. cbn [rbind].
    rewrite fixed_width_text_strftime by exact Hk. reflexivity. }
  split; [exact Hout|]. intros ->. exact Hout.
Qed.

Lemma X1_forward_shift_same_year_is_identity_witness :
  extract_date_and_time "wrfchemi_d01_2017-08-01_01:00:00"
  = Ok (mkdatetime 2017 8 1 1 0 0)
  /\ NEIfileDatetime_shift_BYweekofday "wrfchemi_d01_2017-08-01_01:00:00" 2017
     = Ok "wrfchemi_d01_2017-08-01_01:00:00"%string.
Proof.
  split; [reflexivity|].
  destruct (X1_forward_shift_same_year_is_identity
              "wrfchemi_d01_2017-08-01_01:00:00" (mkdatetime 2017 8 1 1 0 0)
              eq_refl) as [_ H].
  destruct H as [H _]; [cbn; lia|]. exact H.
Defined.

(** X2.  The timestamp the forward shift returns is the source timestamp
    moved by exactly [num_weeks_shift] weeks, the quotient the function
    computes and does not use: the same clock time, a whole number of
    weeks away. *)
Theorem X2_forward_shift_moves_whole_weeks
  (inpNEIfile : string) (outyear : Z) (inp outp adj : datetime) :
  strptime (slice_from 13 inpNEIfile) fmt_datetime = Ok inp ->
  add_years inp (outyear - year inp) = Ok outp ->
  shift_BYweekofday_datetime inpNEIfile outyear = Ok adj ->
  let num_weeks_shift := days (sub outp inp) / 7 in
  total_seconds adj = total_seconds inp + num_weeks_shift * (7 * 86400)
  /\ hour adj = hour inp /\ minute adj = minute inp /\ second adj = second inp.
Proof.
  intros Hparse Hadd Hadj num_weeks_shift.
  pose proof (strptime_valid _ _ _ Hparse) as Hv.
  destruct (add_years_Ok _ _ _ Hv Hadd) as [Eo Hr].
  destruct (forward_datetime_Ok _ _ _ Hparse adj Hadj)
    as (_ & Va & _ & O & C1 & C2 & C3).
  rewrite <- Eo in O.
  assert (Ed : days (sub outp inp) = toordinal outp - toordinal inp)
    by (apply sub_days_same_clock; subst outp; reflexivity).
  split; [|auto].
  pose proof (total_seconds_same_clock adj inp C1 C2 C3) as T.
  subst num_weeks_shift. rewrite Ed.
  pose proof (Z.div_mod (toordinal outp - toordinal inp) 7). lia.
Qed.

Lemma X2_forward_shift_moves_whole_weeks_witness :
  total_seconds (mkdatetime 2020 7 28 1 0 0)
  = total_seconds (mkdatetime 2017 8 1 1 0 0)
    + days (sub (mkdatetime 2020 8 1 1 0 0) (mkdatetime 2017 8 1 1 0 0)) / 7
      * (7 * 86400).
Proof.
  apply (X2_forward_shift_moves_whole_weeks
           "wrfchemi_d01_2017-08-01_01:00:00" 2020
           (mkdatetime 2017 8 1 1 0 0) (mkdatetime 2020 8 1 1 0 0)
           (mkdatetime 2020 7 28 1 0 0) eq_refl eq_refl eq_refl).
Defined.

(** X3.  The timestamp the backward shift returns is the adjusted
    timestamp moved back by exactly [num_weeks_shift] weeks, with the same
    clock time. *)
Theorem X3_backward_shift_moves_whole_weeks
  (outpNEIfile_datetime : string) (outyear : Z) (outp inp rec : datetime) :
  strptime outpNEIfile_datetime fmt_datetime = Ok outp ->
  sub_years outp (year outp - 2017) = Ok inp ->
  shift_BACKWARDto2017_datetime outpNEIfile_datetime outyear = Ok rec ->
  let num_weeks_shift := days (sub outp inp) / 7 in
  total_seconds rec = total_seconds outp - num_weeks_shift * (7 * 86400)
  /\ hour rec = hour outp /\ minute rec = minute outp /\ second rec = second outp.
Proof.
  intros Hparse Hsub Hrec num_weeks_shift.
  pose proof (strptime_valid _ _ _ Hparse) as Hv.
  unfold sub_years in Hsub.
  destruct (add_years_Ok _ _ _ Hv Hsub) as [Ei _].
  destruct (backward_datetime_Ok _ outyear _ Hparse rec Hrec)
    as (Vr & _ & O & C1 & C2 & C3).
  rewrite <- Ei in O.
  assert (Ed : days (sub outp inp) = toordinal outp - toordinal inp)
    by (apply sub_days_same_clock; subst inp; reflexivity).
  split; [|auto].
  pose proof (total_seconds_same_clock rec outp C1 C2 C3) as T.
  subst num_weeks_shift. rewrite Ed.
  pose proof (Z.div_mod (toordinal outp - toordinal inp) 7). lia.
Qed.

Lemma X3_backward_shift_moves_whole_weeks_witness :
  total_seconds (mkdatetime 2017 8 1 1 0 0)
  = total_seconds (mkdatetime 2020 7 28 1 0 0)
    - days (sub (mkdatetime 2020 7 28 1 0 0) (mkdatetime 2017 7 28 1 0 0)) / 7
      * (7 * 86400).
Proof.
  apply (X3_backward_shift_moves_whole_weeks
           "2020-07-28_01:00:00" 2017
           (mkdatetime 2020 7 28 1 0 0) (mkdatetime 2017 7 28 1 0 0)
           (mkdatetime 2017 8 1 1 0 0) eq_refl eq_refl eq_refl).
Defined.

(** X4.  Once the timestamp of the input has parsed, the forward shift can
    only fail in two ways: with the range [ValueError] of
    [datetime.replace], exactly when the target year is outside 1..9999
    and still fits a C [int]; and with [OverflowError], always when the
    target year does not fit a C [int], and otherwise only for target year
    1 and a source date in the first six days of January. *)
Theorem X4_forward_shift_failures
  (inpNEIfile : string) (outyear : Z) (inp : datetime) :
  strptime (slice_from 13 inpNEIfile) fmt_datetime = Ok inp ->
  (NEIfileDatetime_shift_BYweekofday inpNEIfile outyear = Raise ValueError_range
   <-> ((outyear < 1 \/ 9999 < outyear)
        /\ C_INT_MIN <= outyear <= C_INT_MAX))
  /\ (NEIfileDatetime_shift_BYweekofday inpNEIfile outyear = Raise OverflowError ->
      (outyear = 1 /\ month inp = 1 /\ day inp <= 6)
      \/ outyear < C_INT_MIN \/ C_INT_MAX < outyear)
  /\ (outyear < C_INT_MIN \/ C_INT_MAX < outyear ->
      NEIfileDatetime_shift_BYweekofday inpNEIfile outyear = Raise OverflowError)
  /\ (forall e,
        NEIfileDatetime_shift_BYweekofday inpNEIfile outyear = Raise e ->
        e = ValueError_range \/ e = OverflowError).
Proof.
  intros Hparse.
  pose proof (strptime_valid _ _ _ Hparse) as Hv.
  pose proof (forward_datetime_spec inpNEIfile outyear inp Hparse) as S.
  cbv zeta in S. unfold NEIfileDatetime_shift_BYweekofday. rewrite S. clear S.
  set (outp := year_shifted inp (outyear - year inp)).
  set (r := (toordinal outp - toordinal inp) mod 7).
  assert (F : forall z, fits_c_int z = true <-> C_INT_MIN <= z <= C_INT_MAX).
  { intros z. unfold fits_c_int. rewrite andb_true_iff, !Z.leb_le. tauto. }
  assert (Cmin : C_INT_MIN = -2147483648) by reflexivity.
  assert (Cmax : C_INT_MAX = 2147483647) by reflexivity.
  destruct (Z.leb_spec 1 outyear) as [L1|L1];
    [destruct (Z.leb_spec outyear 9999) as [L2|L2]|]; cbn [andb rbind].
  - destruct (Z.ltb_spec 0 (toordinal outp - r)) as [P|P]; cbn [rbind].
    + split; [split; [discriminate|lia]|]. split; [discriminate|].
      split; [lia|]. intros e [=].
    + split; [split; [discriminate|lia]|].
      split; [|split; [lia | intros e [= <-]; auto]].
      intros _. left.
      assert (Vo : valid outp) by (apply year_shifted_valid; [exact Hv|lia]).
      pose proof (Z.mod_pos_bound (toordinal outp - toordinal inp) 7) as Br.
      fold r in Br.
      pose proof Vo as Fo. rewrite valid_fields in Fo.
      destruct Fo as (_ & Hm & Hd & _).
      pose proof (ymd2ord_in_year _ _ _ Hm Hd) as B.
      fold (toordinal outp) in B.
      assert (Ey : year outp = outyear) by (unfold outp; cbn; lia).
      rewrite Ey in B.
      assert (E1 : outyear = 1).
      { destruct (Z.eq_dec outyear 1) as [|Hne]; [assumption|exfalso].
        pose proof (days_before_year_mono 2 outyear).
        change (days_before_year 2) with 365 in *. lia. }
      split; [exact E1|].
      assert (Ey1 : year outp = 1) by lia.
      assert (Em : month outp = month inp) by reflexivity.
      unfold toordinal, ymd2ord in P. rewrite Ey1 in P, Hd.
      change (days_before_year 1) with 0 in P.
      assert (Hmo : month inp = 1).
      { destruct (Z.eq_dec (month inp) 1) as [|Hne]; [assumption|exfalso].
        pose proof (days_before_month_mono 1 1 (month outp)).
        pose proof (days_in_month_bounds 1 1).
        rewrite days_before_month_first in *. lia. }
      split; [exact Hmo|].
      rewrite Em, Hmo in P. rewrite days_before_month_first in P.
      assert (Edo : day outp = Z.min (days_in_month 1 1) (day inp)).
      { unfold outp, year_shifted. cbn [day]. rewrite Hmo, E1.
        replace (year inp + (1 - year inp)) with 1 by lia. reflexivity. }
      change (days_in_month 1 1) with 31 in Edo. lia.
  - destruct (fits_c_int outyear) eqn:Ef; cbn [rbind].
    + apply F in Ef. split; [split; [lia|reflexivity]|]. split; [discriminate|].
      split; [lia | intros e [= <-]; auto].
    + assert (~ (C_INT_MIN <= outyear <= C_INT_MAX))
        by (intros C; apply F in C; congruence).
      split; [split; [discriminate|lia]|]. split; [lia|].
      split; [reflexivity | intros e [= <-]; auto].
  - destruct (fits_c_int outyear) eqn:Ef; cbn [rbind].
    + apply F in Ef. split; [split; [lia|reflexivity]|]. split; [discriminate|].
      split; [lia | intros e [= <-]; auto].
    + assert (~ (C_INT_MIN <= outyear <= C_INT_MAX))
        by (intros C; apply F in C; congruence).
      split; [split; [discriminate|lia]|]. split; [lia|].
      split; [reflexivity | intros e [= <-]; auto].
Qed.

Lemma X4_forward_shift_failures_witness :
  NEIfileDatetime_shift_BYweekofday "wrfchemi_d01_2020-01-03_01:00:00" 10000
  = Raise ValueError_range
  /\ NEIfileDatetime_shift_BYweekofday "wrfchemi_d01_2020-01-03_01:00:00" (2 ^ 31)
     = Raise OverflowError
  /\ (NEIfileDatetime_shift_BYweekofday "wrfchemi_d01_2020-01-03_01:00:00" 1
      = Raise OverflowError ->
      (1 = 1 /\ month (mkdatetime 2020 1 3 1 0 0) = 1
       /\ day (mkdatetime 2020 1 3 1 0 0) <= 6)
      \/ 1 < C_INT_MIN \/ C_INT_MAX < 1).
Proof.
  destruct (X4_forward_shift_failures
              "wrfchemi_d01_2020-01-03_01:00:00" 10000
              (mkdatetime 2020 1 3 1 0 0) eq_refl) as (A & _).
  destruct (X4_forward_shift_failures
              "wrfchemi_d01_2020-01-03_01:00:00" (2 ^ 31)
              (mkdatetime 2020 1 3 1 0 0) eq_refl) as (_ & _ & O & _).
  destruct (X4_forward_shift_failures
              "wrfchemi_d01_2020-01-03_01:00:00" 1
              (mkdatetime 2020 1 3 1 0 0) eq_refl) as (_ & B & _).
  split; [apply A; vm_compute; intuition discriminate|].
  split; [apply O; right; vm_compute; reflexivity | exact B].
Defined.

(** In year 1 the overflow does happen. *)
Example forward_shift_overflow_run :
  NEIfileDatetime_shift_BYweekofday "wrfchemi_d01_2020-01-03_01:00:00" 1
  = Raise OverflowError.
Proof. vm_compute. reflexivity. Qed.

(** Before year 1000 the returned name has lost the zeros of the year. *)
Example forward_shift_short_year_run :
  NEIfileDatetime_shift_BYweekofday "wrfchemi_d01_0999-08-01_01:00:00" 999
  = Ok "wrfchemi_d01_999-08-01_01:00:00"%string.
Proof. vm_compute. reflexivity. Qed.

(** X5.  The backward shift returns a timestamp of 2017 as it is, written
    in fixed-width text, whatever its second argument: a text that is
    already fixed-width comes back unchanged. *)
Theorem X5_backward_shift_fixes_2017
  (outpNEIfile_datetime : string) (outyear : Z) (outp : datetime) :
  strptime outpNEIfile_datetime fmt_datetime = Ok outp ->
  year outp = 2017 ->
  NEIfileDatetime_shift_BACKWARDto2017 outpNEIfile_datetime outyear
  = Ok (strftime fmt_datetime outp)
  /\ NEIfileDatetime_shift_BACKWARDto2017 (strftime fmt_datetime outp) outyear
     = Ok (strftime fmt_datetime outp).
Proof.
  intros Hparse Hy.
  pose proof (strptime_valid _ _ _ Hparse) as Hv.
  assert (G : forall s, strptime s fmt_datetime = Ok outp ->
                        NEIfileDatetime_shift_BACKWARDto2017 s outyear
                        = Ok (strftime fmt_datetime outp)).
  { intros s Hs. unfold NEIfileDatetime_shift_BACKWARDto2017.
    rewrite (backward_datetime_spec s outyear outp Hs). cbv zeta.
    rewrite Hy. change (- (2017 - 2017)) with 0.
    rewrite year_shifted_zero by exact Hv.
    rewrite Z.sub_diag, Z.mod_0_l by lia.
    rewrite Z.mul_0_l, Z.add_0_r.
    rewrite of_total_seconds_total_seconds by exact Hv. reflexivity. }
  split; [apply G, Hparse | apply G, strptime_strftime; [exact Hv | lia]].
Qed.

Lemma X5_backward_shift_fixes_2017_witness :
  NEIfileDatetime_shift_BACKWARDto2017 "2017-8-1_1:0:0" 2020
  = Ok (strftime fmt_datetime (mkdatetime 2017 8 1 1 0 0))
  /\ NEIfileDatetime_shift_BACKWARDto2017
       (strftime fmt_datetime (mkdatetime 2017 8 1 1 0 0)) 2020
     = Ok (strftime fmt_datetime (mkdatetime 2017 8 1 1 0 0)).
Proof.
  apply (X5_backward_shift_fixes_2017 "2017-8-1_1:0:0" 2020
           (mkdatetime 2017 8 1 1 0 0)); reflexivity.
Defined.

Lemma match_seq_length (cs : list charclass) :
  forall s m r, match_seq cs s = Some (m, r) ->
  String.length s = (length cs + String.length r)%nat.
Proof.
  induction cs as [|p cs IH]; intros s m r H; cbn [match_seq] in H.
  - injection H as _ <-. reflexivity.
  - destruct s as [|c s]; [discriminate|].
    destruct (p c); [|discriminate].
    destruct (match_seq cs s) as [[m' r']|] eqn:E; [|discriminate].
    injection H as _ <-. cbn. rewrite (IH _ _ _ E). reflexivity.
Qed.

Lemma fold_min_le (l : list nat) :
  forall a, (fold_left Nat.min l a <= a)%nat
            /\ forall x, In x l -> (fold_left Nat.min l a <= x)%nat.
Proof.
  induction l as [|y l IH]; intros a; cbn [fold_left].
  - split; [lia | intros x []].
  - destruct (IH (Nat.min a y)) as [H1 H2]. split; [lia|].
    intros x [<-|Hx]; [lia | apply H2, Hx].
Qed.

Lemma fold_max_ge (l : list nat) :
  forall a, (a <= fold_left Nat.max l a)%nat
            /\ forall x, In x l -> (x <= fold_left Nat.max l a)%nat.
Proof.
  induction l as [|y l IH]; intros a; cbn [fold_left].
  - split; [lia | intros x []].
  - destruct (IH (Nat.max a y)) as [H1 H2]. split; [lia|].
    intros x [<-|Hx]; [lia | apply H2, Hx].
Qed.

Lemma alts_bounds (alts : list (list charclass)) (a : list charclass) :
  In a alts -> (alts_min alts <= length a <= alts_max alts)%nat.
Proof.
  intros Hin. split.
  - destruct alts as [|a0 alts]; [destruct Hin|]. cbn [alts_min].
    destruct (fold_min_le (map (@length charclass) alts) (length a0)) as [H1 H2].
    destruct Hin as [<-|Hin]; [exact H1|]. apply H2, in_map, Hin.
  - unfold alts_max.
    destruct (fold_max_ge (map (@length charclass) alts) 0%nat) as [_ H2].
    apply H2, in_map, Hin.
Qed.

Lemma first_some_In {A B : Type} (f : A -> option B) (l : list A) (b : B) :
  first_some f l = Some b -> exists a, In a l /\ f a = Some b.
Proof.
  induction l as [|a l IH]; cbn [first_some]; [discriminate|].
  destruct (f a) as [b'|] eqn:E.
  - intros [= <-]. exists a. split; [left; reflexivity | exact E].
  - intros H. destruct (IH H) as (a' & Hin & Ha'). exists a'.
    split; [right; exact Hin | exact Ha'].
Qed.

(** What [re.match] takes from a text lies between the bounds of the
    expression. *)
Lemma re_match_length (re : list re_item) :
  forall s groups rest,
    re_match re s = Some (groups, rest) ->
    (re_min re + String.length rest <= String.length s
     <= re_max re + String.length rest)%nat.
Proof.
  induction re as [|[c|d alts] re IH]; intros s groups rest H;
    cbn [re_match re_min re_max] in *.
  - injection H as _ <-. lia.
  - destruct s as [|c' s]; [discriminate|].
    destruct (Ascii.eqb c c'); [|discriminate].
    specialize (IH _ _ _ H). cbn [String.length]. lia.
  - apply first_some_In in H as (a & Hin & Ha).
    destruct (match_seq a s) as [[m r]|] eqn:E; [|discriminate].
    destruct (re_match re r) as [[ms rest']|] eqn:E'; [|discriminate].
    injection Ha as _ <-.
    specialize (IH _ _ _ E'). pose proof (match_seq_length _ _ _ _ E).
    pose proof (alts_bounds alts a Hin). lia.
Qed.

Lemma strptime_length (s : string) (dt : datetime) :
  strptime s fmt_datetime = Ok dt -> (14 <= String.length s <= 19)%nat.
Proof.
  unfold strptime.
  destruct (re_match (map re_of_directive fmt_datetime) s)
    as [[groups rest]|] eqn:E; [|discriminate].
  destruct rest; [|discriminate]. intros _.
  apply re_match_length in E. cbn in E. lia.
Qed.

Lemma strptime_bad_length (s : string) :
  (String.length s < 14 \/ 19 < String.length s)%nat ->
  strptime s fmt_datetime = Raise ValueError_format.
Proof.
  intros Hlen. unfold strptime.
  destruct (re_match (map re_of_directive fmt_datetime) s)
    as [[groups rest]|] eqn:E; [|reflexivity].
  destruct rest; [|reflexivity].
  apply re_match_length in E. cbn in E. lia.
Qed.

Lemma slice_from_length (n : nat) :
  forall s, String.length (slice_from n s) = (String.length s - n)%nat.
Proof.
  induction n as [|n IH]; intros s; cbn [slice_from].
  - lia.
  - destruct s as [|c s]; [reflexivity|]. cbn [String.length]. rewrite IH. lia.
Qed.

(** X6.  A timestamp text is accepted only if it has 14 to 19 characters,
    so a filename of fewer than 27 or more than 32 characters makes both
    [extract_date_and_time] and the forward shift fail with the format
    [ValueError], whatever the target year. *)
Theorem X6_filename_length_bounds (filename : string) (outyear : Z) :
  (String.length filename < 27 \/ 32 < String.length filename)%nat ->
  extract_date_and_time filename = Raise ValueError_format
  /\ NEIfileDatetime_shift_BYweekofday filename outyear = Raise ValueError_format.
Proof.
  intros Hlen.
  assert (E : strptime (slice_from 13 filename) fmt_datetime
              = Raise ValueError_format).
  { apply strptime_bad_length. rewrite slice_from_length. lia. }
  split; [exact E|].
  unfold NEIfileDatetime_shift_BYweekofday, shift_BYweekofday_datetime.
  rewrite E. reflexivity.
Qed.

Lemma X6_filename_length_bounds_witness :
  extract_date_and_time "wrfchemi_d01_2017-08-01" = Raise ValueError_format
  /\ NEIfileDatetime_shift_BYweekofday "wrfchemi_d01_2017-08-01" 2020
     = Raise ValueError_format.
Proof.
  apply (X6_filename_length_bounds "wrfchemi_d01_2017-08-01" 2020).
  left. vm_compute. lia.
Defined.

(** ** Further properties of the hourly file scans *)

Lemma expected_loop_hour_loop (filedir file_prefix : string) (end_date : datetime)
  (fuel : nat) :
  forall cur acc,
    expected_loop fuel filedir file_prefix end_date cur acc
    = hour_loop (name_v1 filedir file_prefix) fuel end_date cur acc.
Proof.
  induction fuel as [|fuel IH]; intros cur acc; [reflexivity|].
  cbn [expected_loop hour_loop]. destruct (le cur end_date); [|reflexivity].
  destruct (add cur (new_timedelta 0 3600)) as [next|e]; [|reflexivity].
  cbn [rbind]. apply IH.
Qed.

Lemma expected_loop_v2_hour_loop (filedir file_prefix file_sufix : string)
  (end_date : datetime) (fuel : nat) :
  forall cur acc,
    expected_loop_v2 fuel filedir file_prefix file_sufix end_date cur acc
    = hour_loop (name_v2 filedir file_prefix file_sufix) fuel end_date cur acc.
Proof.
  induction fuel as [|fuel IH]; intros cur acc; [reflexivity|].
  cbn [expected_loop_v2 hour_loop]. destruct (le cur end_date); [|reflexivity].
  destruct (add cur (new_timedelta 0 3600)) as [next|e]; [|reflexivity].
  cbn [rbind]. apply IH.
Qed.

Section HourLoop.

Variable name : datetime -> string.
Variable end_date : datetime.
Hypothesis Vend : valid end_date.

Lemma hour_passes_step (cur : datetime) :
  valid cur -> le cur end_date = true ->
  (total_seconds cur + 3600) / 86400 <= MAXORDINAL ->
  valid (of_total_seconds (total_seconds cur + 3600))
  /\ total_seconds (of_total_seconds (total_seconds cur + 3600))
     = total_seconds cur + 3600
  /\ hour_passes end_date cur
     = hour_passes end_date (of_total_seconds (total_seconds cur + 3600)) + 1
  /\ 0 <= hour_passes end_date (of_total_seconds (total_seconds cur + 3600)).
Proof.
  intros Vc L B.
  destruct (total_seconds_div cur Vc) as [E _].
  pose proof (toordinal_range cur Vc) as R.
  assert (total_seconds cur / 86400 <= (total_seconds cur + 3600) / 86400)
    by (apply Z.div_le_mono; lia).
  destruct (of_total_seconds_spec (total_seconds cur + 3600)) as (V' & _); [lia|].
  pose proof (total_seconds_of_total_seconds (total_seconds cur + 3600)) as T.
  split; [exact V'|]. split; [apply T; lia|].
  unfold hour_passes. rewrite L.
  rewrite le_spec in L |- * by assumption.
  rewrite T by lia. apply Z.leb_le in L.
  destruct (Z.leb_spec (total_seconds cur + 3600) (total_seconds end_date));
    split; Z.div_mod_to_equations; lia.
Qed.

Lemma hour_loop_Ok (fuel : nat) :
  forall (cur : datetime) (acc l : list string),
    valid cur ->
    hour_loop name fuel end_date cur acc = Ok l ->
    l = acc ++ map (fun k : nat =>
                      name (of_total_seconds (total_seconds cur + 3600 * Z.of_nat k)))
                   (seq 0 (Z.to_nat (hour_passes end_date cur))).
Proof.
  induction fuel as [|fuel IH]; intros cur acc l Vc H; [discriminate|].
  cbn [hour_loop] in H.
  destruct (le cur end_date) eqn:L.
  - rewrite add_hour in H by exact Vc.
    destruct (Z.leb_spec ((total_seconds cur + 3600) / 86400) MAXORDINAL) as [B|B];
      [|discriminate].
    cbn [rbind] in H.
    destruct (hour_passes_step cur Vc L B) as (V' & T & Ep & Hp).
    apply IH in H; [|exact V'].
    rewrite H, Ep.
    replace (hour_passes end_date (of_total_seconds (total_seconds cur + 3600)) + 1)
      with (Z.succ (hour_passes end_date
                      (of_total_seconds (total_seconds cur + 3600)))) by lia.
    rewrite Z2Nat.inj_succ by lia.
    rewrite <- cons_seq, map_cons, <- app_assoc.
    f_equal. rewrite <- app_comm_cons, app_nil_l. f_equal.
    + rewrite Nat2Z.inj_0, Z.mul_0_r, Z.add_0_r.
      rewrite of_total_seconds_total_seconds by exact Vc. reflexivity.
    + rewrite <- seq_shift, map_map. apply map_ext. intros k.
      rewrite T. do 2 f_equal. lia.
  - injection H as <-. unfold hour_passes. rewrite L.
    rewrite Z2Nat.inj_0. rewrite app_nil_r. reflexivity.
Qed.

Lemma hour_loop_total (fuel : nat) :
  forall (cur : datetime) (acc : list string),
    valid cur ->
    (total_seconds cur + 3600 * hour_passes end_date cur) / 86400 <= MAXORDINAL ->
    (Z.to_nat (hour_passes end_date cur) < fuel)%nat ->
    exists l, hour_loop name fuel end_date cur acc = Ok l.
Proof.
  induction fuel as [|fuel IH]; intros cur acc Vc B F; [lia|].
  cbn [hour_loop].
  destruct (le cur end_date) eqn:L; [|eauto].
  assert (Hp1 : 1 <= hour_passes end_date cur).
  { unfold hour_passes. rewrite L. rewrite le_spec in L by assumption.
    apply Z.leb_le in L. Z.div_mod_to_equations; lia. }
  assert (B1 : (total_seconds cur + 3600) / 86400 <= MAXORDINAL).
  { etransitivity; [|exact B]. apply Z.div_le_mono; lia. }
  rewrite add_hour by exact Vc.
  destruct (Z.leb_spec ((total_seconds cur + 3600) / 86400) MAXORDINAL); [|lia].
  cbn [rbind].
  destruct (hour_passes_step cur Vc L B1) as (V' & T & Ep & Hp).
  apply IH; [exact V' | | lia].
  rewrite T.
  replace (total_seconds cur + 3600
           + 3600 * hour_passes end_date
                      (of_total_seconds (total_seconds cur + 3600)))
    with (total_seconds cur + 3600 * hour_passes end_date cur) by lia.
  exact B.
Qed.

(** When the hour after the last pass is past the calendar, the loop ends
    in the overflow of its last increment. *)
Lemma hour_loop_overflow (fuel : nat) :
  forall (cur : datetime) (acc : list string),
    valid cur ->
    1 <= hour_passes end_date cur ->
    MAXORDINAL < (total_seconds cur + 3600 * hour_passes end_date cur) / 86400 ->
    (Z.to_nat (hour_passes end_date cur) <= fuel)%nat ->
    hour_loop name fuel end_date cur acc = Raise OverflowError.
Proof.
  induction fuel as [|fuel IH]; intros cur acc Vc P B F; [lia|].
  cbn [hour_loop].
  destruct (le cur end_date) eqn:L.
  2:{ unfold hour_passes in P. rewrite L in P. lia. }
  rewrite add_hour by exact Vc.
  destruct (Z.leb_spec ((total_seconds cur + 3600) / 86400) MAXORDINAL) as [B1|B1];
    [|reflexivity].
  cbn [rbind].
  destruct (hour_passes_step cur Vc L B1) as (V' & T & Ep & Hp).
  assert (P' : 1 <= hour_passes end_date
                      (of_total_seconds (total_seconds cur + 3600))).
  { destruct (Z.eq_dec (hour_passes end_date
                          (of_total_seconds (total_seconds cur + 3600))) 0)
      as [E0|]; [|lia].
    exfalso. rewrite Ep, E0 in B.
    replace (total_seconds cur + 3600 * (0 + 1))
      with (total_seconds cur + 3600) in B by lia. lia. }
  apply IH; [exact V' | exact P' | | lia].
  rewrite T.
  replace (total_seconds cur + 3600
           + 3600 * hour_passes end_date
                      (of_total_seconds (total_seconds cur + 3600)))
    with (total_seconds cur + 3600 * hour_passes end_date cur) by lia.
  exact B.
Qed.

End HourLoop.

Section MissingLoopMore.

Variable fs : string -> open_outcome.

(** The second loop of the scans, in one equation. *)
Lemma missing_loop_spec (files : list string) :
  forall acc,
    missing_loop fs files acc =
    if existsb (other_error fs) files then Raise OSError
    else Ok (acc ++ List.filter (not_found fs) files).
Proof.
  induction files as [|p files IH]; intros acc;
    cbn [missing_loop existsb List.filter].
  - rewrite app_nil_r. reflexivity.
  - unfold other_error at 1, not_found at 1. destruct (fs p); cbn [orb].
    + apply IH.
    + rewrite IH. destruct (existsb _ files); [reflexivity|].
      rewrite <- app_assoc. reflexivity.
    + reflexivity.
Qed.

End MissingLoopMore.

(** X7.  Whenever [find_missing_files_v1] returns, ['missing_files'] is
    exactly the expected files on which [open] raises [FileNotFoundError],
    in their order, and [open] raises no other error on any expected
    file. *)
Theorem X7_missing_files_are_the_files_not_found
  (fs : string -> open_outcome) (fuel : nat)
  (startDatetime endDatetime filedir file_prefix : string) (r : report) :
  find_missing_files_v1 fs fuel startDatetime endDatetime filedir file_prefix
  = Ok r ->
  missing_files r = List.filter (not_found fs) (expected_files r)
  /\ (forall p, In p (expected_files r) -> fs p <> OtherError)
  /\ (forall p, In p (expected_files r) ->
        (In p (missing_files r) <-> fs p = FileNotFound)).
Proof.
  unfold find_missing_files_v1. intros H.
  destruct (strptime startDatetime fmt_datetime) as [start_date|e]; [|discriminate].
  destruct (strptime endDatetime fmt_datetime) as [end_date|e]; [|discriminate].
  cbn [rbind] in H.
  destruct (expected_loop fuel filedir file_prefix end_date start_date [])
    as [expected|e]; [|discriminate].
  cbn [rbind] in H. rewrite missing_loop_spec in H.
  destruct (existsb (other_error fs) expected) eqn:E; [discriminate|].
  cbn [rbind] in H. injection H as <-. cbn [missing_files expected_files app].
  assert (Hno : forall p, In p expected -> fs p <> OtherError).
  { intros p Hp Hfs.
    assert (existsb (other_error fs) expected = true).
    { apply existsb_exists. exists p. split; [exact Hp|].
      unfold other_error. rewrite Hfs. reflexivity. }
    congruence. }
  split; [reflexivity|]. split; [exact Hno|].
  intros p Hp. rewrite filter_In. unfold not_found. split.
  - intros [_ Hf]. destruct (fs p); [discriminate|reflexivity|discriminate].
  - intros ->. split; [exact Hp | reflexivity].
Qed.

Lemma X7_missing_files_are_the_files_not_found_witness :
  let fs := fun p : string =>
              if String.eqb p "/data/wrfchemi_d01_2018-07-01_04:00:00"
              then Opened else FileNotFound in
  let r := mkreport ["/data/wrfchemi_d01_2018-07-01_03:00:00"%string]
                    ["/data/wrfchemi_d01_2018-07-01_03:00:00"%string;
                     "/data/wrfchemi_d01_2018-07-01_04:00:00"%string] in
  missing_files r = List.filter (not_found fs) (expected_files r).
Proof.
  intros fs r.
  apply (X7_missing_files_are_the_files_not_found fs 10
           "2018-07-01_03:30:15" "2018-07-01_05:10:00" "/data/" "wrfchemi_d01" r).
  vm_compute. reflexivity.
Defined.

(** X8.  An error of [open] other than [FileNotFoundError] on one of the
    expected files is not caught: the function raises it and returns no
    report. *)
Theorem X8_other_open_error_is_raised
  (fs : string -> open_outcome) (fuel : nat)
  (startDatetime endDatetime filedir file_prefix : string)
  (start_date end_date : datetime) (k : nat) :
  strptime startDatetime fmt_datetime = Ok start_date ->
  strptime endDatetime fmt_datetime = Ok end_date ->
  let count :=
    if total_seconds start_date <=? total_seconds end_date
    then 1 + (total_seconds end_date - total_seconds start_date) / 3600
    else 0 in
  (total_seconds start_date + 3600 * count) / 86400 <= MAXORDINAL ->
  (Z.to_nat count < fuel)%nat ->
  (k < Z.to_nat count)%nat ->
  fs (hourly_name filedir file_prefix
        (of_total_seconds (total_seconds start_date + 3600 * Z.of_nat k)))
  = OtherError ->
  find_missing_files_v1 fs fuel startDatetime endDatetime filedir file_prefix
  = Raise OSError.
Proof.
  intros Hs He count Hmax Hfuel Hk Hfs.
  pose proof (strptime_valid _ _ _ Hs) as Vs.
  pose proof (strptime_valid _ _ _ He) as Ve.
  assert (Hcount : count = hour_passes end_date start_date).
  { subst count. unfold hour_passes. rewrite (le_spec _ _ Vs Ve).
    destruct (_ <=? _); lia. }
  unfold find_missing_files_v1. rewrite Hs, He. cbn [rbind].
  rewrite expected_loop_hour_loop.
  destruct (hour_loop_total (name_v1 filedir file_prefix) end_date Ve fuel
              start_date []) as (l & Hl);
    [exact Vs | rewrite <- Hcount; exact Hmax | rewrite <- Hcount; exact Hfuel |].
  rewrite Hl. cbn [rbind].
  apply (hour_loop_Ok _ _ Ve) in Hl; [|exact Vs].
  rewrite app_nil_l, <- Hcount in Hl.
  rewrite missing_loop_spec.
  assert (E : existsb (other_error fs) l = true).
  { apply existsb_exists.
    exists (hourly_name filedir file_prefix
              (of_total_seconds (total_seconds start_date + 3600 * Z.of_nat k))).
    split.
    - rewrite Hl. apply in_map_iff. exists k. split; [reflexivity|].
      apply in_seq. lia.
    - unfold other_error. rewrite Hfs. reflexivity. }
  rewrite E. reflexivity.
Qed.

Lemma X8_other_open_error_is_raised_witness :
  find_missing_files_v1
    (fun p => if String.eqb p "/data/wrfchemi_d01_2018-07-01_04:00:00"
              then OtherError else FileNotFound)
    10 "2018-07-01_03:30:15" "2018-07-01_05:10:00" "/data/" "wrfchemi_d01"
  = Raise OSError.
Proof.
  apply (X8_other_open_error_is_raised _ 10
           "2018-07-01_03:30:15" "2018-07-01_05:10:00" "/data/" "wrfchemi_d01"
           (mkdatetime 2018 7 1 3 30 15) (mkdatetime 2018 7 1 5 10 0) 1).
  - reflexivity.
  - reflexivity.
  - vm_compute. discriminate.
  - vm_compute. lia.
  - vm_compute. lia.
  - vm_compute. reflexivity.
Defined.

(** X9.  When the start is not after the end and the hour following the
    last expected timestamp is past 9999-12-31, the loop's last increment
    overflows: [find_missing_files_v1] raises [OverflowError] without
    opening any file. *)
Theorem X9_scan_overflows_at_the_end_of_the_calendar
  (fs : string -> open_outcome) (fuel : nat)
  (startDatetime endDatetime filedir file_prefix : string)
  (start_date end_date : datetime) :
  strptime startDatetime fmt_datetime = Ok start_date ->
  strptime endDatetime fmt_datetime = Ok end_date ->
  total_seconds start_date <= total_seconds end_date ->
  let count := 1 + (total_seconds end_date - total_seconds start_date) / 3600 in
  MAXORDINAL < (total_seconds start_date + 3600 * count) / 86400 ->
  (Z.to_nat count <= fuel)%nat ->
  find_missing_files_v1 fs fuel startDatetime endDatetime filedir file_prefix
  = Raise OverflowError.
Proof.
  intros Hs He Hle count Hmax Hfuel.
  pose proof (strptime_valid _ _ _ Hs) as Vs.
  pose proof (strptime_valid _ _ _ He) as Ve.
  assert (Hcount : count = hour_passes end_date start_date).
  { subst count. unfold hour_passes. rewrite (le_spec _ _ Vs Ve).
    destruct (Z.leb_spec (total_seconds start_date) (total_seconds end_date)); lia. }
  unfold find_missing_files_v1. rewrite Hs, He. cbn [rbind].
  rewrite expected_loop_hour_loop.
  rewrite (hour_loop_overflow (name_v1 filedir file_prefix) end_date Ve fuel
             start_date []); [reflexivity | exact Vs | | | ].
  - rewrite <- Hcount. subst count. Z.div_mod_to_equations; lia.
  - rewrite <- Hcount. exact Hmax.
  - rewrite <- Hcount. exact Hfuel.
Qed.

Lemma X9_scan_overflows_at_the_end_of_the_calendar_witness :
  find_missing_files_v1 (fun _ => Opened) 10
    "9999-12-31_21:10:00" "9999-12-31_23:30:00" "/data/" "wrfchemi_d01"
  = Raise OverflowError.
Proof.
  apply (X9_scan_overflows_at_the_end_of_the_calendar _ 10
           "9999-12-31_21:10:00" "9999-12-31_23:30:00" "/data/" "wrfchemi_d01"
           (mkdatetime 9999 12 31 21 10 0) (mkdatetime 9999 12 31 23 30 0)).
  - reflexivity.
  - reflexivity.
  - vm_compute. discriminate.
  - vm_compute. reflexivity.
  - vm_compute. lia.
Defined.

Lemma strptime_T_valid (s : string) (dt : datetime) :
  strptime_T s = Ok dt -> valid dt.
Proof.
  unfold strptime_T.
  destruct (re_match re_datetime_T s) as [[groups rest]|]; [|discriminate].
  destruct rest; [|discriminate].
  intros H. apply new_datetime_Ok in H. tauto.
Qed.

Lemma name_v2_eq (filedir file_prefix file_sufix : string) (dt : datetime) :
  name_v2 filedir file_prefix file_sufix dt
  = hourly_name_v2 filedir file_prefix file_sufix dt.
Proof.
  unfold name_v2, hourly_name_v2. cbn [fmt_hourly_T strftime render].
  unfold year_text.
  destruct (1000 <=? year dt); [reflexivity|].
  destruct (100 <=? year dt); [reflexivity|].
  destruct (10 <=? year dt); reflexivity.
Qed.

(** X10.  [find_missing_files_v2] behaves as version 1 does, on timestamps
    written with ['T'] and names that end in the suffix: whenever it
    returns, ['expected_files'] has one entry per hour from the start to
    the end, 1 + floor((end - start) / 1 hour) of them or none when the
    start is after the end; for a start year of four digits the k-th is
    directory, prefix, the timestamp start + k hours as
    [_YYYY-MM-DDTHH:00:00] and the suffix, ['missing_files'] is the
    expected files [open] does not find, and the function returns when the
    hour after the last expected timestamp is still a datetime and [open]
    raises nothing else on the expected files. *)
Theorem X10_find_missing_files_v2
  (fs : string -> open_outcome) (fuel : nat)
  (startDatetime endDatetime filedir file_prefix file_sufix : string)
  (start_date end_date : datetime) :
  strptime_T startDatetime = Ok start_date ->
  strptime_T endDatetime = Ok end_date ->
  let count :=
    if total_seconds start_date <=? total_seconds end_date
    then 1 + (total_seconds end_date - total_seconds start_date) / 3600
    else 0 in
  let expected :=
    map (fun k : nat =>
           hourly_name_v2 filedir file_prefix file_sufix
             (of_total_seconds (total_seconds start_date + 3600 * Z.of_nat k)))
        (seq 0 (Z.to_nat count)) in
  (forall r,
     find_missing_files_v2 fs fuel startDatetime endDatetime filedir file_prefix
       file_sufix = Ok r ->
     length (expected_files r) = Z.to_nat count
     /\ (1000 <= year start_date ->
         expected_files r = expected
         /\ missing_files r = List.filter (not_found fs) expected))
  /\ (1000 <= year start_date ->
      (total_seconds start_date + 3600 * count) / 86400 <= MAXORDINAL ->
      (forall p, In p expected -> fs p <> OtherError) ->
      (Z.to_nat count < fuel)%nat ->
      find_missing_files_v2 fs fuel startDatetime endDatetime filedir file_prefix
        file_sufix
      = Ok (mkreport (List.filter (not_found fs) expected) expected)).
Proof.
  intros Hs He count expected.
  pose proof (strptime_T_valid _ _ Hs) as Vs.
  pose proof (strptime_T_valid _ _ He) as Ve.
  assert (Hcount : count = hour_passes end_date start_date).
  { subst count. unfold hour_passes. rewrite (le_spec _ _ Vs Ve).
    destruct (_ <=? _); lia. }
  assert (Hloop : forall l,
             hour_loop (name_v2 filedir file_prefix file_sufix) fuel end_date
               start_date [] = Ok l -> l = expected).
  { intros l Hl. apply (hour_loop_Ok _ _ Ve) in Hl; [|exact Vs].
    rewrite app_nil_l, <- Hcount in Hl. rewrite Hl. subst expected.
    apply map_ext. intros k. apply name_v2_eq. }
  split.
  - intros r Hr. unfold find_missing_files_v2 in Hr.
    rewrite Hs, He in Hr. cbn [rbind] in Hr.
    rewrite expected_loop_v2_hour_loop in Hr.
    destruct (hour_loop _ fuel end_date start_date []) as [l|e] eqn:Hl;
      [|discriminate].
    cbn [rbind] in Hr. rewrite missing_loop_spec in Hr.
    destruct (existsb (other_error fs) l); [discriminate|].
    cbn [rbind app] in Hr. injection Hr as <-. cbn [missing_files expected_files].
    rewrite (Hloop l eq_refl). split; [|intros _; split; reflexivity].
    subst expected. rewrite length_map, length_seq. reflexivity.
  - intros _ Hmax Hfs Hfuel. unfold find_missing_files_v2.
    rewrite Hs, He. cbn [rbind]. rewrite expected_loop_v2_hour_loop.
    destruct (hour_loop_total (name_v2 filedir file_prefix file_sufix) end_date Ve
                fuel start_date []) as (l & Hl);
      [exact Vs | rewrite <- Hcount; exact Hmax | rewrite <- Hcount; exact Hfuel |].
    rewrite Hl. cbn [rbind]. rewrite (Hloop l Hl).
    rewrite missing_loop_spec.
    destruct (existsb (other_error fs) expected) eqn:E.
    + exfalso. apply existsb_exists in E as (p & Hp & Ho).
      apply (Hfs p Hp). unfold other_error in Ho.
      destruct (fs p); [discriminate|discriminate|reflexivity].
    + reflexivity.
Qed.

Lemma X10_find_missing_files_v2_witness :
  find_missing_files_v2
    (fun p => if String.eqb p "/cams/CAMS_CO_2018-07-01T04:00:00.nc"
              then Opened else FileNotFound)
    10 "2018-07-01T03:30:15" "2018-07-01t05:10:00" "/cams/" "CAMS_CO" ".nc"
  = Ok (mkreport
          ["/cams/CAMS_CO_2018-07-01T03:00:00.nc"%string]
          ["/cams/CAMS_CO_2018-07-01T03:00:00.nc"%string;
           "/cams/CAMS_CO_2018-07-01T04:00:00.nc"%string]).
Proof.
  destruct (X10_find_missing_files_v2
              (fun p => if String.eqb p "/cams/CAMS_CO_2018-07-01T04:00:00.nc"
                        then Opened else FileNotFound)
              10 "2018-07-01T03:30:15" "2018-07-01t05:10:00" "/cams/" "CAMS_CO"
              ".nc" (mkdatetime 2018 7 1 3 30 15) (mkdatetime 2018 7 1 5 10 0)
              eq_refl eq_refl) as [_ T].
  rewrite T.
  - vm_compute. reflexivity.
  - cbn. lia.
  - vm_compute. discriminate.
  - intros p _. destruct (String.eqb p _); discriminate.
  - vm_compute. lia.
Defined.

(** ** The two timestamp formats *)

Lemma re_match_group_inv (d : directive) (alts : list (list charclass))
  (re : list re_item) (s rest : string) (g : list (directive * string)) :
  re_match (RGroup d alts :: re) s = Some (g, rest) ->
  exists a m r ms,
    In a alts /\ match_seq a s = Some (m, r) /\ re_match re r = Some (ms, rest).
Proof.
  cbn [re_match]. intros H. apply first_some_In in H as (a & Hin & Ha).
  destruct (match_seq a s) as [[m r]|] eqn:E; [|discriminate].
  destruct (re_match re r) as [[ms rest']|] eqn:E'; [|discriminate].
  injection Ha as _ <-. exists a, m, r, ms. auto.
Qed.

(** Two branches of the month group that both stop before a ['-'] take
    the same text. *)
Lemma month_branch_unique (a a' : list charclass) (s m m' r r' : string) :
  In a [[chr "1"; rng "0" "2"]; [chr "0"; rng "1" "9"]; [rng "1" "9"]] ->
  In a' [[chr "1"; rng "0" "2"]; [chr "0"; rng "1" "9"]; [rng "1" "9"]] ->
  match_seq a s = Some (m, String "-" r) ->
  match_seq a' s = Some (m', String "-" r') ->
  r = r'.
Proof.
  intros Hin Hin' H H'. cbn [In] in Hin, Hin'.
  repeat (destruct Hin as [<-|Hin]); try contradiction;
    repeat (destruct Hin' as [<-|Hin']); try contradiction;
    inv_seq H; inv_seq H';
    injection H as ? ?; injection H' as ? ?; subst;
    try reflexivity; try congruence; class_false.
Qed.

(** No branch of the day group stops before a ['_'] where another stops
    before a ['T'] or a ['t']. *)
Lemma day_branch_not_both (a a' : list charclass) (s d d' r r' : string)
  (t : ascii) :
  In a [[chr "3"; rng "0" "1"]; [rng "1" "2"; dig]; [chr "0"; rng "1" "9"];
        [rng "1" "9"]; [chr " "; rng "1" "9"]] ->
  In a' [[chr "3"; rng "0" "1"]; [rng "1" "2"; dig]; [chr "0"; rng "1" "9"];
         [rng "1" "9"]; [chr " "; rng "1" "9"]] ->
  match_seq a s = Some (d, String "_" r) ->
  match_seq a' s = Some (d', String t r') ->
  Ascii.eqb t "T" || Ascii.eqb t "t" = true ->
  False.
Proof.
  intros Hin Hin' H H' Ht. cbn [In] in Hin, Hin'.
  repeat (destruct Hin as [<-|Hin]); try contradiction;
    repeat (destruct Hin' as [<-|Hin']); try contradiction;
    inv_seq H; inv_seq H'; simplify_eq;
    first [class_false | either_case Ht; class_false].
Qed.

(** No text matches both the expression of ['%Y-%m-%d_%H:%M:%S'] and that
    of ['%Y-%m-%dT%H:%M:%S']. *)
Lemma formats_disjoint (s : string)
  (g1 g2 : list (directive * string)) (r1 r2 : string) :
  re_match (map re_of_directive fmt_datetime) s = Some (g1, r1) ->
  re_match re_datetime_T s = Some (g2, r2) ->
  False.
Proof.
  intros H1 H2. unfold re_datetime_T, anycase in H2.
  cbn [map fmt_datetime re_of_directive] in H1, H2.
  apply re_match_group_inv in H1 as (a1 & y1 & s1 & k1 & Ia1 & M1 & H1).
  apply re_match_group_inv in H2 as (a2 & y2 & s2 & k2 & Ia2 & M2 & H2).
  destruct Ia1 as [<-|[]]. destruct Ia2 as [<-|[]].
  rewrite M1 in M2. injection M2 as <- <-. clear M1.
  apply re_match_lit_inv in H1 as (t1 & -> & H1).
  apply re_match_lit_inv in H2 as (t2 & E & H2). injection E as <-.
  apply re_match_group_inv in H1 as (am1 & m1 & u1 & k3 & Iam1 & Mm1 & H1).
  apply re_match_group_inv in H2 as (am2 & m2 & u2 & k4 & Iam2 & Mm2 & H2).
  apply re_match_lit_inv in H1 as (v1 & -> & H1).
  apply re_match_lit_inv in H2 as (v2 & -> & H2).
  pose proof (month_branch_unique _ _ _ _ _ _ _ Iam1 Iam2 Mm1 Mm2) as <-.
  apply re_match_group_inv in H1 as (ad1 & d1 & w1 & k5 & Iad1 & Md1 & H1).
  apply re_match_group_inv in H2 as (ad2 & d2 & w2 & k6 & Iad2 & Md2 & H2).
  apply re_match_lit_inv in H1 as (x1 & -> & H1).
  apply re_match_group_inv in H2 as (at2 & tt & z & k7 & Iat & Mt & H2).
  destruct Iat as [<-|[]]. inv_seq Mt. injection Mt as _ <-.
  exact (day_branch_not_both _ _ _ _ _ _ _ _ Iad1 Iad2 Md1 Md2 E).
Qed.

(** X11.  The two versions read disjoint timestamp formats: a start
    timestamp that version 1 accepts makes [find_missing_files_v2] raise
    the format [ValueError], and so does an end timestamp that version 1
    accepts, which is the format the docstring of version 2 gives for
    [endDatetime], once the start has parsed; no report is returned and no
    file is opened. *)
Theorem X11_version_2_rejects_underscore_timestamps
  (fs : string -> open_outcome) (fuel : nat)
  (startDatetime endDatetime filedir file_prefix file_sufix : string)
  (dt : datetime) :
  strptime startDatetime fmt_datetime = Ok dt
  \/ ((exists start_date, strptime_T startDatetime = Ok start_date)
      /\ strptime endDatetime fmt_datetime = Ok dt) ->
  find_missing_files_v2 fs fuel startDatetime endDatetime filedir file_prefix
    file_sufix
  = Raise ValueError_format.
Proof.
  assert (G : forall s, strptime s fmt_datetime = Ok dt ->
                        strptime_T s = Raise ValueError_format).
  { intros s H. unfold strptime in H. unfold strptime_T.
    destruct (re_match (map re_of_directive fmt_datetime) s)
      as [[g1 r1]|] eqn:E1; [|discriminate].
    destruct (re_match re_datetime_T s) as [[g2 r2]|] eqn:E2; [|reflexivity].
    destruct (formats_disjoint s g1 g2 r1 r2 E1 E2). }
  unfold find_missing_files_v2. intros [H|[(sd & Hs) He]].
  - rewrite (G _ H). reflexivity.
  - rewrite Hs, (G _ He). reflexivity.
Qed.

Lemma X11_version_2_rejects_underscore_timestamps_witness :
  find_missing_files_v2 (fun _ => Opened) 10
    "2018-07-01T00:00:00" "2018-07-02_00:00:00" "/cams/" "CAMS_CO" ".nc"
  = Raise ValueError_format.
Proof.
  apply (X11_version_2_rejects_underscore_timestamps (fun _ => Opened) 10
           "2018-07-01T00:00:00" "2018-07-02_00:00:00" "/cams/" "CAMS_CO" ".nc"
           (mkdatetime 2018 7 2 0 0 0)).
  right. split; [exists (mkdatetime 2018 7 1 0 0 0); reflexivity | reflexivity].
Defined.

(** ** Further properties of the regional scaling *)

Lemma scaled_Some (np_dtype V K : Type)
  (product_dtype : np_dtype -> K -> option np_dtype)
  (product : np_dtype -> V -> K -> V)
  (result_type : np_dtype -> np_dtype -> np_dtype)
  (astype : np_dtype -> np_dtype -> V -> V)
  (mask_da : list bool) (sf : K) (rm : string)
  (da da' : data_array np_dtype V K) :
  scaled product_dtype product result_type astype mask_da sf rm da = Some da' ->
  exists d',
    product_dtype (dtype da) sf = Some d'
    /\ da' = mkda (result_type (dtype da) d') (dims da) (ncol_size da)
               (where_cells product result_type astype da mask_da sf d')
               (update (attrs da)
                  [("region_scaling_applied"%string, AStr "True");
                   ("region_mask_name"%string, AStr rm);
                   ("region_scale_factor"%string, AFloat sf)]).
Proof.
  unfold scaled. destruct (product_dtype (dtype da) sf) as [d'|]; [|discriminate].
  intros [= <-]. exists d'. split; reflexivity.
Qed.

(** Where the product keeps the dtype, [where] changes the values inside
    the mask only. *)
Lemma where_cells_stable (np_dtype V K : Type)
  (product : np_dtype -> V -> K -> V)
  (result_type : np_dtype -> np_dtype -> np_dtype)
  (astype : np_dtype -> np_dtype -> V -> V)
  (mask_da : list bool) (sf : K) (da : data_array np_dtype V K)
  (d : np_dtype) :
  dtype da = d ->
  result_type d d = d ->
  (forall v, astype d d v = v) ->
  where_cells product result_type astype da mask_da sf d
  = map (fun c =>
           match mask_da !! col c with
           | Some true => mkcell (col c) (product d (val c) sf)
           | _ => c
           end)
        (cells da).
Proof.
  intros Ed Er Ea. unfold where_cells. apply map_ext. intros [k v].
  cbn [col val]. rewrite Ed, Er, !Ea. reflexivity.
Qed.

(** X12.  Every variable the loop scales carries, afterwards, the three
    attributes that record the scaling, with the mask name and the factor
    of this call in place of any earlier value, and keeps its other
    attributes. *)
Theorem X12_scaled_variables_record_the_scaling
  (np_dtype V K : Type)
  (product_dtype : np_dtype -> K -> option np_dtype)
  (product : np_dtype -> V -> K -> V)
  (result_type : np_dtype -> np_dtype -> np_dtype)
  (astype : np_dtype -> np_dtype -> V -> V)
  (coord_like_vars : list string) (mask_da : list bool) (scalefactor : K)
  (regionMask : string) (spci_ds ds' : dataset np_dtype V K) (var : string)
  (da : data_array np_dtype V K) :
  List.NoDup (map fst spci_ds) ->
  scale_data_vars product_dtype product result_type astype
    coord_like_vars mask_da scalefactor regionMask spci_ds
  = Ok ds' ->
  get spci_ds var = Some da ->
  mem var coord_like_vars = false -> mem "ncol" (dims da) = true ->
  exists da',
    get ds' var = Some da'
    /\ get (attrs da') "region_scaling_applied" = Some (AStr "True")
    /\ get (attrs da') "region_mask_name" = Some (AStr regionMask)
    /\ get (attrs da') "region_scale_factor" = Some (AFloat scalefactor)
    /\ forall k : string,
         k <> "region_scaling_applied"%string ->
         k <> "region_mask_name"%string ->
         k <> "region_scale_factor"%string ->
         get (attrs da') k = get (attrs da) k.
Proof.
  intros ND H Hget Hclv Hncol. unfold scale_data_vars in H.
  destruct (scale_loop_Ok _ _ _ product_dtype product result_type astype
              coord_like_vars mask_da scalefactor regionMask
              _ _ _ ND H) as (_ & G & G2).
  assert (Hin : mem var (map fst spci_ds) = true)
    by (apply mem_In; exact (get_In _ _ _ Hget)).
  assert (T : mem var (map fst spci_ds) && to_scale coord_like_vars var da = true)
    by (rewrite Hin; unfold to_scale; rewrite Hclv, Hncol; reflexivity).
  destruct (G2 var da Hget T) as [_ Hp].
  specialize (G var). rewrite Hget, T in G. unfold scaled in G.
  destruct (product_dtype (dtype da) scalefactor) as [d'|]; [|congruence].
  eexists. split; [exact G|].
  cbn [attrs update fold_left fst snd].
  split; [|split; [|split]].
  - rewrite get_set_ne by discriminate. rewrite get_set_ne by discriminate.
    apply get_set_eq.
  - rewrite get_set_ne by discriminate. apply get_set_eq.
  - apply get_set_eq.
  - intros k H1 H2 H3. rewrite !get_set_ne by congruence. reflexivity.
Qed.

Lemma X12_scaled_variables_record_the_scaling_witness :
  exists ds' da',
    Numpy.scale_data_vars [] [true; false] (Numpy.of_int64 7) "mask_Quebec"
      [("bb"%string,
        mkda Numpy.float64 ["ncol"%string] 2
          [mkcell 0 (Numpy.Float (Numpy.of_int64 1));
           mkcell 1 (Numpy.Float (Numpy.of_int64 2))]
          [("units"%string, AStr "kg");
           ("region_mask_name"%string, AStr "mask_Ontario")])]
    = Ok ds'
    /\ get ds' "bb" = Some da'
    /\ get (attrs da') "region_mask_name" = Some (AStr "mask_Quebec")
    /\ get (attrs da') "units" = Some (AStr "kg").
Proof.
  set (ds := [("bb"%string,
               mkda Numpy.float64 ["ncol"%string] 2
                 [mkcell 0 (Numpy.Float (Numpy.of_int64 1));
                  mkcell 1 (Numpy.Float (Numpy.of_int64 2))]
                 [("units"%string, AStr "kg");
                  ("region_mask_name"%string, AStr "mask_Ontario")])]).
  assert (ND : List.NoDup (map fst ds))
    by (cbn; repeat constructor; cbn; intuition discriminate).
  destruct (Numpy.scale_data_vars [] [true; false] (Numpy.of_int64 7)
              "mask_Quebec" ds)
    as [ds'|e] eqn:H; [|vm_compute in H; discriminate H].
  destruct (X12_scaled_variables_record_the_scaling _ _ _
              Numpy.product_dtype Numpy.product Numpy.result_type Numpy.astype
              [] [true; false] (Numpy.of_int64 7)
              "mask_Quebec"%string ds ds' "bb"%string _ ND H
              eq_refl eq_refl eq_refl)
    as (da' & G & _ & M & _ & Kk).
  exists ds', da'. split; [reflexivity|]. split; [exact G|]. split; [exact M|].
  rewrite Kk by discriminate. reflexivity.
Defined.

(** X13.  Where the product by either factor keeps the dtype of every
    variable to scale, as for floating-point variables and [float]
    factors, running the scaling loop on its own output never raises, and
    the two runs compose: every scaled variable keeps its dtype, a value
    at a column where the mask is true has been multiplied by the first
    factor and then by the second, and the other values are those of the
    input. *)
Theorem X13_scaling_twice_composes
  (np_dtype V K : Type)
  (product_dtype : np_dtype -> K -> option np_dtype)
  (product : np_dtype -> V -> K -> V)
  (result_type : np_dtype -> np_dtype -> np_dtype)
  (astype : np_dtype -> np_dtype -> V -> V)
  (coord_like_vars : list string) (mask_da : list bool) (factor1 factor2 : K)
  (regionMask1 regionMask2 : string) (spci_ds ds1 : dataset np_dtype V K) :
  (forall d, result_type d d = d) ->
  (forall d v, astype d d v = v) ->
  List.NoDup (map fst spci_ds) ->
  (forall var da,
     get spci_ds var = Some da ->
     mem var coord_like_vars = false -> mem "ncol" (dims da) = true ->
     product_dtype (dtype da) factor1 = Some (dtype da)
     /\ product_dtype (dtype da) factor2 = Some (dtype da)) ->
  scale_data_vars product_dtype product result_type astype
    coord_like_vars mask_da factor1 regionMask1 spci_ds
  = Ok ds1 ->
  exists ds2,
    scale_data_vars product_dtype product result_type astype
      coord_like_vars mask_da factor2 regionMask2 ds1 = Ok ds2
    /\ forall var da,
         get spci_ds var = Some da ->
         mem var coord_like_vars = false -> mem "ncol" (dims da) = true ->
         exists da2,
           get ds2 var = Some da2
           /\ dtype da2 = dtype da
           /\ cells da2
              = map (fun c =>
                       match mask_da !! col c with
                       | Some true =>
                         mkcell (col c)
                           (product (dtype da)
                              (product (dtype da) (val c) factor1) factor2)
                       | _ => c
                       end)
                    (cells da).
Proof.
  intros Er Ea ND Hst H1. unfold scale_data_vars in *.
  destruct (scale_loop_Ok _ _ _ product_dtype product result_type astype
              coord_like_vars mask_da factor1 regionMask1
              _ _ _ ND H1) as (K1 & G1 & S1).
  assert (ND1 : List.NoDup (map fst ds1)) by (rewrite K1; exact ND).
  assert (Hin : forall var (da : data_array np_dtype V K),
             get spci_ds var = Some da -> mem var (map fst spci_ds) = true)
    by (intros var da Hget; apply mem_In; exact (get_In _ _ _ Hget)).
  (* what the first run makes of a variable to scale *)
  assert (First : forall var da,
             get spci_ds var = Some da ->
             mem var coord_like_vars = false -> mem "ncol" (dims da) = true ->
             get ds1 var
             = Some (mkda (dtype da) (dims da) (ncol_size da)
                       (map (fun c =>
                               match mask_da !! col c with
                               | Some true =>
                                 mkcell (col c)
                                   (product (dtype da) (val c) factor1)
                               | _ => c
                               end)
                            (cells da))
                       (update (attrs da)
                          [("region_scaling_applied"%string, AStr "True");
                           ("region_mask_name"%string, AStr regionMask1);
                           ("region_scale_factor"%string, AFloat factor1)]))).
  { intros var da Hget Hclv Hncol.
    specialize (G1 var). rewrite Hget, (Hin var da Hget) in G1.
    unfold to_scale in G1. rewrite Hclv, Hncol in G1. cbn [negb andb] in G1.
    rewrite G1. unfold scaled.
    destruct (Hst var da Hget Hclv Hncol) as [-> _].
    rewrite Er, where_cells_stable by auto. reflexivity. }
  destruct (scale_loop_total _ _ _ product_dtype product result_type astype
              coord_like_vars mask_da factor2 regionMask2
              (map fst ds1) ds1 ND1) as (ds2 & H2).
  { intros name da1 Hget1 T. pose proof (G1 name) as G. rewrite Hget1 in G.
    destruct (get spci_ds name) as [da|] eqn:Hget; [|discriminate].
    rewrite K1 in T. apply andb_prop in T as [T1 T2].
    unfold to_scale in T2. apply andb_prop in T2 as [T2 T3].
    apply negb_true_iff in T2.
    destruct (mem "ncol" (dims da)) eqn:Hncol.
    - rewrite (First name da Hget T2 Hncol) in Hget1. injection Hget1 as <-.
      cbn [ncol_size dtype].
      destruct (Hst name da Hget T2 Hncol) as [_ ->].
      split; [|discriminate].
      apply (S1 name da Hget). rewrite T1. unfold to_scale.
      rewrite T2, Hncol. reflexivity.
    - rewrite (Hin name da Hget) in G. unfold to_scale in G.
      rewrite Hncol, andb_false_r in G. cbn [andb] in G.
      injection G as ->. congruence. }
  exists ds2. split; [exact H2|].
  intros var da Hget Hclv Hncol.
  destruct (scale_loop_Ok _ _ _ product_dtype product result_type astype
              coord_like_vars mask_da factor2 regionMask2
              _ _ _ ND1 H2) as (_ & G2 & _).
  specialize (G2 var). rewrite (First var da Hget Hclv Hncol) in G2.
  rewrite K1, (Hin var da Hget) in G2. unfold to_scale in G2.
  cbn [dims] in G2. rewrite Hclv, Hncol in G2. cbn [negb andb] in G2.
  unfold scaled in G2. cbn [dtype] in G2.
  destruct (Hst var da Hget Hclv Hncol) as [_ Hp2]. rewrite Hp2 in G2.
  eexists. split; [exact G2|]. cbn [dtype cells].
  split; [apply Er|].
  rewrite where_cells_stable by (cbn [dtype]; auto).
  cbn [cells dtype]. rewrite map_map. apply map_ext. intros c.
  destruct (mask_da !! col c) as [[|]|] eqn:E; cbn [col val]; rewrite ?E;
    reflexivity.
Qed.

Lemma X13_scaling_twice_composes_witness :
  exists ds1 ds2 bb,
    Numpy.scale_data_vars ["lat"%string; "lon"%string] [false; true; true]
      (Numpy.of_int64 7) "mask_Quebec" Numpy.example_ds = Ok ds1
    /\ Numpy.scale_data_vars ["lat"%string; "lon"%string] [false; true; true]
         (Numpy.of_int64 3) "mask_Quebec" ds1 = Ok ds2
    /\ get ds2 "bb" = Some bb
    /\ dtype bb = Numpy.float64.
Proof.
  assert (ND : List.NoDup (map fst Numpy.example_ds))
    by (cbn; repeat constructor; cbn; intuition discriminate).
  destruct (Numpy.scale_data_vars ["lat"%string; "lon"%string]
              [false; true; true] (Numpy.of_int64 7) "mask_Quebec"
              Numpy.example_ds) as [ds1|e] eqn:H;
    [|vm_compute in H; discriminate H].
  destruct (X13_scaling_twice_composes _ _ _
              Numpy.product_dtype Numpy.product Numpy.result_type Numpy.astype
              ["lat"%string; "lon"%string]
              [false; true; true] (Numpy.of_int64 7) (Numpy.of_int64 3)
              "mask_Quebec"%string "mask_Quebec"%string
              Numpy.example_ds ds1)
    as (ds2 & H2 & G).
  - intros []; reflexivity.
  - intros [] v; reflexivity.
  - exact ND.
  - intros var da Hget Hclv Hncol.
    unfold Numpy.example_ds in Hget. cbn [get] in Hget.
    repeat match type of Hget with
           | (if ?b then _ else _) = _ => destruct b
           end;
      try discriminate; injection Hget as <-;
      first [ split; reflexivity | discriminate Hncol ].
  - exact H.
  - destruct (G "bb"%string _ eq_refl eq_refl eq_refl) as (bb & Gb & Hd & _).
    exists ds1, ds2, bb. split; [reflexivity|]. split; [exact H2|].
    split; [exact Gb | exact Hd].
Defined.
